(** * DAIM-MVP: audio features -> dance motion -> BVH file

    A shallow embedding of the three core stages of the repository

    - [audio_processor.py]  ([AudioProcessor.sync_to_fps], [_resample_feature])
    - [generator.py]        ([BaselineGenerator.generate], [DanceGenerator])
    - [bvh_export.py]       ([BVHExporter])

    Python exceptions are values of [exn]; a call that may raise returns a
    [result].  Writes to an open text file are threaded through the state
    monad [FileM]; [print] and the file system live in [World].

    Numbers.  The code computes with IEEE binary64 values.  The embedding is
    written once over an interface [FloatOps] and used at two instances:
    [Float64] (Rocq's primitive binary64 floats: every arithmetic step is the
    one the interpreter performs) and [RealModel] (the real numbers, where
    [np.sin] is the mathematical sine).  The interpreter never computes with
    real numbers: [RealModel] is an idealisation, used below only to run
    statements that hold for every instance and to show which exception a
    degenerate rate raises.  Every statement about a computed value is made
    for [Float64]. *)

From Stdlib Require Import ZArith Reals Lra Floats Ascii.
From stdpp Require Import base list strings gmap pretty sorting.

Local Open Scope Z_scope.

(** ** Exceptions and the error monad *)

Inductive exn : Type :=
| ValueError (msg : string)
| IndexError (msg : string)
| KeyError (key : string)
| ZeroDivisionError (msg : string)
| OverflowError (msg : string)
| RuntimeError (msg : string)
| RecursionError
| AttributeError (msg : string)
| OSError (path : string).

(** The class name an exception object reports ([type(e).__name__]). *)
Definition exn_name (e : exn) : string :=
  match e with
  | ValueError _ => "ValueError"
  | IndexError _ => "IndexError"
  | KeyError _ => "KeyError"
  | ZeroDivisionError _ => "ZeroDivisionError"
  | OverflowError _ => "OverflowError"
  | RuntimeError _ => "RuntimeError"
  | RecursionError => "RecursionError"
  | AttributeError _ => "AttributeError"
  | OSError _ => "OSError"
  end.

Inductive result (A : Type) : Type :=
| Ok (a : A)
| Raise (e : exn).
Arguments Ok {A} a.
Arguments Raise {A} e.

#[export] Instance result_ret : MRet result := fun A a => Ok a.
#[export] Instance result_bind : MBind result :=
  fun A B f m => match m with Ok a => f a | Raise e => Raise e end.

Definition is_ok {A} (r : result A) : bool :=
  match r with Ok _ => true | Raise _ => false end.

(** [for x in xs: s = body(x, s)], stopping at the first exception. *)
Fixpoint for_each {A S : Type} (xs : list A) (body : A -> S -> result S) (s : S)
  : result S :=
  match xs with
  | [] => Ok s
  | x :: xs' => s' ← body x s; for_each xs' body s'
  end.

(** [for i in range(n)]. *)
Definition for_range {S : Type} (n : nat) (body : nat -> S -> result S) (s : S)
  : result S :=
  for_each (seq 0 n) body s.

(** [[f(x) for x in xs]], stopping at the first exception. *)
Fixpoint map_result {A B : Type} (f : A -> result B) (xs : list A) : result (list B) :=
  match xs with
  | [] => Ok []
  | x :: xs' => y ← f x; ys ← map_result f xs'; Ok (y :: ys)
  end.

(** [xs[i]] on a sequence, for a non-negative index. *)
Definition getitem {A} (xs : list A) (i : nat) : result A :=
  match xs !! i with
  | Some x => Ok x
  | None => Raise (IndexError "index out of range")
  end.

(** [xs[i]] for any integer index: negative indices count from the end. *)
Definition getitem_Z {A} (xs : list A) (i : Z) : result A :=
  let n := Z.of_nat (length xs) in
  if decide (0 <= i < n) then getitem xs (Z.to_nat i)
  else if decide (- n <= i < 0) then getitem xs (Z.to_nat (n + i))
  else Raise (IndexError "index out of range").

(** ** The numeric interface *)

Class FloatOps (F : Type) : Type := {
  of_int : Z -> F;            (* int -> float conversion *)
  fadd : F -> F -> F;
  fsub : F -> F -> F;
  fmul : F -> F -> F;
  fdiv : F -> F -> F;         (* IEEE division, never raises *)
  fneg : F -> F;
  fabs : F -> F;
  feqb : F -> F -> bool;      (* == *)
  fltb : F -> F -> bool;      (* <  *)
  ftrunc : F -> result Z      (* int(x): truncation toward zero *)
}.

Class Trig (F : Type) : Type := {
  np_sin : F -> F;
  np_pi : F
}.

(** [format(x, '.<prec>f')]. *)
Class Format (F : Type) : Type := {
  format_f : nat -> F -> string
}.

Declare Scope py_scope.
Delimit Scope py_scope with py.
Infix "⊕" := fadd (at level 50, left associativity) : py_scope.
Infix "⊖" := fsub (at level 50, left associativity) : py_scope.
Infix "⊗" := fmul (at level 40, left associativity) : py_scope.
Infix "⊘" := fdiv (at level 40, left associativity) : py_scope.
Notation "x >ᶠ y" := (fltb y x) (at level 70, no associativity) : py_scope.
Notation "x <ᶠ y" := (fltb x y) (at level 70, no associativity) : py_scope.
Local Open Scope py_scope.

Section PyNumbers.
Context {F : Type} `{FloatOps F}.

(** A decimal literal [m * 10^-k], such as [0.05 = decimal 5 2].  Both
    instances round the quotient of two exactly represented integers
    correctly, which is how a literal is read. *)
Definition decimal (m : Z) (k : nat) : F := of_int m ⊘ of_int (10 ^ Z.of_nat k).

(** Python's [a / b] on [float] operands. *)
Definition py_div (a b : F) : result F :=
  if feqb b (of_int 0) then Raise (ZeroDivisionError "division by zero")
  else Ok (a ⊘ b).
End PyNumbers.

(** ** Instance 1: IEEE binary64 *)

Module Float64.

Definition of_Z (z : Z) : float := SF2Prim (binary_normalize 53 1024 z 0 false).

(** [int(x)]. *)
Definition trunc (x : float) : result Z :=
  match Prim2SF x with
  | S754_zero _ => Ok 0
  | S754_infinity _ => Raise (OverflowError "cannot convert float infinity to integer")
  | S754_nan => Raise (ValueError "cannot convert float NaN to integer")
  | S754_finite s m e =>
      let a := if decide (0 <= e) then Z.pos m * 2 ^ e else Z.pos m / 2 ^ (- e) in
      Ok (if s then - a else a)
  end.

(** Nearest integer to [num / den], ties to the even one ([den > 0],
    [num >= 0]). *)
Definition round_half_even (num den : Z) : Z :=
  let q := num / den in
  let r := num mod den in
  match 2 * r ?= den with
  | Lt => q
  | Gt => q + 1
  | Eq => if Z.even q then q else q + 1
  end.

(** [round(x)] with one argument: nearest integer, ties to even. *)
Definition round (x : float) : result Z :=
  match Prim2SF x with
  | S754_zero _ => Ok 0
  | S754_infinity _ => Raise (OverflowError "cannot convert float infinity to integer")
  | S754_nan => Raise (ValueError "cannot convert float NaN to integer")
  | S754_finite s m e =>
      let a := if decide (0 <= e) then Z.pos m * 2 ^ e
               else round_half_even (Z.pos m) (2 ^ (- e)) in
      Ok (if s then - a else a)
  end.

(** [|m * 2^e| * 10^prec], rounded to the nearest integer, ties to even. *)
Definition scaled (prec : nat) (m : positive) (e : Z) : Z :=
  let p := 10 ^ Z.of_nat prec in
  if decide (0 <= e) then Z.pos m * 2 ^ e * p
  else round_half_even (Z.pos m * p) (2 ^ (- e)).

Definition pad_zeros (width : nat) (s : string) : string :=
  String.string_of_list_ascii (replicate (width - String.length s) "0"%char) +:+ s.

(** Sign, integer part, and [prec] fractional digits of [n / 10^prec]. *)
Definition fixed (prec : nat) (neg : bool) (n : Z) : string :=
  let p := 10 ^ Z.of_nat prec in
  (if neg then "-" else "") +:+ pretty (Z.to_N (n / p)) +:+
  (match prec with
   | O => ""
   | _ => "." +:+ pad_zeros prec (pretty (Z.to_N (n mod p)))
   end).

(** [format(x, '.<prec>f')]: the exact binary value, correctly rounded;
    independent of any locale. *)
Definition format (prec : nat) (x : float) : string :=
  match Prim2SF x with
  | S754_zero s => fixed prec s 0
  | S754_infinity s => if s then "-inf" else "inf"
  | S754_nan => "nan"
  | S754_finite s m e => fixed prec s (scaled prec m e)
  end.

(** The number a finite binary64 value stands for: [(-1)^s * m * 2^e]. *)
Definition value (x : float) : option R :=
  match Prim2SF x with
  | S754_zero _ => Some 0%R
  | S754_finite s m e =>
      let v := if decide (0 <= e) then (IZR (Z.pos m) * IZR (2 ^ e))%R
               else (IZR (Z.pos m) / IZR (2 ^ (- e)))%R in
      Some (if s then (- v)%R else v)
  | _ => None
  end.

#[global] Instance ops : FloatOps float := {|
  of_int := of_Z;
  fadd := PrimFloat.add;
  fsub := PrimFloat.sub;
  fmul := PrimFloat.mul;
  fdiv := PrimFloat.div;
  fneg := PrimFloat.opp;
  fabs := PrimFloat.abs;
  feqb := PrimFloat.eqb;
  fltb := PrimFloat.ltb;
  ftrunc := trunc
|}.

#[global] Instance fmt : Format float := {| format_f := format |}.

End Float64.

(** ** Instance 2: the real numbers

    Exact arithmetic and the mathematical sine.  This is not what the
    interpreter computes: sums, products and quotients are not rounded, and
    [np_pi] is pi itself rather than the binary64 number nearest to it. *)

Module RealModel.

Definition trunc (x : R) : result Z :=
  Ok (if Rle_dec 0 x then Int_part x else (- Int_part (- x))%Z).

#[global] Instance ops : FloatOps R := {|
  of_int := IZR;
  fadd := Rplus;
  fsub := Rminus;
  fmul := Rmult;
  fdiv := Rdiv;
  fneg := Ropp;
  fabs := Rabs;
  feqb := fun x y => if Req_dec_T x y then true else false;
  fltb := fun x y => if Rlt_dec x y then true else false;
  ftrunc := trunc
|}.

#[global] Instance trig : Trig R := {| np_sin := sin; np_pi := PI |}.

End RealModel.


(** ** Text output: an open file, the console, the file system *)

Definition nl : string := String (ascii_of_nat 10) "".

(** [sep.join(parts)]. *)
Fixpoint join (sep : string) (parts : list string) : string :=
  match parts with
  | [] => ""
  | [p] => p
  | p :: rest => p +:+ sep +:+ join sep rest
  end.

(** [s * n] on strings. *)
Fixpoint str_repeat (s : string) (n : nat) : string :=
  match n with
  | O => ""
  | S n' => s +:+ str_repeat s n'
  end.

(** Code that writes to one open text file: the state is what has been
    written so far; an exception leaves the text written before it. *)
Definition FileM (A : Type) : Type := string -> string * result A.

#[export] Instance FileM_ret : MRet FileM := fun A a buf => (buf, Ok a).
#[export] Instance FileM_bind : MBind FileM :=
  fun A B f m buf =>
    match m buf with
    | (buf', Ok a) => f a buf'
    | (buf', Raise e) => (buf', Raise e)
    end.

(** [file.write(text)]. *)
Definition file_write (text : string) : FileM unit :=
  fun buf => (buf +:+ text, Ok tt).

(** A computation that touches no file, run between writes. *)
Definition file_lift {A} (r : result A) : FileM A := fun buf => (buf, r).

Fixpoint file_for_each {A} (xs : list A) (body : A -> FileM unit) : FileM unit :=
  match xs with
  | [] => mret tt
  | x :: xs' => body x ;; file_for_each xs' body
  end.

Record World : Type := mkWorld {
  fs : gmap string string;       (* path -> contents *)
  writable : string -> bool;     (* can [open(path, 'w')] succeed? *)
  stdout : list string           (* lines printed so far *)
}.

Definition IO (A : Type) : Type := World -> World * result A.

#[export] Instance IO_ret : MRet IO := fun A a w => (w, Ok a).
#[export] Instance IO_bind : MBind IO :=
  fun A B f m w =>
    match m w with
    | (w', Ok a) => f a w'
    | (w', Raise e) => (w', Raise e)
    end.

Definition print (line : string) : IO unit :=
  fun w => (mkWorld (fs w) (writable w) (stdout w ++ [line]), Ok tt).

Definition io_lift {A} (r : result A) : IO A := fun w => (w, r).

(** [with open(path, 'w') as f: body(f)].  Opening truncates; the file is
    closed (and keeps what was written) whether or not the body raises. *)
Definition with_open_w {A} (path : string) (body : FileM A) : IO A :=
  fun w =>
    if writable w path then
      let '(text, r) := body "" in
      (mkWorld (<[path := text]> (fs w)) (writable w) (stdout w), r)
    else (w, Raise (OSError path)).

(** ** numpy arrays: a shape and nested rows *)

Record ndarray2 (F : Type) : Type := NDArray2 {
  rows : nat;
  cols : nat;
  data2 : list (list F)
}.
Arguments NDArray2 {F} rows cols data2.
Arguments rows {F} _.
Arguments cols {F} _.
Arguments data2 {F} _.

Record ndarray3 (F : Type) : Type := NDArray3 {
  dim0 : nat;
  dim1 : nat;
  dim2 : nat;
  data3 : list (list (list F))
}.
Arguments NDArray3 {F} dim0 dim1 dim2 data3.
Arguments dim0 {F} _.
Arguments dim1 {F} _.
Arguments dim2 {F} _.
Arguments data3 {F} _.

(** The rows agree with the declared shape. *)
Definition wf2 {F} (a : ndarray2 F) : Prop :=
  length (data2 a) = rows a /\ Forall (fun r => length r = cols a) (data2 a).

Definition wf3 {F} (a : ndarray3 F) : Prop :=
  length (data3 a) = dim0 a /\
  Forall (fun fr => length fr = dim1 a /\ Forall (fun r => length r = dim2 a) fr)
         (data3 a).

Section NumPy.
Context {F : Type} `{FloatOps F}.

(** [np.zeros((r, c))]. *)
Definition np_zeros2 (r c : nat) : ndarray2 F :=
  NDArray2 r c (replicate r (replicate c (of_int 0))).

(** [np.zeros((r, c))] where [c] is an [int] that may be negative. *)
Definition np_zeros2_Z (r : nat) (c : Z) : result (ndarray2 F) :=
  if decide (c < 0) then Raise (ValueError "negative dimensions are not allowed")
  else Ok (np_zeros2 r (Z.to_nat c)).

(** [np.zeros((a, b, c))]. *)
Definition np_zeros3 (a b c : nat) : ndarray3 F :=
  NDArray3 a b c (replicate a (replicate b (replicate c (of_int 0)))).

(** [arr[i, :]]. *)
Definition row2 (a : ndarray2 F) (i : nat) : result (list F) := getitem (data2 a) i.

(** [arr[i, :] = ys]. *)
Definition set_row2 (a : ndarray2 F) (i : nat) (ys : list F) : result (ndarray2 F) :=
  if decide (i < rows a)%nat then
    if decide (length ys = cols a) then
      Ok (NDArray2 (rows a) (cols a) (<[i := ys]> (data2 a)))
    else Raise (ValueError "could not broadcast input array")
  else Raise (IndexError "index out of bounds").

(** [arr[i, j] = v]. *)
Definition set2 (a : ndarray2 F) (i j : nat) (v : F) : result (ndarray2 F) :=
  r ← getitem (data2 a) i;
  _ ← getitem r j;
  Ok (NDArray2 (rows a) (cols a) (<[i := <[j := v]> r]> (data2 a))).

(** [arr[i, j, :]]. *)
Definition row3 (a : ndarray3 F) (i j : nat) : result (list F) :=
  fr ← getitem (data3 a) i;
  getitem fr j.

(** [arr[i, j, k] = v]. *)
Definition set3 (a : ndarray3 F) (i j k : nat) (v : F) : result (ndarray3 F) :=
  fr ← getitem (data3 a) i;
  r ← getitem fr j;
  _ ← getitem r k;
  Ok (NDArray3 (dim0 a) (dim1 a) (dim2 a)
        (<[i := <[j := <[k := v]> r]> fr]> (data3 a))).

(** [arr[i, :, :] *= c]. *)
Definition scale_frame3 (a : ndarray3 F) (i : nat) (c : F) : result (ndarray3 F) :=
  fr ← getitem (data3 a) i;
  Ok (NDArray3 (dim0 a) (dim1 a) (dim2 a)
        (<[i := map (map (fun v => v ⊗ c)) fr]> (data3 a))).

(** [vec.reshape(1, -1)]. *)
Definition reshape_row (v : list F) : ndarray2 F := NDArray2 1 (length v) [v].

(** [arr.squeeze(0)]. *)
Definition squeeze0 (a : ndarray2 F) : result (list F) :=
  match data2 a with
  | [r] => Ok r
  | _ => Raise (ValueError "cannot select an axis to squeeze out which has size not equal to one")
  end.

(** [np.linspace(start, stop, num)] (endpoint included), following numpy:
    [arange(num) * step + start] with [step = (stop - start) / (num - 1)],
    and the last sample set to [stop]. *)
Definition np_linspace (start stop : F) (num : Z) : result (list F) :=
  if decide (num < 0) then
    Raise (ValueError ("Number of samples, " +:+ pretty num +:+ ", must be non-negative."))
  else
    let n := Z.to_nat num in
    let div := num - 1 in
    let delta := stop ⊖ start in
    let y := (fun i : nat => of_int (Z.of_nat i)) <$> seq 0 n in
    let y :=
      if decide (0 < div) then
        let step := delta ⊘ of_int div in
        if feqb step (of_int 0) then (fun v => (v ⊘ of_int div) ⊗ delta) <$> y
        else (fun v => v ⊗ step) <$> y
      else (fun v => v ⊗ delta) <$> y in
    let y := (fun v => v ⊕ start) <$> y in
    Ok (if decide (1 < num) then <[(n - 1)%nat := stop]> y else y).

End NumPy.

(** ** scipy.interpolate.interp1d, kind='linear'

    The library is not part of the repository; this is the part of its
    behaviour [_resample_feature] relies on.  [minval] is the least number of
    samples the constructor accepts for linear interpolation: 2 in older
    releases, 1 in newer ones.

    The constructor's checks, the range check and the length of the result
    are the library's.  The values are not: [linear_at] follows the
    library's generic formula, whereas for a float64 row the library hands
    the work to [np.interp], which rounds differently and returns the end
    samples unchanged, and a float32 row is subtracted in float32.  The
    properties below use the lengths and the exceptions only, never a
    resampled value. *)

Record interp1d (F : Type) : Type := Interp1d {
  ip_x : list F;
  ip_y : list F
}.
Arguments Interp1d {F} ip_x ip_y.
Arguments ip_x {F} _.
Arguments ip_y {F} _.

Section SciPy.
Context {F : Type} `{FloatOps F}.
Variable minval : nat.

(** [interp1d(x, y, kind='linear')]. *)
Definition interp1d_init (x y : list F) : result (interp1d F) :=
  if decide (length y = length x) then
    if decide (length x < minval)%nat then
      Raise (ValueError ("x and y arrays must have at least " +:+ pretty minval +:+ " entries"))
    else Ok (Interp1d x y)
  else Raise (ValueError "x and y arrays must be equal in length along interpolation axis.").

(** [np.searchsorted(xs, v)] on ascending [xs]: how many samples lie
    strictly below [v]. *)
Fixpoint searchsorted (xs : list F) (v : F) : nat :=
  match xs with
  | [] => O
  | x :: xs' => if x <ᶠ v then S (searchsorted xs' v) else O
  end.

(** One output sample by the generic formula: the segment is picked by
    [searchsorted], clipped to [1 .. len-1], and the value lies on the line
    through its end points.  With a single sample both end points are that
    sample and the slope is 0 / 0. *)
Definition linear_at (f : interp1d F) (v : F) : result F :=
  let len := Z.of_nat (length (ip_x f)) in
  let idx := Z.min (Z.max (Z.of_nat (searchsorted (ip_x f) v)) 1) (len - 1) in
  let lo := idx - 1 in
  let hi := idx in
  x_lo ← getitem_Z (ip_x f) lo;
  x_hi ← getitem_Z (ip_x f) hi;
  y_lo ← getitem_Z (ip_y f) lo;
  y_hi ← getitem_Z (ip_y f) hi;
  let slope := (y_hi ⊖ y_lo) ⊘ (x_hi ⊖ x_lo) in
  Ok (slope ⊗ (v ⊖ x_lo) ⊕ y_lo).

(** The range check made on every call (bounds_error is on by default). *)
Definition check_bounds (f : interp1d F) (x_new : list F) : result unit :=
  x_first ← getitem_Z (ip_x f) 0;
  x_last ← getitem_Z (ip_x f) (-1);
  if existsb (fun v => v <ᶠ x_first) x_new then
    Raise (ValueError "A value in x_new is below the interpolation range.")
  else if existsb (fun v => v >ᶠ x_last) x_new then
    Raise (ValueError "A value in x_new is above the interpolation range.")
  else Ok tt.

(** [f(x_new)]. *)
Definition interp1d_call (f : interp1d F) (x_new : list F) : result (list F) :=
  y_new ← map_result (linear_at f) x_new;
  _ ← check_bounds f x_new;
  Ok y_new.

End SciPy.

(** ** The feature dictionary

    The dict passed between the stages; a key that is absent is [None]. *)

Record AudioFeatures (F : Type) : Type := mkFeatures {
  mel : option (ndarray2 F);
  chroma : option (ndarray2 F);
  onset : option (list F);
  tempo : option F;
  beats : option (list Z);
  duration : option F
}.
Arguments mkFeatures {F} mel chroma onset tempo beats duration.
Arguments mel {F} _.
Arguments chroma {F} _.
Arguments onset {F} _.
Arguments tempo {F} _.
Arguments beats {F} _.
Arguments duration {F} _.

(** [d[key]]. *)
Definition dict_item {A} (key : string) (v : option A) : result A :=
  match v with
  | Some a => Ok a
  | None => Raise (KeyError key)
  end.

(** ** audio_processor.py *)

Module AudioProcessor.

Record t : Type := mk {
  target_fps : Z;
  sample_rate : Z
}.

(** [AudioProcessor(target_fps=60, sample_rate=48000)]. *)
Definition __init__ (target_fps sample_rate : Z) : t := mk target_fps sample_rate.

Section Methods.
Context {F : Type} `{FloatOps F}.
Variable minval : nat.

Definition _resample_feature (self : t) (feature : ndarray2 F) (target_length : Z)
  : result (ndarray2 F) :=
  let current_length := cols feature in
  x_current ← np_linspace (of_int 0) (of_int 1) (Z.of_nat current_length);
  x_target ← np_linspace (of_int 0) (of_int 1) target_length;
  resampled ← np_zeros2_Z (rows feature) target_length;
  for_range (rows feature)
    (fun i resampled =>
       y ← row2 feature i;
       f ← interp1d_init minval x_current y;
       y_new ← interp1d_call f x_target;
       set_row2 resampled i y_new)
    resampled.

Definition sync_to_fps (self : t) (mel chroma : ndarray2 F) (onset : list F)
    (audio_sr hop_length : Z) : result (AudioFeatures F) :=
  feature_fps ← py_div (of_int audio_sr) (of_int hop_length);
  let num_feature_frames := cols mel in
  duration ← py_div (of_int (Z.of_nat num_feature_frames)) feature_fps;
  num_motion_frames ← ftrunc (duration ⊗ of_int (target_fps self));
  mel_resampled ← _resample_feature self mel num_motion_frames;
  chroma_resampled ← _resample_feature self chroma num_motion_frames;
  onset_resampled ← _resample_feature self (reshape_row onset) num_motion_frames;
  onset_flat ← squeeze0 onset_resampled;
  Ok (mkFeatures (Some mel_resampled) (Some chroma_resampled) (Some onset_flat)
        None None None).

End Methods.

End AudioProcessor.

(** ** generator.py *)

Record Config (F : Type) : Type := mkConfig {
  hidden_dim : Z;
  num_layers : Z;
  num_heads : Z;
  dropout : F;
  seed_length : Z;
  max_length : Z;
  num_joints : nat;
  pose_dim : Z;
  trans_dim : Z
}.
Arguments mkConfig {F} _ _ _ _ _ _ _ _ _.
Arguments num_joints {F} _.

(** The dict returned by [generate]. *)
Record Motion (F : Type) : Type := mkMotion {
  rotations : ndarray3 F;
  translations : ndarray2 F;
  num_frames : nat;
  motion_fps : Z
}.
Arguments mkMotion {F} _ _ _ _.
Arguments rotations {F} _.
Arguments translations {F} _.
Arguments num_frames {F} _.
Arguments motion_fps {F} _.

Module BaselineGenerator.

Record t (F : Type) : Type := mk { config : Config F }.
Arguments mk {F} config.
Arguments config {F} _.

Section Methods.
Context {F : Type} `{FloatOps F} `{Trig F}.

(** The body of the loop over [frame_idx]. *)
Definition generate_frame (tempo : F) (onset : list F) (frame_idx : nat)
    (arrays : ndarray3 F * ndarray2 F) : result (ndarray3 F * ndarray2 F) :=
  let '(rotations, translations) := arrays in
  let t := of_int (Z.of_nat frame_idx) ⊘ of_int 60 in
  (* Root motion *)
  translations ← set2 translations frame_idx 0
    (decimal 1 1 ⊗ np_sin (of_int 2 ⊗ np_pi ⊗ t ⊗ tempo ⊘ of_int 60));
  translations ← set2 translations frame_idx 1
    (of_int 1 ⊕ decimal 5 2 ⊗ fabs (np_sin (of_int 4 ⊗ np_pi ⊗ t ⊗ tempo ⊘ of_int 60)));
  translations ← set2 translations frame_idx 2 (of_int 0);
  (* Beat intensity *)
  beat_intensity ←
    (if decide (frame_idx < length onset)%nat then getitem onset frame_idx
     else Ok (of_int 0));
  (* Spine rotation *)
  rotations ← set3 rotations frame_idx 3 1
    (of_int 5 ⊗ np_sin (of_int 2 ⊗ np_pi ⊗ t ⊗ tempo ⊘ of_int 60));
  rotations ← set3 rotations frame_idx 6 1
    (of_int 3 ⊗ np_sin (of_int 2 ⊗ np_pi ⊗ t ⊗ tempo ⊘ of_int 60 ⊕ decimal 5 1));
  (* Arm movements *)
  let arm_phase := of_int 2 ⊗ np_pi ⊗ t ⊗ tempo ⊘ of_int 60 in
  rotations ← set3 rotations frame_idx 16 0 (of_int 30 ⊕ of_int 30 ⊗ np_sin arm_phase);
  rotations ← set3 rotations frame_idx 17 0
    (of_int 30 ⊕ of_int 30 ⊗ np_sin (arm_phase ⊕ np_pi));
  rotations ← set3 rotations frame_idx 16 2 (of_int 20 ⊗ np_sin (arm_phase ⊗ of_int 2));
  rotations ← set3 rotations frame_idx 17 2
    (fneg (of_int 20) ⊗ np_sin (arm_phase ⊗ of_int 2));
  (* Elbow movements *)
  rotations ← set3 rotations frame_idx 18 0
    (of_int 10 ⊕ of_int 20 ⊗ fabs (np_sin arm_phase));
  rotations ← set3 rotations frame_idx 19 0
    (of_int 10 ⊕ of_int 20 ⊗ fabs (np_sin (arm_phase ⊕ np_pi)));
  (* Hip movements *)
  let hip_phase := of_int 2 ⊗ np_pi ⊗ t ⊗ tempo ⊘ of_int 120 in
  rotations ← set3 rotations frame_idx 1 2 (of_int 10 ⊗ np_sin hip_phase);
  rotations ← set3 rotations frame_idx 2 2 (fneg (of_int 10) ⊗ np_sin hip_phase);
  (* Extra movement on beats *)
  rotations ←
    (if beat_intensity >ᶠ decimal 5 1 then
       scale_frame3 rotations frame_idx (of_int 1 ⊕ decimal 2 1 ⊗ beat_intensity)
     else Ok rotations);
  Ok (rotations, translations).

Definition generate (self : t F) (audio_features : AudioFeatures F)
    (seed_motion : option (ndarray3 F)) : result (Motion F) :=
  m ← dict_item "mel" (mel audio_features);
  let num_frames := cols m in
  let num_joints := num_joints (config self) in
  let tempo := default (of_int 120) (tempo audio_features) in
  let beats := default [] (beats audio_features) in
  let onset := default (replicate num_frames (of_int 0)) (onset audio_features) in
  let rotations := np_zeros3 num_frames num_joints 3 in
  let translations := np_zeros2 num_frames 3 in
  '(rotations, translations) ←
    for_range num_frames (generate_frame tempo onset) (rotations, translations);
  Ok (mkMotion rotations translations num_frames 60).

End Methods.

End BaselineGenerator.

Module DanceGenerator.

Record t (F : Type) : Type := mk {
  device : string;
  model_path : option string;
  model : option (BaselineGenerator.t F);
  loaded : bool;
  config : Config F
}.
Arguments mk {F} _ _ _ _ _.
Arguments device {F} _.
Arguments model_path {F} _.
Arguments model {F} _.
Arguments loaded {F} _.
Arguments config {F} _.

Section Methods.
Context {F : Type} `{FloatOps F} `{Trig F} `{Format F}.

Definition _create_baseline_model (self : t F) : IO (BaselineGenerator.t F) :=
  print "ℹ️  Creating baseline procedural generator...";;
  mret (BaselineGenerator.mk (config self)).

Definition load_model (self : t F) (path : string) : IO (t F) :=
  print ("📦 Loading model from: " +:+ path);;
  m ← _create_baseline_model self;
  print "✅ Model loaded successfully (baseline mode)";;
  mret (mk (device self) (model_path self) (Some m) true (config self)).

(** [DanceGenerator(model_path=None, device='cpu')]. *)
Definition __init__ (model_path : option string) (device : string) : IO (t F) :=
  print (nl +:+ "🤖 Initializing Dance Generator (CPU mode)");;
  let self :=
    mk device model_path None false
       (mkConfig 512 8 8 (decimal 1 1) 120 1800 24%nat 72 3) in
  match model_path with
  | Some p => if decide (p = "") then mret self else load_model self p
  | None => mret self
  end.

Definition generate (self : t F) (audio_features : AudioFeatures F)
    (dance_style : option string) (seed_motion : option (ndarray3 F))
  : IO (Motion F) :=
  if negb (loaded self) then
    io_lift (Raise (RuntimeError "Model not loaded! Call load_model() first."))
  else
    print (nl +:+ "💃 Generating dance motion...");;
    d ← io_lift (dict_item "duration" (duration audio_features));
    print ("  - Audio duration: " +:+ format_f 2 d +:+ "s");;
    tp ← io_lift (dict_item "tempo" (tempo audio_features));
    print ("  - Tempo: " +:+ format_f 1 tp +:+ " BPM");;
    print ("  - Style: " +:+
           match dance_style with
           | Some s => if decide (s = "") then "auto" else s
           | None => "auto"
           end);;
    m ← io_lift (match model self with
                 | Some m => Ok m
                 | None => Raise (AttributeError "'NoneType' object has no attribute 'generate'")
                 end);
    motion_data ← io_lift (BaselineGenerator.generate m audio_features seed_motion);
    print ("✅ Generated " +:+ pretty (num_frames motion_data) +:+ " frames");;
    dur ← io_lift (py_div (of_int (Z.of_nat (num_frames motion_data)))
                          (of_int (motion_fps motion_data)));
    print ("  - Duration: " +:+ format_f 2 dur +:+ "s");;
    mret motion_data.

(** The dict of [convert_to_smpl]: rotations, translations, fps. *)
Definition convert_to_smpl (self : t F) (motion_data : Motion F)
  : ndarray3 F * ndarray2 F * Z :=
  (rotations motion_data, translations motion_data, motion_fps motion_data).

End Methods.

End DanceGenerator.

(** ** bvh_export.py *)

Module BVHExporter.

(** SMPL joint names (24 joints). *)
Definition JOINT_NAMES : list string :=
  [ "Pelvis"; "L_Hip"; "R_Hip"; "Spine1"; "L_Knee"; "R_Knee"; "Spine2";
    "L_Ankle"; "R_Ankle"; "Spine3"; "L_Foot"; "R_Foot"; "Neck"; "L_Collar";
    "R_Collar"; "Head"; "L_Shoulder"; "R_Shoulder"; "L_Elbow"; "R_Elbow";
    "L_Wrist"; "R_Wrist"; "L_Hand"; "R_Hand" ].

(** Parent index of each joint; [-1] marks the root. *)
Definition PARENT_INDICES : list Z :=
  [ -1; 0; 0; 0; 1; 2; 3; 4; 5; 6; 7; 8; 9; 9; 9; 12; 13; 14; 16; 17; 18; 19;
    20; 21 ].

Record t (F : Type) : Type := mk {
  fps : Z;
  frame_time : F
}.
Arguments mk {F} fps frame_time.
Arguments fps {F} _.
Arguments frame_time {F} _.

Section Methods.
Context {F : Type} `{FloatOps F} `{Format F}.

(** [BVHExporter(fps=60)]. *)
Definition __init__ (fps : Z) : result (t F) :=
  frame_time ← py_div (of_int 1) (of_int fps);
  Ok (mk fps frame_time).

(** The [offsets] dict of [_get_joint_offset]. *)
Definition offsets : gmap nat (list F) :=
  let z := of_int 0 in
  list_to_map
    [ (0%nat, [z; z; z]);
      (1%nat, [decimal 1 1; fneg (decimal 5 2); z]);
      (2%nat, [fneg (decimal 1 1); fneg (decimal 5 2); z]);
      (3%nat, [z; decimal 1 1; z]);
      (4%nat, [z; fneg (decimal 4 1); z]);
      (5%nat, [z; fneg (decimal 4 1); z]);
      (6%nat, [z; decimal 15 2; z]);
      (7%nat, [z; fneg (decimal 4 1); z]);
      (8%nat, [z; fneg (decimal 4 1); z]);
      (9%nat, [z; decimal 15 2; z]);
      (10%nat, [z; fneg (decimal 1 1); decimal 1 1]);
      (11%nat, [z; fneg (decimal 1 1); decimal 1 1]);
      (12%nat, [z; decimal 15 2; z]);
      (13%nat, [decimal 15 2; decimal 5 2; z]);
      (14%nat, [fneg (decimal 15 2); decimal 5 2; z]);
      (15%nat, [z; decimal 15 2; z]);
      (16%nat, [decimal 2 1; z; z]);
      (17%nat, [fneg (decimal 2 1); z; z]);
      (18%nat, [decimal 25 2; z; z]);
      (19%nat, [fneg (decimal 25 2); z; z]);
      (20%nat, [decimal 25 2; z; z]);
      (21%nat, [fneg (decimal 25 2); z; z]);
      (22%nat, [decimal 1 1; z; z]);
      (23%nat, [fneg (decimal 1 1); z; z]) ].

Definition _get_joint_offset (self : t F) (joint_idx : nat) : list F :=
  default [of_int 0; of_int 0; of_int 0] (offsets !! joint_idx).

(** [[i for i, parent in enumerate(PARENT_INDICES) if parent == joint_idx]]. *)
Definition children_of (joint_idx : nat) : list nat :=
  (filter (fun ip => ip.2 = Z.of_nat joint_idx) (imap (fun i p => (i, p)) PARENT_INDICES)).*1.

(** [depth] is the number of nested calls the interpreter still allows. *)
Fixpoint _write_joint (depth : nat) (self : t F) (joint_idx indent_level : nat)
  : FileM unit :=
  match depth with
  | O => file_lift (Raise RecursionError)
  | S depth' =>
      let indent := str_repeat "  " indent_level in
      joint_name ← file_lift (getitem JOINT_NAMES joint_idx);
      (if decide (joint_idx = 0%nat)
       then file_write (indent +:+ "ROOT " +:+ joint_name +:+ nl)
       else file_write (indent +:+ "JOINT " +:+ joint_name +:+ nl));;
      file_write (indent +:+ "{" +:+ nl);;
      let offset := _get_joint_offset self joint_idx in
      o0 ← file_lift (getitem offset 0);
      o1 ← file_lift (getitem offset 1);
      o2 ← file_lift (getitem offset 2);
      file_write (indent +:+ "  OFFSET " +:+ format_f 6 o0 +:+ " " +:+
                  format_f 6 o1 +:+ " " +:+ format_f 6 o2 +:+ nl);;
      (if decide (joint_idx = 0%nat)
       then file_write (indent +:+
              "  CHANNELS 6 Xposition Yposition Zposition Zrotation Xrotation Yrotation" +:+ nl)
       else file_write (indent +:+ "  CHANNELS 3 Zrotation Xrotation Yrotation" +:+ nl));;
      let children := children_of joint_idx in
      (match children with
       | _ :: _ =>
           file_for_each children
             (fun child_idx => _write_joint depth' self child_idx (indent_level + 1))
       | [] =>
           file_write (indent +:+ "  End Site" +:+ nl);;
           file_write (indent +:+ "  {" +:+ nl);;
           file_write (indent +:+ "    OFFSET 0.0 0.0 0.0" +:+ nl);;
           file_write (indent +:+ "  }" +:+ nl)
       end);;
      file_write (indent +:+ "}" +:+ nl)
  end.

Definition _write_hierarchy (depth : nat) (self : t F) : FileM unit :=
  file_write ("HIERARCHY" +:+ nl);;
  _write_joint depth self 0 0.

(** The values of one frame line, before formatting: [frame_data]. *)
Definition frame_data (motion_data : ndarray3 F) (translations : ndarray2 F)
    (frame_idx : nat) : result (list F) :=
  tr ← row2 translations frame_idx;
  for_range (dim1 motion_data)
    (fun joint_idx frame_data =>
       rotation ← row3 motion_data frame_idx joint_idx;
       Ok (frame_data ++ rotation))
    ([] ++ tr).

Definition _write_motion (self : t F) (motion_data : ndarray3 F)
    (translations : ndarray2 F) : FileM unit :=
  let num_frames := dim0 motion_data in
  file_write ("MOTION" +:+ nl);;
  file_write ("Frames: " +:+ pretty num_frames +:+ nl);;
  file_write ("Frame Time: " +:+ format_f 6 (frame_time self) +:+ nl);;
  file_for_each (seq 0 num_frames)
    (fun frame_idx =>
       fd ← file_lift (frame_data motion_data translations frame_idx);
       let frame_str := join " " (format_f 6 <$> fd) in
       file_write (frame_str +:+ nl)).

Definition export (depth : nat) (self : t F) (motion_data : ndarray3 F)
    (output_path : string) (translations : option (ndarray2 F)) : IO unit :=
  let num_frames := dim0 motion_data in
  let num_joints := dim1 motion_data in
  (if decide (num_joints ≠ 24%nat)
   then print ("⚠️  Warning: Expected 24 joints, got " +:+ pretty num_joints +:+
               ". Adjusting...")
   else mret tt);;
  let translations := default (np_zeros2 num_frames 3) translations in
  print (nl +:+ "📝 Exporting BVH file...");;
  print ("  - Frames: " +:+ pretty num_frames);;
  print ("  - FPS: " +:+ pretty (fps self));;
  d ← io_lift (py_div (of_int (Z.of_nat num_frames)) (of_int (fps self)));
  print ("  - Duration: " +:+ format_f 2 d +:+ "s");;
  with_open_w output_path
    (_write_hierarchy depth self;;
     _write_motion self motion_data translations);;
  print ("✅ BVH exported to: " +:+ output_path).

End Methods.

End BVHExporter.

(** ** Reading a BVH text back

    A reader for the format the exporter writes, used to state what the
    written text means: blocks are delimited by braces alone (indentation is
    not significant), as in any BVH consumer. *)

Module BVHSyntax.

Fixpoint split_chars (c : ascii) (s cur : list ascii) : list (list ascii) :=
  match s with
  | [] => [reverse cur]
  | a :: s' =>
      if decide (a = c) then reverse cur :: split_chars c s' []
      else split_chars c s' (a :: cur)
  end.

(** [s.split(c)], without the empty pieces. *)
Definition split (c : ascii) (s : string) : list string :=
  filter (fun p => p ≠ "")
    (String.string_of_list_ascii <$> split_chars c (String.list_ascii_of_string s) []).

(** The non-blank lines, each cut into its words. *)
Definition tokens (text : string) : list (list string) :=
  filter (fun ws => ws ≠ []) (split " " <$> split (ascii_of_nat 10) text).

(** One [ROOT]/[JOINT] block. *)
#[warnings="-register-all"]
Inductive block : Type :=
| Block (tag name : string) (offset channels : list string)
        (children : list block) (end_site : option (list string)).

Definition tag (b : block) : string := let 'Block t _ _ _ _ _ := b in t.
Definition name (b : block) : string := let 'Block _ n _ _ _ _ := b in n.
Definition offset (b : block) : list string := let 'Block _ _ o _ _ _ := b in o.
Definition channels (b : block) : list string := let 'Block _ _ _ c _ _ := b in c.
Definition children (b : block) : list block := let 'Block _ _ _ _ k _ := b in k.
Definition end_site (b : block) : option (list string) :=
  let 'Block _ _ _ _ _ e := b in e.

Fixpoint parse_block (fuel : nat) (ls : list (list string))
  : option (block * list (list string)) :=
  match fuel with
  | O => None
  | S fuel' =>
      match ls with
      | [t; n] :: [open] :: (kw_off :: off) :: (kw_ch :: count :: chans) :: rest =>
          if bool_decide ((t = "ROOT" \/ t = "JOINT") /\ open = "{" /\
                          kw_off = "OFFSET" /\ kw_ch = "CHANNELS" /\
                          count = pretty (length chans))
          then
            match rest with
            | [e; s] :: [open'] :: (kw_off' :: eoff) :: [close'] :: [close] :: rest' =>
                if bool_decide (e = "End" /\ s = "Site" /\ open' = "{" /\
                                kw_off' = "OFFSET" /\ close' = "}" /\ close = "}")
                then Some (Block t n off chans [] (Some eoff), rest')
                else
                  '(kids, rest'') ← parse_blocks fuel' rest;
                  Some (Block t n off chans kids None, rest'')
            | _ =>
                '(kids, rest'') ← parse_blocks fuel' rest;
                Some (Block t n off chans kids None, rest'')
            end
          else None
      | _ => None
      end
  end
with parse_blocks (fuel : nat) (ls : list (list string))
  : option (list block * list (list string)) :=
  match fuel with
  | O => None
  | S fuel' =>
      match ls with
      | [close] :: rest =>
          if bool_decide (close = "}") then Some ([], rest) else None
      | _ =>
          '(b, rest) ← parse_block fuel' ls;
          '(bs, rest') ← parse_blocks fuel' rest;
          Some (b :: bs, rest')
      end
  end.

(** The MOTION section: the declared frame count, the frame time, and the
    words of each frame line. *)
Record motion : Type := mkMotionText {
  declared_frames : string;
  declared_frame_time : string;
  frame_lines : list (list string)
}.

Definition parse_motion (ls : list (list string)) : option motion :=
  match ls with
  | [m] :: [kw_frames; n] :: [kw_frame; kw_time; ft] :: lines =>
      if bool_decide (m = "MOTION" /\ kw_frames = "Frames:" /\
                      kw_frame = "Frame" /\ kw_time = "Time:")
      then Some (mkMotionText n ft lines)
      else None
  | _ => None
  end.

(** A text that consists of the HIERARCHY section alone. *)
Definition parse_hierarchy (text : string) : option block :=
  match tokens text with
  | [h] :: ls =>
      if bool_decide (h = "HIERARCHY") then
        '(root, rest) ← parse_block (length ls) ls;
        if bool_decide (rest = []) then Some root else None
      else None
  | _ => None
  end.

Definition parse_bvh (text : string) : option (block * motion) :=
  match tokens text with
  | [h] :: ls =>
      if bool_decide (h = "HIERARCHY") then
        '(root, rest) ← parse_block (length ls) ls;
        m ← parse_motion rest;
        Some (root, m)
      else None
  | _ => None
  end.

(** A block followed by all blocks nested in it, in the order their
    headers appear in the text. *)
Fixpoint preorder (b : block) : list block :=
  b :: flat_map preorder (children b).

(** Position of a joint name in the skeleton's name table. *)
Fixpoint index_of (n : string) (names : list string) : option nat :=
  match names with
  | [] => None
  | x :: names' => if decide (x = n) then Some O else S <$> index_of n names'
  end.

Definition joint_index (b : block) : option nat :=
  index_of (name b) BVHExporter.JOINT_NAMES.

(** Joints in the order the hierarchy declares their channels. *)
Definition declared_order (root : block) : list (option nat) :=
  joint_index <$> preorder root.

(** Total number of channels the hierarchy declares. *)
Definition declared_channels (root : block) : nat :=
  sum_list ((fun b => length (channels b)) <$> preorder root).

End BVHSyntax.

(** ** Vocabulary of the statements *)

(** The call raised an exception of the class called [cls]. *)
Definition fails_with {A} (cls : string) (r : result A) : Prop :=
  exists e, r = Raise e /\ exn_name e = cls.

Section Vocabulary.
Context {F : Type} `{FloatOps F}.

(** [np.linspace(0, 1, n)] for a count that is not negative. *)
Definition linspace01 (n : nat) : list F :=
  match np_linspace (of_int 0) (of_int 1) (Z.of_nat n) with
  | Ok xs => xs
  | Raise _ => []
  end.

(** No target position lies below the first or above the last native
    sample position: the condition under which the interpolator's range
    check passes. *)
Definition positions_within (x_current x_target : list F) : bool :=
  match getitem_Z x_current 0, getitem_Z x_current (-1) with
  | Ok a, Ok b => forallb (fun v => negb (v <ᶠ a) && negb (v >ᶠ b)) x_target
  | _, _ => false
  end.

(** The target frame count [sync_to_fps] computes from [N] native columns:
    [int((N / (audio_sr / hop_length)) * target_fps)]. *)
Definition frame_count (self : AudioProcessor.t) (N : nat) (audio_sr hop_length : Z)
  : result Z :=
  feature_fps ← py_div (of_int audio_sr) (of_int hop_length);
  duration ← py_div (of_int (Z.of_nat N)) feature_fps;
  ftrunc (duration ⊗ of_int (AudioProcessor.target_fps self)).

(** [arr[i, j, k]] and [arr[i, j]], when in range. *)
Definition at3 (a : ndarray3 F) (i j k : nat) : option F :=
  fr ← data3 a !! i; r ← fr !! j; r !! k.

Definition at2 (a : ndarray2 F) (i j : nat) : option F :=
  r ← data2 a !! i; r !! j.

Context `{Trig F}.

(** Pose of frame [i] before the emphasis rule: the entries the generator
    assigns, every other joint at the rest pose. *)
Definition base_pose (tempo : F) (i : nat) : list (list F) :=
  let z := of_int 0 in
  let t := of_int (Z.of_nat i) ⊘ of_int 60 in
  let arm_phase := of_int 2 ⊗ np_pi ⊗ t ⊗ tempo ⊘ of_int 60 in
  let hip_phase := of_int 2 ⊗ np_pi ⊗ t ⊗ tempo ⊘ of_int 120 in
  [ [z; z; z];
    [z; z; of_int 10 ⊗ np_sin hip_phase];
    [z; z; fneg (of_int 10) ⊗ np_sin hip_phase];
    [z; of_int 5 ⊗ np_sin (of_int 2 ⊗ np_pi ⊗ t ⊗ tempo ⊘ of_int 60); z];
    [z; z; z];
    [z; z; z];
    [z; of_int 3 ⊗ np_sin (of_int 2 ⊗ np_pi ⊗ t ⊗ tempo ⊘ of_int 60 ⊕ decimal 5 1); z];
    [z; z; z];
    [z; z; z];
    [z; z; z];
    [z; z; z];
    [z; z; z];
    [z; z; z];
    [z; z; z];
    [z; z; z];
    [z; z; z];
    [of_int 30 ⊕ of_int 30 ⊗ np_sin arm_phase; z; of_int 20 ⊗ np_sin (arm_phase ⊗ of_int 2)];
    [of_int 30 ⊕ of_int 30 ⊗ np_sin (arm_phase ⊕ np_pi); z;
     fneg (of_int 20) ⊗ np_sin (arm_phase ⊗ of_int 2)];
    [of_int 10 ⊕ of_int 20 ⊗ fabs (np_sin arm_phase); z; z];
    [of_int 10 ⊕ of_int 20 ⊗ fabs (np_sin (arm_phase ⊕ np_pi)); z; z];
    [z; z; z];
    [z; z; z];
    [z; z; z];
    [z; z; z] ].

(** Root translation of frame [i]. *)
Definition root_translation (tempo : F) (i : nat) : list F :=
  let t := of_int (Z.of_nat i) ⊘ of_int 60 in
  [ decimal 1 1 ⊗ np_sin (of_int 2 ⊗ np_pi ⊗ t ⊗ tempo ⊘ of_int 60);
    of_int 1 ⊕ decimal 5 2 ⊗ fabs (np_sin (of_int 4 ⊗ np_pi ⊗ t ⊗ tempo ⊘ of_int 60));
    of_int 0 ].

(** Beat intensity of frame [i]: the onset value, or 0 past its end. *)
Definition beat_intensity (onset : list F) (i : nat) : F :=
  default (of_int 0) (onset !! i).

(** The emphasis factor [1 + 0.2 * b]. *)
Definition emphasis (b : F) : F := of_int 1 ⊕ decimal 2 1 ⊗ b.

(** Pose of frame [i] after the emphasis rule. *)
Definition frame_pose (tempo : F) (onset : list F) (i : nat) : list (list F) :=
  let b := beat_intensity onset i in
  if b >ᶠ decimal 5 1 then map (map (fun v => v ⊗ emphasis b)) (base_pose tempo i)
  else base_pose tempo i.

End Vocabulary.

(** The generator [DanceGenerator.load_model] installs. *)
Definition baseline {F} `{FloatOps F} : BaselineGenerator.t F :=
  BaselineGenerator.mk (mkConfig 512 8 8 (decimal 1 1) 120 1800 24%nat 72 3).

(** ** Vocabulary of the exporter statements *)

(** Concatenation of a list of strings. *)
Fixpoint str_concat (parts : list string) : string :=
  match parts with
  | [] => ""
  | p :: rest => p +:+ str_concat rest
  end.

Section ExportVocabulary.
Context {F : Type} `{FloatOps F} `{Format F}.

(** The text of the HIERARCHY section, as written with room for the nine
    nested calls the skeleton needs. *)
Definition hierarchy_text (self : BVHExporter.t F) : string :=
  (BVHExporter._write_hierarchy 9 self "").1.

(** One frame line: the root translation [tr], then the rotation triples
    of the frame [fr] in the order the array stores them. *)
Definition frame_line (tr : list F) (fr : list (list F)) : string :=
  join " " (format_f 6 <$> (tr ++ concat fr)) +:+ nl.

(** The text of the MOTION section. *)
Definition motion_text (self : BVHExporter.t F) (motion_data : ndarray3 F)
    (translations : ndarray2 F) : string :=
  "MOTION" +:+ nl +:+
  ("Frames: " +:+ pretty (dim0 motion_data) +:+ nl) +:+
  ("Frame Time: " +:+ format_f 6 (BVHExporter.frame_time self) +:+ nl) +:+
  str_concat (zip_with frame_line (data2 translations) (data3 motion_data)).

(** What [export] prints for [num_joints] joints and [num_frames] frames. *)
Definition export_prints (self : BVHExporter.t F) (num_frames num_joints : nat)
    (output_path : string) : list string :=
  (if decide (num_joints ≠ 24%nat)
   then ["⚠️  Warning: Expected 24 joints, got " +:+ pretty num_joints +:+
         ". Adjusting..."]
   else []) ++
  [ nl +:+ "📝 Exporting BVH file...";
    "  - Frames: " +:+ pretty num_frames;
    "  - FPS: " +:+ pretty (BVHExporter.fps self);
    "  - Duration: " +:+
      format_f 2 (of_int (Z.of_nat num_frames) ⊘ of_int (BVHExporter.fps self)) +:+ "s";
    "✅ BVH exported to: " +:+ output_path ].

End ExportVocabulary.

(** ** Concrete inputs *)

Module Examples.

(** [AudioProcessor()] with its defaults, as [app.py] builds it. *)
Definition processor : AudioProcessor.t := AudioProcessor.__init__ 60 48000.

(** The samples [0.0, 1.0, ..., n-1]. *)
Definition ramp (n : nat) : list float :=
  (fun i : nat => Float64.of_Z (Z.of_nat i)) <$> seq 0 n.

(** An [r x n] feature matrix, every row the ramp. *)
Definition feature (r n : nat) : ndarray2 float := NDArray2 r n (replicate r (ramp n)).

Definition mel_of (n : nat) : ndarray2 float := feature 128 n.
Definition chroma_of (n : nat) : ndarray2 float := feature 12 n.
Definition onset_of (n : nat) : list float := ramp n.

(** A world with no files, where every path can be written. *)
Definition world0 : World := mkWorld ∅ (fun _ => true) [].

(** [BVHExporter(fps=60)], as [app.py] builds it. *)
Definition exporter60 : BVHExporter.t float :=
  BVHExporter.mk 60 (Float64.of_Z 1 / Float64.of_Z 60)%float.

(** One frame in which joint [j] has the rotation [(j, j, j)]. *)
Definition numbered_pose : ndarray3 float :=
  NDArray3 1 24 3 [ (fun j : nat => replicate 3 (Float64.of_Z (Z.of_nat j))) <$> seq 0 24 ].

(** The skeleton's joints in depth-first order (parent before child,
    children by ascending index). *)
Definition depth_first_order : list nat :=
  [0; 1; 4; 7; 10; 2; 5; 8; 11; 3; 6; 9; 12; 15; 13; 16; 18; 20; 22; 14; 17;
   19; 21; 23]%nat.

(** A sine on binary64 for running the generator on concrete inputs (the
    odd Taylor polynomial of degree 7).  The platform's sine is not
    available here; every property of the generator below is proved for an
    arbitrary [np_sin]. *)
Definition taylor_sin (x : float) : float :=
  let x2 := (x * x)%float in
  (x * (1 - x2 / 6 * (1 - x2 / 20 * (1 - x2 / 42))))%float.

Definition float_trig : Trig float :=
  {| np_sin := taylor_sin; np_pi := 0x1.921fb54442d18p+1%float |}.

(** A processor with a target rate of 10 frames per second. *)
Definition slow_processor : AudioProcessor.t := AudioProcessor.__init__ 10 48000.

(** Features over the reals: [n] frames of silence-free input, a tempo and
    an onset vector; mel and chroma values play no part in generation. *)
Definition real_features (n : nat) (tp : R) (on : list R) : AudioFeatures R :=
  mkFeatures (Some (np_zeros2 128 n)) (Some (np_zeros2 12 n)) (Some on) (Some tp)
             (Some []) (Some (IZR (Z.of_nat n) / 60)%R).

(** The same in binary64. *)
Definition float_features (n : nat) (tp : float) (on : list float) : AudioFeatures float :=
  mkFeatures (Some (np_zeros2 128 n)) (Some (np_zeros2 12 n)) (Some on) (Some tp)
             (Some []) (Some (Float64.of_Z (Z.of_nat n) / 60)%float).

(** [np.pi] as binary64, and the next 53 bits of pi after it. *)
Definition pi_hi : float := 0x1.921fb54442d18p+1%float.
Definition pi_lo : float := 0x1.1a62633145c07p-53%float.

(** A sine for arguments near pi: [sin x = sin (pi - x)], the difference
    taken against the two-part pi so that no digit is lost. *)
Definition reflected_sin (x : float) : float :=
  taylor_sin ((pi_hi - x) + pi_lo)%float.

Definition float_trig_near_pi : Trig float :=
  {| np_sin := reflected_sin; np_pi := pi_hi |}.

End Examples.


(** ** audio_processor.py: feature extraction

    The spectral analysis is done by the external library librosa; its
    functions are parameters of the embedding.  Each may raise. *)

Module FeatureExtraction.

Section Methods.
Context {F : Type} `{FloatOps F} `{Format F}.
Variable minval : nat.
Variable librosa_load : string -> Z -> F -> result (list F * Z).
Variable beat_track : list F -> Z -> result (F * list Z).
Variable melspectrogram : list F -> Z -> Z -> Z -> Z -> result (ndarray2 F).
Variable power_to_db : ndarray2 F -> result (ndarray2 F).
Variable chroma_cqt : list F -> Z -> Z -> result (ndarray2 F).
Variable onset_strength : list F -> Z -> result (list F).

(** [str(arr.shape)] of a 2-D and of a 1-D array. *)
Definition shape2_str (a : ndarray2 F) : string :=
  "(" +:+ pretty (rows a) +:+ ", " +:+ pretty (cols a) +:+ ")".

Definition shape1_str (v : list F) : string := "(" +:+ pretty (length v) +:+ ",)".

(** [load_audio(audio_path, max_duration=30.0)]. *)
Definition load_audio (self : AudioProcessor.t) (audio_path : string) (max_duration : F)
  : IO (list F * Z) :=
  print ("Loading audio from: " +:+ audio_path);;
  '(audio, sr) ← io_lift (librosa_load audio_path (AudioProcessor.sample_rate self)
                            max_duration);
  duration ← io_lift (py_div (of_int (Z.of_nat (length audio))) (of_int sr));
  print ("✓ Audio loaded: " +:+ format_f 2 duration +:+ "s @ " +:+ pretty sr +:+ "Hz");;
  mret (audio, sr).

Definition extract_features (self : AudioProcessor.t) (audio_path : string)
  : IO (AudioFeatures F) :=
  print (nl +:+ "🎵 Extracting audio features...");;
  '(audio, sr) ← load_audio self audio_path (of_int 30);
  '(tempo_bpm, beat_frames) ← io_lift (beat_track audio sr);
  print ("✓ Tempo: " +:+ format_f 1 tempo_bpm +:+ " BPM, " +:+
         pretty (length beat_frames) +:+ " beats detected");;
  mel_spec ← io_lift (melspectrogram audio sr 128 8000 512);
  mel_spec_db ← io_lift (power_to_db mel_spec);
  print ("✓ Mel spectrogram: " +:+ shape2_str mel_spec_db);;
  chroma_feat ← io_lift (chroma_cqt audio sr 512);
  print ("✓ Chroma features: " +:+ shape2_str chroma_feat);;
  onset_env ← io_lift (onset_strength audio sr);
  print ("✓ Onset envelope: " +:+ shape1_str onset_env);;
  features_synced ← io_lift (AudioProcessor.sync_to_fps minval self mel_spec_db
                               chroma_feat onset_env sr 512);
  duration ← io_lift (py_div (of_int (Z.of_nat (length audio))) (of_int sr));
  let features_synced :=
    mkFeatures (mel features_synced) (chroma features_synced) (onset features_synced)
               (Some tempo_bpm) (Some beat_frames) (Some duration) in
  print ("✓ Features synced to " +:+ pretty (AudioProcessor.target_fps self) +:+ " FPS");;
  m ← io_lift (dict_item "mel" (mel features_synced));
  print ("  - Mel: " +:+ shape2_str m);;
  print ("  - Duration: " +:+ format_f 2 duration +:+ "s");;
  mret features_synced.

(** [get_bpm(audio_path)]. *)
Definition get_bpm (self : AudioProcessor.t) (audio_path : string) : IO F :=
  '(audio, sr) ← load_audio self audio_path (of_int 30);
  '(tempo_bpm, _) ← io_lift (beat_track audio sr);
  mret tempo_bpm.

End Methods.

End FeatureExtraction.

(** ** app.py: the parts that do not depend on the web framework *)

Module App.

Definition ALLOWED_EXTENSIONS : gset string := {[ "mp3"; "wav"; "ogg"; "m4a" ]}.

(** [c in s]. *)
Fixpoint str_contains (c : ascii) (s : string) : bool :=
  match s with
  | EmptyString => false
  | String a s' => if decide (a = c) then true else str_contains c s'
  end.

(** [s.rsplit(sep, 1)]: cut at the last occurrence of [sep], if any. *)
Fixpoint rsplit1 (sep : ascii) (s : string) : list string :=
  match s with
  | EmptyString => [""]
  | String a s' =>
      match rsplit1 sep s' with
      | [last] => if decide (a = sep) then [""; last] else [String a last]
      | [init; last] => [String a init; last]
      | other => other
      end
  end.

(** [s.lower()] on ASCII letters; other bytes are kept. *)
Definition lower_char (a : ascii) : ascii :=
  let n := nat_of_ascii a in
  if decide (65 <= n <= 90)%nat then ascii_of_nat (n + 32) else a.

Fixpoint lower (s : string) : string :=
  match s with
  | EmptyString => EmptyString
  | String a s' => String (lower_char a) (lower s')
  end.

(** [allowed_file(filename)]. *)
Definition allowed_file (filename : string) : result bool :=
  if str_contains "." filename then
    ext ← getitem (rsplit1 "." filename) 1;
    Ok (bool_decide (lower ext ∈ ALLOWED_EXTENSIONS))
  else Ok false.

(** The output name computed in [generate_dance]:
    [filename.rsplit('.', 1)[0] + '_dance.bvh']. *)
Definition output_filename (filename : string) : result string :=
  stem ← getitem (rsplit1 "." filename) 0;
  Ok (stem +:+ "_dance.bvh").

Section Generator.
Context {F : Type} `{FloatOps F}.

(** [get_generator()]: the module-level [dance_generator] is the state. *)
Definition get_generator (dance_generator : option (DanceGenerator.t F))
  : IO (option (DanceGenerator.t F) * DanceGenerator.t F) :=
  match dance_generator with
  | None =>
      print "🔄 Loading dance generator (first time)...";;
      g ← DanceGenerator.__init__ None "cpu";
      g ← DanceGenerator.load_model g "models/baseline";
      mret (Some g, g)
  | Some g => mret (Some g, g)
  end.

End Generator.

End App.

(** ** A recorded clip

    The answers of the audio library for one short clip, for running the
    extraction on a concrete input: 2048 samples, and with a hop of 512
    samples five analysis columns per stream. *)

Module Clip.

Definition librosa_load (path : string) (sr : Z) (max_duration : float)
  : result (list float * Z) :=
  if decide (path = "clip.wav") then Ok (Examples.ramp 2048, sr)
  else Raise (OSError path).

Definition beat_track (audio : list float) (sr : Z) : result (float * list Z) :=
  Ok (Float64.of_Z 120, [1; 3]).

Definition columns (audio : list float) (hop_length : Z) : nat :=
  S (Z.to_nat (Z.of_nat (length audio) / hop_length)).

Definition melspectrogram (audio : list float) (sr n_mels fmax hop_length : Z)
  : result (ndarray2 float) :=
  Ok (Examples.feature (Z.to_nat n_mels) (columns audio hop_length)).

Definition power_to_db (s : ndarray2 float) : result (ndarray2 float) := Ok s.

Definition chroma_cqt (audio : list float) (sr hop_length : Z) : result (ndarray2 float) :=
  Ok (Examples.feature 12 (columns audio hop_length)).

Definition onset_strength (audio : list float) (sr : Z) : result (list float) :=
  Ok (Examples.ramp (columns audio 512)).

(** [extract_features] and [get_bpm] over these answers. *)
Definition extract_features : AudioProcessor.t -> string -> IO (AudioFeatures float) :=
  FeatureExtraction.extract_features 2 librosa_load beat_track melspectrogram
    power_to_db chroma_cqt onset_strength.

Definition get_bpm : AudioProcessor.t -> string -> IO float :=
  FeatureExtraction.get_bpm librosa_load beat_track.

(** The generator [app.py] works with, once loaded. *)
Definition generator : DanceGenerator.t float :=
  DanceGenerator.mk "cpu" None (Some baseline) true (BaselineGenerator.config baseline).

(** A world in which no path can be written. *)
Definition read_only : World := mkWorld ∅ (fun _ => false) [].

End Clip.

(** ** A stream for the synchronizer statements *)

(** A one-row stream over the reals. *)
Definition sample_stream : ndarray2 R := NDArray2 1 3 [[0; 1; 4]]%R.

(** ** Vocabulary of the read-back statements *)

(** The characters of a string. *)
Definition chars (s : string) : list ascii := String.list_ascii_of_string s.

(** A word: not empty, and free of blanks and line breaks. *)
Definition word (s : string) : Prop :=
  s ≠ "" /\ (" "%char ∉ chars s) /\ (ascii_of_nat 10 ∉ chars s).

(** The words of one frame line: the root translation [tr], then the
    rotation triples of the frame [fr], each with six decimals. *)
Definition frame_words {F} `{Format F} (tr : list F) (fr : list (list F)) : list string :=
  format_f 6 <$> (tr ++ concat fr).

(** ** Properties *)

(** *** The error monad and loops *)

Lemma for_each_app {A S} (xs ys : list A) (body : A -> S -> result S) (s : S) :
  for_each (xs ++ ys) body s = (s' ← for_each xs body s; for_each ys body s').
Proof.
  revert s. induction xs as [|x xs IH]; intros s; simpl; [done|].
  destruct (body x s) as [s1|e]; simpl; [apply IH | done].
Qed.

Lemma for_each_invariant {A S} (P : S -> Prop) (xs : list A)
    (body : A -> S -> result S) (s s' : S) :
  P s ->
  (forall x s1 s2, x ∈ xs -> P s1 -> body x s1 = Ok s2 -> P s2) ->
  for_each xs body s = Ok s' -> P s'.
Proof.
  revert s. induction xs as [|x xs IH]; intros s Hs Hstep Hrun; simpl in Hrun.
  - by inversion Hrun; subst.
  - destruct (body x s) as [s1|e] eqn:Hb; simpl in Hrun; [|done].
    apply (IH s1); [|intros; eapply Hstep; eauto; by right|done].
    eapply Hstep; eauto. by left.
Qed.

Lemma for_each_total {A S} (P : S -> Prop) (xs : list A)
    (body : A -> S -> result S) (s : S) :
  P s ->
  (forall x s1, x ∈ xs -> P s1 -> exists s2, body x s1 = Ok s2 /\ P s2) ->
  exists s', for_each xs body s = Ok s' /\ P s'.
Proof.
  revert s. induction xs as [|x xs IH]; intros s Hs Hstep; simpl.
  - eauto.
  - destruct (Hstep x s) as (s1 & Hb & Hs1); [by left|done|].
    rewrite Hb. simpl. apply IH; [done|].
    intros; apply Hstep; [by right|done].
Qed.

Lemma map_result_length {A B} (f : A -> result B) (xs : list A) (ys : list B) :
  map_result f xs = Ok ys -> length ys = length xs.
Proof.
  revert ys. induction xs as [|x xs IH]; intros ys Hm; simpl in Hm.
  - by inversion Hm.
  - destruct (f x) as [y|e]; simpl in Hm; [|done].
    destruct (map_result f xs) as [ys'|e]; simpl in Hm; [|done].
    inversion Hm; subst. simpl. f_equal. by apply IH.
Qed.

Lemma map_result_total {A B} (f : A -> result B) (xs : list A) :
  (forall x, x ∈ xs -> exists y, f x = Ok y) ->
  exists ys, map_result f xs = Ok ys.
Proof.
  induction xs as [|x xs IH]; intros Hf; simpl; [eauto|].
  destruct (Hf x) as [y Hy]; [by left|]. rewrite Hy. simpl.
  destruct IH as [ys Hys]; [intros; apply Hf; by right|].
  rewrite Hys. simpl. eauto.
Qed.

Lemma getitem_lookup {A} (xs : list A) (i : nat) (x : A) :
  xs !! i = Some x -> getitem xs i = Ok x.
Proof. unfold getitem. by intros ->. Qed.

Lemma getitem_Ok {A} (xs : list A) (i : nat) (x : A) :
  getitem xs i = Ok x -> xs !! i = Some x.
Proof. unfold getitem. destruct (xs !! i); [by intros [= ->]|done]. Qed.

Lemma getitem_lt {A} (xs : list A) (i : nat) :
  (i < length xs)%nat -> exists x, getitem xs i = Ok x /\ xs !! i = Some x.
Proof.
  intros Hi. destruct (lookup_lt_is_Some_2 xs i Hi) as [x Hx].
  exists x. split; [by apply getitem_lookup|done].
Qed.

(** *** numpy and the interpolator *)

Section NumPyFacts.
Context {F : Type} `{FloatOps F}.

Lemma np_linspace_length (a b : F) (n : Z) (xs : list F) :
  np_linspace a b n = Ok xs -> 0 <= n /\ length xs = Z.to_nat n.
Proof.
  unfold np_linspace. destruct (decide (n < 0)); [done|].
  intros [= <-]. split; [lia|].
  destruct (decide (1 < n)); rewrite ?length_insert;
    destruct (decide (0 < n - 1)); try destruct (feqb _ _);
    by rewrite !length_fmap, length_seq.
Qed.

Lemma np_linspace_total (a b : F) (n : Z) :
  0 <= n -> exists xs, np_linspace a b n = Ok xs.
Proof.
  intros Hn. unfold np_linspace. destruct (decide (n < 0)); [lia|]. eauto.
Qed.


Lemma linspace01_spec (n : nat) :
  np_linspace (of_int 0) (of_int 1) (Z.of_nat n) = Ok (linspace01 n) /\
  length (linspace01 (F:=F) n) = n.
Proof.
  unfold linspace01.
  destruct (np_linspace_total (of_int 0) (of_int 1) (Z.of_nat n)) as [xs Hxs]; [lia|].
  rewrite Hxs. split; [done|].
  apply np_linspace_length in Hxs as [_ ->]. lia.
Qed.

Lemma np_zeros2_wf (r c : nat) : wf2 (np_zeros2 (F:=F) r c).
Proof.
  split; simpl.
  - apply length_replicate.
  - apply Forall_replicate, length_replicate.
Qed.

Lemma np_zeros3_wf (a b c : nat) : wf3 (np_zeros3 (F:=F) a b c).
Proof.
  split; simpl.
  - apply length_replicate.
  - apply Forall_replicate. split; [apply length_replicate|].
    apply Forall_replicate, length_replicate.
Qed.

Lemma set_row2_shape (a a' : ndarray2 F) (i : nat) (ys : list F) :
  wf2 a -> set_row2 a i ys = Ok a' ->
  wf2 a' /\ rows a' = rows a /\ cols a' = cols a.
Proof.
  intros [Hlen Hrows]. unfold set_row2.
  destruct (decide (i < rows a)%nat); [|done].
  destruct (decide (length ys = cols a)); [|done].
  intros [= <-]. unfold wf2. simpl. split_and!; [by rewrite length_insert| |done|done].
  by apply Forall_insert.
Qed.

Lemma set_row2_total (a : ndarray2 F) (i : nat) (ys : list F) :
  (i < rows a)%nat -> length ys = cols a -> exists a', set_row2 a i ys = Ok a'.
Proof.
  intros Hi Hys. unfold set_row2.
  destruct (decide (i < rows a)%nat); [|lia].
  destruct (decide (length ys = cols a)); [eauto|done].
Qed.

End NumPyFacts.

Section SciPyFacts.
Context {F : Type} `{FloatOps F}.
Variable minval : nat.


Lemma interp1d_init_total (x y : list F) :
  length y = length x -> (minval <= length x)%nat ->
  interp1d_init minval x y = Ok (Interp1d x y).
Proof.
  intros Hy Hx. unfold interp1d_init.
  destruct (decide (length y = length x)); [|done].
  destruct (decide (length x < minval)%nat); [lia|done].
Qed.

Lemma getitem_Z_total {A} (xs : list A) (i : Z) :
  - Z.of_nat (length xs) <= i < Z.of_nat (length xs) ->
  exists x, getitem_Z xs i = Ok x.
Proof.
  intros Hi. unfold getitem_Z.
  destruct (decide (0 <= i < Z.of_nat (length xs))).
  - destruct (getitem_lt xs (Z.to_nat i)) as (x & Hx & _); [lia|]. eauto.
  - destruct (decide (- Z.of_nat (length xs) <= i < 0)); [|lia].
    destruct (getitem_lt xs (Z.to_nat (Z.of_nat (length xs) + i))) as (x & Hx & _); [lia|].
    eauto.
Qed.

Lemma linear_at_total (f : interp1d F) (v : F) :
  (1 <= length (ip_x f))%nat -> length (ip_y f) = length (ip_x f) ->
  exists y, linear_at f v = Ok y.
Proof.
  intros Hx Hy. unfold linear_at.
  set (idx := Z.min _ _).
  assert (- Z.of_nat (length (ip_x f)) <= idx - 1 < Z.of_nat (length (ip_x f)) /\
          - Z.of_nat (length (ip_x f)) <= idx < Z.of_nat (length (ip_x f))) as [Hlo Hhi]
    by (subst idx; lia).
  destruct (getitem_Z_total (ip_x f) _ Hlo) as [x_lo ->].
  destruct (getitem_Z_total (ip_x f) _ Hhi) as [x_hi ->].
  rewrite <- Hy in Hlo, Hhi.
  destruct (getitem_Z_total (ip_y f) _ Hlo) as [y_lo ->].
  destruct (getitem_Z_total (ip_y f) _ Hhi) as [y_hi ->].
  simpl. eauto.
Qed.

Lemma check_bounds_within (f : interp1d F) (x_new : list F) :
  positions_within (ip_x f) x_new = true -> check_bounds f x_new = Ok tt.
Proof.
  unfold positions_within, check_bounds.
  destruct (getitem_Z (ip_x f) 0) as [a|]; [|done].
  destruct (getitem_Z (ip_x f) (-1)) as [b|]; [|done].
  simpl. intros Hall.
  assert (existsb (fun v => v <ᶠ a) x_new = false) as ->.
  { induction x_new as [|v vs IH]; [done|]. simpl in *.
    apply andb_true_iff in Hall as [Hv Hvs]. apply andb_true_iff in Hv as [Hv _].
    apply negb_true_iff in Hv. rewrite Hv. simpl. by apply IH. }
  assert (existsb (fun v => v >ᶠ b) x_new = false) as ->; [|done].
  induction x_new as [|v vs IH]; [done|]. simpl in *.
  apply andb_true_iff in Hall as [Hv Hvs]. apply andb_true_iff in Hv as [_ Hv].
  apply negb_true_iff in Hv. rewrite Hv. simpl. by apply IH.
Qed.

Lemma interp1d_call_length (f : interp1d F) (x_new y_new : list F) :
  interp1d_call f x_new = Ok y_new -> length y_new = length x_new.
Proof.
  unfold interp1d_call.
  destruct (map_result (linear_at f) x_new) as [ys|] eqn:Hm; simpl; [|done].
  destruct (check_bounds f x_new); simpl; [|done].
  intros [= <-]. by eapply map_result_length.
Qed.

Lemma interp1d_call_total (f : interp1d F) (x_new : list F) :
  (1 <= length (ip_x f))%nat -> length (ip_y f) = length (ip_x f) ->
  positions_within (ip_x f) x_new = true ->
  exists y_new, interp1d_call f x_new = Ok y_new.
Proof.
  intros Hx Hy Hin. unfold interp1d_call.
  destruct (map_result_total (linear_at f) x_new) as [ys ->].
  { intros v _. by apply linear_at_total. }
  simpl. rewrite check_bounds_within by done. simpl. eauto.
Qed.

End SciPyFacts.

(** *** The feature synchronizer *)

Section Synchronizer.
Context {F : Type} `{FloatOps F}.
Variable minval : nat.
Variable self : AudioProcessor.t.

Lemma resample_shape (feature out : ndarray2 F) (T : Z) :
  AudioProcessor._resample_feature minval self feature T = Ok out ->
  0 <= T /\ wf2 out /\ rows out = rows feature /\ cols out = Z.to_nat T.
Proof.
  unfold AudioProcessor._resample_feature.
  destruct (np_linspace _ _ (Z.of_nat _)) as [x_current|]; simpl; [|done].
  destruct (np_linspace _ _ T) as [x_target|] eqn:Ht; simpl; [|done].
  apply np_linspace_length in Ht as [HT _].
  unfold np_zeros2_Z. destruct (decide (T < 0)); [lia|]. simpl.
  intros Hloop. split; [done|]. revert Hloop. unfold for_range.
  apply (for_each_invariant
           (fun a => wf2 a /\ rows a = rows feature /\ cols a = Z.to_nat T)).
  - split; [apply np_zeros2_wf|done].
  - intros i a a' _ (Hwf & Hr & Hc).
    destruct (row2 feature i); simpl; [|done].
    destruct (interp1d_init _ _ _); simpl; [|done].
    destruct (interp1d_call _ _); simpl; [|done].
    intros Hset. apply set_row2_shape in Hset as (? & -> & ->); done.
Qed.

Lemma resample_total (feature : ndarray2 F) (T : Z) :
  wf2 feature ->
  (1 <= cols feature)%nat -> (minval <= cols feature)%nat -> 0 <= T ->
  positions_within (linspace01 (cols feature)) (linspace01 (Z.to_nat T)) = true ->
  exists out, AudioProcessor._resample_feature minval self feature T = Ok out.
Proof.
  intros [Hlen Hrows] Hc1 Hc HT Hin.
  unfold AudioProcessor._resample_feature.
  destruct (linspace01_spec (F:=F) (cols feature)) as [-> Hxc]. simpl.
  destruct (linspace01_spec (F:=F) (Z.to_nat T)) as [Hxt Hxtl].
  rewrite Z2Nat.id in Hxt by done. rewrite Hxt. simpl.
  unfold np_zeros2_Z. destruct (decide (T < 0)); [lia|]. simpl.
  unfold for_range.
  destruct (for_each_total
              (fun a : ndarray2 F => wf2 a /\ rows a = rows feature /\ cols a = Z.to_nat T)
              (seq 0 (rows feature))
              (fun i resampled =>
                 y ← row2 feature i;
                 f ← interp1d_init minval (linspace01 (cols feature)) y;
                 y_new ← interp1d_call f (linspace01 (Z.to_nat T));
                 set_row2 resampled i y_new)
              (np_zeros2 (rows feature) (Z.to_nat T))) as (out & Hout & _); [| |eauto].
  - split; [apply np_zeros2_wf|done].
  - intros i a Hi (Hwf & Hr & Hca). apply elem_of_seq in Hi.
    unfold row2.
    destruct (getitem_lt (data2 feature) i) as (y & -> & Hy); [lia|]. simpl.
    assert (length y = cols feature) as Hyl.
    { rewrite Forall_lookup in Hrows. by eapply Hrows. }
    rewrite interp1d_init_total by (rewrite ?Hxc; lia). simpl.
    destruct (interp1d_call_total (Interp1d (linspace01 (cols feature)) y)
                (linspace01 (Z.to_nat T))) as [y_new Hcall]; simpl;
      [rewrite Hxc; lia|by rewrite Hxc|done|].
    rewrite Hcall. simpl.
    apply interp1d_call_length in Hcall.
    destruct (set_row2_total a i y_new) as [a' Ha']; [lia|congruence|].
    exists a'. split; [done|]. by apply set_row2_shape in Ha' as (? & -> & ->).
Qed.


End Synchronizer.

Section SynchronizerLaws.
Context {F : Type} `{FloatOps F}.
Variable minval : nat.
Variable self : AudioProcessor.t.

Lemma sync_to_fps_unfold (mel chroma : ndarray2 F) (onset : list F)
    (audio_sr hop_length : Z) (T : Z) :
  frame_count self (cols mel) audio_sr hop_length = Ok T ->
  AudioProcessor.sync_to_fps minval self mel chroma onset audio_sr hop_length =
    (mel_resampled ← AudioProcessor._resample_feature minval self mel T;
     chroma_resampled ← AudioProcessor._resample_feature minval self chroma T;
     onset_resampled ← AudioProcessor._resample_feature minval self (reshape_row onset) T;
     onset_flat ← squeeze0 onset_resampled;
     Ok (mkFeatures (Some mel_resampled) (Some chroma_resampled) (Some onset_flat)
           None None None)).
Proof.
  unfold frame_count, AudioProcessor.sync_to_fps.
  destruct (py_div (of_int audio_sr) (of_int hop_length)) as [fps|]; simpl; [|done].
  destruct (py_div _ fps) as [d|]; simpl; [|done].
  by intros ->.
Qed.

Lemma squeeze0_single_row (a : ndarray2 F) :
  wf2 a -> rows a = 1%nat -> exists r, squeeze0 a = Ok r /\ length r = cols a.
Proof.
  intros [Hlen Hrows] Hr. unfold squeeze0.
  destruct (data2 a) as [|r [|? ?]]; simpl in *; try lia.
  exists r. split; [done|]. by inversion Hrows.
Qed.

Lemma reshape_row_wf (v : list F) : wf2 (reshape_row v).
Proof. split; simpl; [done|]. by repeat constructor. Qed.

End SynchronizerLaws.

(** C2 (amended): for N >= 2 native columns in every stream, the
    synchronizer returns streams that all have exactly T columns, where
    T = int((N / (audio_sr / hop_length)) * target_fps) is the product
    truncated toward zero (not rounded to nearest), whenever T is not
    negative and the target sample positions lie within the native ones. *)
Theorem C2_frame_count_truncates {F : Type} `{FloatOps F} (minval : nat)
    (self : AudioProcessor.t) (mel chroma : ndarray2 F) (onset : list F)
    (audio_sr hop_length : Z) (N T : nat) :
  (minval <= 2)%nat -> (2 <= N)%nat ->
  wf2 mel -> wf2 chroma ->
  cols mel = N -> cols chroma = N -> length onset = N ->
  frame_count self N audio_sr hop_length = Ok (Z.of_nat T) ->
  positions_within (linspace01 (F:=F) N) (linspace01 T) = true ->
  exists mel' chroma' onset',
    AudioProcessor.sync_to_fps minval self mel chroma onset audio_sr hop_length
      = Ok (mkFeatures (Some mel') (Some chroma') (Some onset') None None None) /\
    cols mel' = T /\ cols chroma' = T /\ length onset' = T /\
    rows mel' = rows mel /\ rows chroma' = rows chroma /\ wf2 mel' /\ wf2 chroma'.
Proof.
  intros Hmin HN Hwm Hwc Hcm Hcc Hlo Hcount Hin.
  rewrite (sync_to_fps_unfold minval self mel chroma onset _ _ (Z.of_nat T))
    by (by rewrite Hcm).
  destruct (resample_total minval self mel (Z.of_nat T)) as [mel' Hmel];
    [done|lia|lia|lia|by rewrite Hcm, Nat2Z.id|].
  destruct (resample_total minval self chroma (Z.of_nat T)) as [chroma' Hchroma];
    [done|lia|lia|lia|by rewrite Hcc, Nat2Z.id|].
  destruct (resample_total minval self (reshape_row onset) (Z.of_nat T)) as [on' Hon];
    [apply reshape_row_wf|simpl; lia|simpl; lia|lia|simpl; by rewrite Hlo, Nat2Z.id|].
  rewrite Hmel, Hchroma, Hon. simpl.
  apply resample_shape in Hmel as (_ & ? & ? & Hm).
  apply resample_shape in Hchroma as (_ & ? & ? & Hc).
  apply resample_shape in Hon as (_ & Hwo & Hro & Ho).
  destruct (squeeze0_single_row on' Hwo Hro) as (onset' & -> & Hol). simpl.
  exists mel', chroma', onset'. rewrite Nat2Z.id in *. split_and!; try done. congruence.
Qed.

(** C2, witness: 60 native columns at 48000 / 512 = 93.75 columns per
    second and 60 fps give 38 columns in every stream. *)
Lemma C2_frame_count_truncates_witness :
  exists mel' chroma' onset',
    AudioProcessor.sync_to_fps 2 Examples.processor (Examples.mel_of 60)
        (Examples.chroma_of 60) (Examples.onset_of 60) 48000 512
      = Ok (mkFeatures (Some mel') (Some chroma') (Some onset') None None None) /\
    cols mel' = 38%nat /\ cols chroma' = 38%nat /\ length onset' = 38%nat /\
    rows mel' = 128%nat /\ rows chroma' = 12%nat /\ wf2 mel' /\ wf2 chroma'.
Proof.
  apply (C2_frame_count_truncates 2 Examples.processor (Examples.mel_of 60)
           (Examples.chroma_of 60) (Examples.onset_of 60) 48000 512 60 38).
  - lia.
  - lia.
  - split; [reflexivity|]. apply Forall_replicate. reflexivity.
  - split; [reflexivity|]. apply Forall_replicate. reflexivity.
  - reflexivity.
  - reflexivity.
  - reflexivity.
  - vm_compute. reflexivity.
  - vm_compute. reflexivity.
Defined.

(** C2 as stated, refuted: with 3 native columns the product is 1.92; the
    synchronizer yields 1 column where rounding to nearest asks for 2. *)
Lemma C2_counterexample :
  exists mel' chroma' onset',
    AudioProcessor.sync_to_fps 2 Examples.processor (Examples.mel_of 3)
        (Examples.chroma_of 3) (Examples.onset_of 3) 48000 512
      = Ok (mkFeatures (Some mel') (Some chroma') (Some onset') None None None) /\
    Float64.round (of_int 3 ⊘ (of_int 48000 ⊘ of_int 512) ⊗ of_int 60) = Ok 2 /\
    Z.of_nat (cols mel') = 1 /\ Z.of_nat (cols mel') <> 2.
Proof.
  vm_compute. do 3 eexists. split; [reflexivity|]. split_and!; done.
Qed.




(** *** The baseline generator *)

Section GeneratorFacts.
Context {F : Type} `{FloatOps F} `{Trig F}.

Lemma set2_insert (a b : nat) (d : list (list F)) (i j : nat) (r : list F) (v : F) :
  (i < length d)%nat -> (j < length r)%nat ->
  set2 (NDArray2 a b (<[i := r]> d)) i j v = Ok (NDArray2 a b (<[i := <[j := v]> r]> d)).
Proof.
  intros Hi Hj. unfold set2. simpl.
  rewrite (getitem_lookup _ _ r) by (by apply list_lookup_insert_eq). simpl.
  destruct (getitem_lt r j Hj) as (x & -> & _). simpl.
  by rewrite list_insert_insert_eq.
Qed.

Lemma set3_insert (a b c : nat) (d : list (list (list F))) (i j k : nat)
    (fr : list (list F)) (r : list F) (v : F) :
  (i < length d)%nat -> fr !! j = Some r -> (k < length r)%nat ->
  set3 (NDArray3 a b c (<[i := fr]> d)) i j k v
    = Ok (NDArray3 a b c (<[i := <[j := <[k := v]> r]> fr]> d)).
Proof.
  intros Hi Hj Hk. unfold set3. simpl.
  rewrite (getitem_lookup _ _ fr) by (by apply list_lookup_insert_eq). simpl.
  rewrite (getitem_lookup _ _ r) by done. simpl.
  destruct (getitem_lt r k Hk) as (x & -> & _). simpl.
  by rewrite list_insert_insert_eq.
Qed.

Lemma scale_frame3_insert (a b c : nat) (d : list (list (list F))) (i : nat)
    (fr : list (list F)) (s : F) :
  (i < length d)%nat ->
  scale_frame3 (NDArray3 a b c (<[i := fr]> d)) i s
    = Ok (NDArray3 a b c (<[i := map (map (fun v => v ⊗ s)) fr]> d)).
Proof.
  intros Hi. unfold scale_frame3. simpl.
  rewrite (getitem_lookup _ _ fr) by (by apply list_lookup_insert_eq). simpl.
  by rewrite list_insert_insert_eq.
Qed.

Lemma beat_intensity_getitem (onset : list F) (i : nat) :
  (if decide (i < length onset)%nat then getitem onset i else Ok (of_int 0))
    = Ok (beat_intensity onset i).
Proof.
  unfold beat_intensity. destruct (decide (i < length onset)%nat) as [Hi|Hi].
  - destruct (getitem_lt onset i Hi) as (x & -> & ->). done.
  - rewrite lookup_ge_None_2 by lia. done.
Qed.

(** One pass of the loop body writes frame [i] and nothing else. *)
Lemma generate_frame_spec (tempo : F) (onset : list F) (a b : nat)
    (d : list (list (list F))) (dt : list (list F)) (i : nat) :
  d !! i = Some (replicate 24 (replicate 3 (of_int 0))) ->
  dt !! i = Some (replicate 3 (of_int 0)) ->
  BaselineGenerator.generate_frame tempo onset i (NDArray3 a 24 3 d, NDArray2 b 3 dt)
    = Ok (NDArray3 a 24 3 (<[i := frame_pose tempo onset i]> d),
          NDArray2 b 3 (<[i := root_translation tempo i]> dt)).
Proof.
  intros Hd Hdt.
  assert (i < length d)%nat as Hi by (by eapply lookup_lt_Some).
  assert (i < length dt)%nat as Hit by (by eapply lookup_lt_Some).
  rewrite <- (list_insert_id d i _ Hd) at 1.
  rewrite <- (list_insert_id dt i _ Hdt) at 1.
  unfold BaselineGenerator.generate_frame.
  do 3 (rewrite set2_insert by (simpl; lia); simpl).
  rewrite beat_intensity_getitem. simpl.
  do 10 (erewrite set3_insert; [|done|reflexivity|simpl; lia]; simpl).
  unfold frame_pose.
  destruct (beat_intensity onset i >ᶠ decimal 5 1); simpl.
  - rewrite scale_frame3_insert by done. simpl. reflexivity.
  - reflexivity.
Qed.

Lemma generate_loop (tempo : F) (onset : list F) (a b m : nat) :
  forall (k : nat) (pre : list (list (list F))) (pret : list (list F)),
    length pre = k -> length pret = k ->
    for_each (seq k m) (BaselineGenerator.generate_frame tempo onset)
      (NDArray3 a 24 3 (pre ++ replicate m (replicate 24 (replicate 3 (of_int 0)))),
       NDArray2 b 3 (pret ++ replicate m (replicate 3 (of_int 0))))
    = Ok (NDArray3 a 24 3 (pre ++ (frame_pose tempo onset <$> seq k m)),
          NDArray2 b 3 (pret ++ (root_translation tempo <$> seq k m))).
Proof.
  induction m as [|m IH]; intros k pre pret Hpre Hpret.
  - done.
  - cbn [seq for_each replicate].
    rewrite generate_frame_spec; cycle 1.
    { by rewrite <- Hpre, list_lookup_middle. }
    { by rewrite <- Hpret, list_lookup_middle. }
    cbn [mbind result_bind].
    rewrite !insert_app_r_alt by lia.
    rewrite Hpre, Hpret, Nat.sub_diag. cbn [insert list_insert].
    rewrite !(cons_middle _ pre), !(cons_middle _ pret), !app_assoc.
    rewrite IH by (rewrite length_app; simpl; lia).
    by rewrite <- !app_assoc.
Qed.

(** What the baseline generator returns: frame [i] holds [frame_pose] and
    [root_translation] of [i]; the result depends on the features only
    through the mel column count, the tempo and the onset vector. *)
Lemma generate_spec (feats : AudioFeatures F) (seed : option (ndarray3 F))
    (m : ndarray2 F) :
  mel feats = Some m ->
  BaselineGenerator.generate baseline feats seed =
    let n := cols m in
    let tp := default (of_int 120) (tempo feats) in
    let on := default (replicate n (of_int 0)) (onset feats) in
    Ok (mkMotion (NDArray3 n 24 3 (frame_pose tp on <$> seq 0 n))
                 (NDArray2 n 3 (root_translation tp <$> seq 0 n)) n 60).
Proof.
  intros Hm. unfold BaselineGenerator.generate. rewrite Hm. simpl.
  unfold for_range, np_zeros3, np_zeros2.
  rewrite (generate_loop _ _ _ _ (cols m) 0 [] []) by done.
  done.
Qed.

End GeneratorFacts.

Lemma lookup_map {A B} (f : A -> B) (l : list A) (i : nat) :
  map f l !! i = f <$> l !! i.
Proof. revert i. induction l as [|x l IH]; intros [|i]; simpl; auto. Qed.

Section GeneratorLaws.
Context {F : Type} `{FloatOps F} `{Trig F}.

Lemma base_pose_shape (tp : F) (i : nat) :
  length (base_pose tp i) = 24%nat /\ Forall (fun r => length r = 3%nat) (base_pose tp i).
Proof. split; [reflexivity|]. repeat constructor. Qed.

Lemma base_pose_entry (tp : F) (i j k : nat) :
  (j < 24)%nat -> (k < 3)%nat ->
  exists r v, base_pose tp i !! j = Some r /\ r !! k = Some v.
Proof.
  intros Hj Hk. destruct (base_pose_shape tp i) as [Hlen Hrows].
  destruct (lookup_lt_is_Some_2 (base_pose tp i) j) as [r Hr]; [lia|].
  rewrite Forall_lookup in Hrows. specialize (Hrows j r Hr).
  destruct (lookup_lt_is_Some_2 r k) as [v Hv]; [lia|]. eauto.
Qed.

Lemma generate_frame_lookup (feats : AudioFeatures F) (seed : option (ndarray3 F))
    (m : ndarray2 F) (i : nat) :
  mel feats = Some m -> (i < cols m)%nat ->
  exists motion,
    BaselineGenerator.generate baseline feats seed = Ok motion /\
    num_frames motion = cols m /\
    dim0 (rotations motion) = cols m /\ dim1 (rotations motion) = 24%nat /\
    dim2 (rotations motion) = 3%nat /\
    data3 (rotations motion) !! i
      = Some (frame_pose (default (of_int 120) (tempo feats))
                (default (replicate (cols m) (of_int 0)) (onset feats)) i) /\
    data2 (translations motion) !! i
      = Some (root_translation (default (of_int 120) (tempo feats)) i).
Proof.
  intros Hm Hi. rewrite (generate_spec feats seed m Hm). cbn zeta.
  eexists. split; [reflexivity|]. simpl.
  rewrite !list_lookup_fmap, !lookup_seq_lt by done. done.
Qed.

End GeneratorLaws.

(** C5: in every frame [i] whose onset intensity [b] exceeds 0.5, each of
    the 24 x 3 rotation values is the value before emphasis times the one
    factor 1 + 0.2 * b; when [b] does not exceed 0.5 the rotations are the
    values before emphasis; the root translation is the same either way. *)
Theorem C5_emphasis_scales_whole_frame {F : Type} `{FloatOps F} `{Trig F}
    (feats : AudioFeatures F) (seed : option (ndarray3 F)) (m : ndarray2 F)
    (on : list F) (i : nat) (b : F) :
  mel feats = Some m -> onset feats = Some on ->
  (i < cols m)%nat -> on !! i = Some b ->
  exists motion,
    BaselineGenerator.generate baseline feats seed = Ok motion /\
    (forall j k, (j < 24)%nat -> (k < 3)%nat ->
       exists r v,
         base_pose (default (of_int 120) (tempo feats)) i !! j = Some r /\
         r !! k = Some v /\
         at3 (rotations motion) i j k
           = Some (if b >ᶠ decimal 5 1 then v ⊗ (of_int 1 ⊕ decimal 2 1 ⊗ b) else v)) /\
    data2 (translations motion) !! i
      = Some (root_translation (default (of_int 120) (tempo feats)) i).
Proof.
  intros Hm Hon Hi Hb.
  destruct (generate_frame_lookup feats seed m i Hm Hi)
    as (motion & Hgen & _ & _ & _ & _ & Hrot & Htr).
  exists motion. split; [done|]. split; [|done].
  intros j k Hj Hk.
  destruct (base_pose_entry (default (of_int 120) (tempo feats)) i j k Hj Hk)
    as (r & v & Hr & Hv).
  exists r, v. split; [done|]. split; [done|].
  replace (default (replicate (cols m) (of_int 0)) (onset feats)) with on in Hrot
    by (by rewrite Hon).
  unfold at3. rewrite Hrot.
  cbn [mbind option_bind]. unfold frame_pose, beat_intensity.
  rewrite Hb. cbn [from_option]. change (Datatypes.id b) with b.
  destruct (b >ᶠ decimal 5 1); cbv iota.
  - rewrite lookup_map, Hr. cbn [fmap option_fmap option_map mbind option_bind].
    rewrite lookup_map, Hv. done.
  - rewrite Hr. done.
Qed.

(** C10: an onset vector shorter than the frame count is no error: the
    generator returns all frames, and every frame at or past the end of the
    onset vector has beat intensity 0, hence the pose before emphasis. *)
Theorem C10_short_onset_is_zero_intensity {F : Type} `{FloatOps F} `{Trig F}
    (feats : AudioFeatures F) (seed : option (ndarray3 F)) (m : ndarray2 F)
    (on : list F) (i : nat) :
  mel feats = Some m -> onset feats = Some on ->
  (length on <= i < cols m)%nat ->
  (of_int 0 >ᶠ decimal 5 1) = false ->
  exists motion,
    BaselineGenerator.generate baseline feats seed = Ok motion /\
    num_frames motion = cols m /\
    dim0 (rotations motion) = cols m /\
    beat_intensity on i = of_int 0 /\
    data3 (rotations motion) !! i
      = Some (base_pose (default (of_int 120) (tempo feats)) i) /\
    data2 (translations motion) !! i
      = Some (root_translation (default (of_int 120) (tempo feats)) i).
Proof.
  intros Hm Hon [Hlo Hi] Hzero.
  destruct (generate_frame_lookup feats seed m i Hm Hi)
    as (motion & Hgen & Hn & Hd0 & _ & _ & Hrot & Htr).
  exists motion. split_and!; try done.
  - unfold beat_intensity. by rewrite lookup_ge_None_2.
  - replace (default (replicate (cols m) (of_int 0)) (onset feats)) with on in Hrot
      by (by rewrite Hon).
    rewrite Hrot. unfold frame_pose, beat_intensity.
    rewrite lookup_ge_None_2 by done. cbn [from_option]. by rewrite Hzero.
Qed.

(** C5, witness: one frame over the reals, onset intensity 1. *)
Lemma C5_emphasis_scales_whole_frame_witness :
  exists motion,
    BaselineGenerator.generate baseline (Examples.real_features 1 120 [1%R]) None
      = Ok motion /\
    (forall j k, (j < 24)%nat -> (k < 3)%nat ->
       exists r v,
         base_pose (default (of_int 120) (tempo (Examples.real_features 1 120 [1%R]))) 0
           !! j = Some r /\
         r !! k = Some v /\
         at3 (rotations motion) 0 j k
           = Some (if 1%R >ᶠ decimal 5 1 then v ⊗ (of_int 1 ⊕ decimal 2 1 ⊗ 1%R) else v)) /\
    data2 (translations motion) !! 0%nat
      = Some (root_translation
                (default (of_int 120) (tempo (Examples.real_features 1 120 [1%R]))) 0).
Proof.
  apply (C5_emphasis_scales_whole_frame (Examples.real_features 1 120 [1%R]) None
           (np_zeros2 128 1) [1%R] 0 1%R).
  - reflexivity.
  - reflexivity.
  - simpl. lia.
  - reflexivity.
Defined.

Lemma real_zero_not_above_half : ((of_int 0 : R) >ᶠ decimal 5 1) = false.
Proof.
  unfold decimal. cbn [fltb fdiv of_int RealModel.ops].
  change (10 ^ Z.of_nat 1) with 10.
  destruct (Rlt_dec (5 / 10) 0) as [Hlt|_]; [lra|done].
Qed.

(** C10, witness: three frames over the reals, an onset vector of length
    one; frame 2 lies past its end. *)
Lemma C10_short_onset_is_zero_intensity_witness :
  exists motion,
    BaselineGenerator.generate baseline (Examples.real_features 3 120 [1%R]) None
      = Ok motion /\
    num_frames motion = 3%nat /\
    dim0 (rotations motion) = 3%nat /\
    beat_intensity [1%R] 2 = of_int 0 /\
    data3 (rotations motion) !! 2%nat
      = Some (base_pose
                (default (of_int 120) (tempo (Examples.real_features 3 120 [1%R]))) 2) /\
    data2 (translations motion) !! 2%nat
      = Some (root_translation
                (default (of_int 120) (tempo (Examples.real_features 3 120 [1%R]))) 2).
Proof.
  apply (C10_short_onset_is_zero_intensity (Examples.real_features 3 120 [1%R]) None
           (np_zeros2 128 3) [1%R] 2).
  - reflexivity.
  - reflexivity.
  - simpl. lia.
  - apply real_zero_not_above_half.
Defined.

(** *** binary64 arithmetic: sign and size of products and sums *)

Section Binary64.
Local Open Scope Z_scope.

Lemma digits2_pos_bounds (p : positive) :
  2 ^ (Z.pos (digits2_pos p) - 1) <= Z.pos p < 2 ^ Z.pos (digits2_pos p).
Proof.
  induction p as [p IH|p IH|]; cbn [digits2_pos].
  - rewrite Pos2Z.inj_succ. replace (Z.succ (Z.pos (digits2_pos p)) - 1)
      with (Z.succ (Z.pos (digits2_pos p) - 1)) by lia.
    rewrite !Z.pow_succ_r by lia. lia.
  - rewrite Pos2Z.inj_succ. replace (Z.succ (Z.pos (digits2_pos p)) - 1)
      with (Z.succ (Z.pos (digits2_pos p) - 1)) by lia.
    rewrite !Z.pow_succ_r by lia. lia.
  - cbn. lia.
Qed.

Lemma shr_1_m (r : shr_record) :
  0 <= shr_m r -> shr_m (shr_1 r) = shr_m r / 2.
Proof.
  destruct r as [m r s]. cbn [shr_m]. intros Hm.
  destruct m as [|[p|p|]|p]; cbn [shr_1 shr_m]; [reflexivity| | |reflexivity|lia].
  - apply (Z.div_unique _ _ _ 1); lia.
  - apply (Z.div_unique _ _ _ 0); lia.
Qed.

Lemma iter_shr_1_m (p : positive) (r : shr_record) :
  0 <= shr_m r -> shr_m (SpecFloat.iter_pos shr_1 p r) = shr_m r / 2 ^ Z.pos p.
Proof.
  revert r. induction p as [p IH|p IH|]; intros r Hr; cbn [SpecFloat.iter_pos].
  - assert (0 <= shr_m (shr_1 r)) as H1 by (rewrite shr_1_m by done; apply Z.div_pos; lia).
    assert (0 <= shr_m (SpecFloat.iter_pos shr_1 p (shr_1 r))) as H2
      by (rewrite IH by done; apply Z.div_pos; lia).
    rewrite IH, IH, shr_1_m by done.
    rewrite !Z.div_div by lia.
    replace (Z.pos p~1) with (1 + Z.pos p + Z.pos p) by lia.
    rewrite !Z.pow_add_r by lia. f_equal. lia.
  - assert (0 <= shr_m (SpecFloat.iter_pos shr_1 p r)) as H2
      by (rewrite IH by done; apply Z.div_pos; lia).
    rewrite IH, IH by done.
    rewrite !Z.div_div by lia.
    replace (Z.pos p~0) with (Z.pos p + Z.pos p) by lia.
    rewrite !Z.pow_add_r by lia. done.
  - rewrite shr_1_m by done. done.
Qed.

Lemma shr_record_of_loc_m (m : Z) (l : location) : shr_m (shr_record_of_loc m l) = m.
Proof. by destruct l as [|[]]. Qed.

(** Renormalisation: the mantissa is cut by [k] bits, [k] the number of
    bits by which it exceeds the format at that exponent. *)
Lemma shr_fexp_spec (m e : Z) (l : location) :
  0 <= m ->
  exists r,
    shr_fexp 53 1024 m e l
      = (r, e + Z.max (fexp 53 1024 (Zdigits2 m + e) - e) 0) /\
    shr_m r = m / 2 ^ Z.max (fexp 53 1024 (Zdigits2 m + e) - e) 0.
Proof.
  intros Hm. unfold shr_fexp, shr.
  destruct (fexp 53 1024 (Zdigits2 m + e) - e) as [|p|p] eqn:Hn.
  - eexists. split; [by rewrite Z.add_0_r|].
    rewrite shr_record_of_loc_m. change (Z.max 0 0) with 0. by rewrite Z.div_1_r.
  - eexists. split; [by rewrite Z.max_l by lia|].
    rewrite iter_shr_1_m by (by rewrite shr_record_of_loc_m).
    rewrite shr_record_of_loc_m. by rewrite Z.max_l by lia.
  - eexists. split; [by rewrite Z.max_r, Z.add_0_r by lia|].
    rewrite shr_record_of_loc_m, Z.max_r by lia. by rewrite Z.div_1_r.
Qed.

Lemma round_nearest_even_near (m : Z) (l : location) :
  m <= round_nearest_even m l <= m + 1.
Proof. destruct l as [|[]]; cbn; try destruct (Z.even m); lia. Qed.

Lemma Zdigits2_le (m b : Z) : 0 <= m -> 0 <= b -> m <= 2 ^ b -> Zdigits2 m <= b + 1.
Proof.
  intros Hm Hb Hle. destruct m as [|p|p]; cbn [Zdigits2]; [lia| |lia].
  pose proof (digits2_pos_bounds p) as [Hlo _].
  destruct (Z.le_gt_cases (Z.pos (digits2_pos p)) (b + 1)) as [|Hgt]; [done|].
  assert (2 ^ (b + 1) <= 2 ^ (Z.pos (digits2_pos p) - 1)) by (apply Z.pow_le_mono_r; lia).
  rewrite Z.pow_add_r in * by lia. lia.
Qed.

(** Rounding a positive integer mantissa [M] at exponent [E] to the
    format: the result is a zero, an infinity, or a number [m3 * 2^e3] whose
    exponent is the format's exponent [e1] for that magnitude, or one more,
    and which differs from [M * 2^E] by less than [2^e3]. *)
Lemma binary_round_aux_spec (s : bool) (M : positive) (E : Z) :
  exists m3 e3,
    binary_round_aux 53 1024 s (Z.pos M) E loc_Exact
      = match m3 with
        | Z0 => S754_zero s
        | Z.pos m => if e3 <=? 1024 - 53 then S754_finite s m e3 else S754_infinity s
        | Z.neg _ => S754_nan
        end /\
    0 <= m3 /\
    Z.max E (fexp 53 1024 (Z.pos (digits2_pos M) + E)) <= e3
      <= Z.max E (fexp 53 1024 (Z.pos (digits2_pos M) + E)) + 1 /\
    m3 * 2 ^ (e3 - E) <= Z.pos M + 2 ^ (e3 - E) /\
    Z.pos M < (m3 + 1) * 2 ^ (e3 - E).
Proof.
  unfold binary_round_aux.
  destruct (shr_fexp_spec (Z.pos M) E loc_Exact) as (r1 & -> & Hm1); [lia|].
  cbn [Zdigits2] in *.
  set (d := Z.pos (digits2_pos M)) in *.
  set (k1 := Z.max (fexp 53 1024 (d + E) - E) 0) in *.
  pose proof (digits2_pos_bounds M) as [_ HM]. fold d in HM.
  assert (0 <= k1) as Hk1 by lia.
  assert (d <= 53 + k1) as Hd by (unfold k1, fexp, emin; lia).
  assert (0 < 2 ^ k1) as Hp1 by (apply Z.pow_pos_nonneg; lia).
  assert (shr_m r1 * 2 ^ k1 <= Z.pos M < (shr_m r1 + 1) * 2 ^ k1) as [Hlo1 Hhi1].
  { rewrite Hm1. pose proof (Z.div_mod (Z.pos M) (2 ^ k1) ltac:(lia)) as Hdm.
    pose proof (Z.mod_pos_bound (Z.pos M) (2 ^ k1) Hp1). nia. }
  assert (0 <= shr_m r1 < 2 ^ 53) as [Hm1pos Hm1lt].
  { rewrite Hm1. split; [apply Z.div_pos; lia|].
    apply Z.div_lt_upper_bound; [done|].
    rewrite <- Z.pow_add_r by lia.
    eapply Z.lt_le_trans; [exact HM|]. apply Z.pow_le_mono_r; lia. }
  pose proof (round_nearest_even_near (shr_m r1) (loc_of_shr_record r1)) as [Hr1 Hr2].
  set (m2 := round_nearest_even (shr_m r1) (loc_of_shr_record r1)) in *.
  destruct (shr_fexp_spec m2 (E + k1) loc_Exact) as (r3 & -> & Hm3); [lia|].
  set (k2 := Z.max (fexp 53 1024 (Zdigits2 m2 + (E + k1)) - (E + k1)) 0) in *.
  assert (0 <= k2 <= 1) as [Hk2 Hk2'].
  { split; [lia|]. pose proof (Zdigits2_le m2 53 ltac:(lia) ltac:(lia) ltac:(lia)).
    unfold k2, k1, fexp, emin. lia. }
  assert (0 < 2 ^ k2) as Hp2 by (apply Z.pow_pos_nonneg; lia).
  assert (shr_m r3 * 2 ^ k2 <= m2 < (shr_m r3 + 1) * 2 ^ k2) as [Hlo3 Hhi3].
  { rewrite Hm3. pose proof (Z.div_mod m2 (2 ^ k2) ltac:(lia)) as Hdm.
    pose proof (Z.mod_pos_bound m2 (2 ^ k2) Hp2). nia. }
  exists (shr_m r3), (E + k1 + k2).
  split; [reflexivity|].
  split; [rewrite Hm3; apply Z.div_pos; lia|].
  split; [unfold k1; lia|].
  replace (E + k1 + k2 - E) with (k1 + k2) by lia.
  rewrite Z.pow_add_r by lia.
  split; nia.
Qed.

Lemma Zdigits2_ge (p : positive) (b : Z) :
  0 <= b -> 2 ^ b <= Z.pos p -> b + 1 <= Z.pos (digits2_pos p).
Proof.
  intros Hb Hle. pose proof (digits2_pos_bounds p) as [_ Hhi].
  destruct (Z.le_gt_cases (b + 1) (Z.pos (digits2_pos p))) as [|Hgt]; [done|].
  assert (2 ^ Z.pos (digits2_pos p) <= 2 ^ b) by (apply Z.pow_le_mono_r; lia). lia.
Qed.

Lemma valid_binary_finite (s : bool) (m : positive) (e : Z) :
  SpecFloat.valid_binary 53 1024 (S754_finite s m e) = true ->
  -1074 <= e <= 971 /\ Z.pos m < 2 ^ 53 /\ (-1074 < e -> 2 ^ 52 <= Z.pos m).
Proof.
  cbn [SpecFloat.valid_binary]. unfold bounded, canonical_mantissa, fexp, emin.
  intros [Hc He]%andb_prop. apply Z.eqb_eq in Hc. apply Z.leb_le in He.
  pose proof (digits2_pos_bounds m) as [Hlo Hhi].
  split; [lia|]. split.
  - eapply Z.lt_le_trans; [exact Hhi|]. apply Z.pow_le_mono_r; lia.
  - intros Hne. eapply Z.le_trans; [|exact Hlo]. apply Z.pow_le_mono_r; lia.
Qed.

Lemma iter_xO (p : positive) (d : positive) :
  Z.pos (Pos.iter xO p d) = Z.pos p * 2 ^ Z.pos d.
Proof.
  revert p. induction d as [|d IH] using Pos.peano_ind; intros p.
  - cbn. lia.
  - rewrite Pos.iter_succ, Pos2Z.inj_succ, Z.pow_succ_r by lia.
    rewrite Pos2Z.inj_xO, IH. lia.
Qed.

(** Thirty times a number of magnitude at most 2^-30 is a zero or a
    number of magnitude at most 2^-24. *)
Lemma SFmul_thirty_small (x : spec_float) :
  SpecFloat.valid_binary 53 1024 x = true ->
  SFleb (SFabs x) (S754_finite false 4503599627370496 (-82)) = true ->
  (exists st, SFmul 53 1024 (S754_finite false 8444249301319680 (-48)) x = S754_zero st) \/
  (exists st mt et,
     SFmul 53 1024 (S754_finite false 8444249301319680 (-48)) x = S754_finite st mt et /\
     et <= -75 /\ Z.pos mt <= 2 ^ (-24 - et)).
Proof.
  intros Hvalid Hle. destruct x as [sx|sx| |sx m e]; try done.
  { left. by eexists. }
  apply valid_binary_finite in Hvalid as ((He1 & He2) & Hm & _).
  assert (e <= -82 /\ Z.pos m <= 2 ^ (-30 - e)) as [He Hmag].
  { unfold SFleb in Hle. cbn [SFabs SFcompare] in Hle.
    destruct (Z.compare_spec e (-82)) as [->|Hlt|Hgt]; [| |done].
    - split; [lia|]. change (2 ^ (-30 - -82)) with 4503599627370496.
      rewrite Pos.compare_cont_spec in Hle.
      destruct (Pos.compare_spec m 4503599627370496) as [Heq|Hlt|Hgt].
      + rewrite Heq. apply Z.le_refl.
      + apply Z.lt_le_incl. exact Hlt.
      + discriminate Hle.
    - split; [lia|]. eapply Z.le_trans; [apply Z.lt_le_incl, Hm|].
      apply Z.pow_le_mono_r; lia. }
  cbn [SFmul xorb].
  destruct (binary_round_aux_spec sx (8444249301319680 * m) (-48 + e))
    as (m3 & e3 & -> & Hm3 & [He3lo He3hi] & Hval & _).
  assert (Z.pos (digits2_pos (8444249301319680 * m)) <= 107) as Hdig.
  { apply (Zdigits2_le (Z.pos (8444249301319680 * m)) 106); [lia|lia|].
    rewrite Pos2Z.inj_mul. change (2 ^ 106) with (2 ^ 53 * 2 ^ 53). nia. }
  assert (e3 <= -75 /\ e3 - (-48 + e) <= 56) as [He3 Hshift]
    by (unfold fexp, emin in He3hi; lia).
  destruct m3 as [|mt|mt]; [left; by eexists| |lia].
  right. assert ((e3 <=? 1024 - 53) = true) as -> by (apply Z.leb_le; lia).
  exists sx, mt, e3. split; [done|]. split; [done|].
  set (k := e3 - (-48 + e)) in *.
  assert (0 <= k) as Hk by (unfold fexp, emin in He3lo; lia).
  assert (0 < 2 ^ k) as Hpk by (apply Z.pow_pos_nonneg; lia).
  assert (2 ^ k <= 2 ^ 56) as Hpk' by (apply Z.pow_le_mono_r; lia).
  apply (Z.mul_le_mono_pos_r _ _ (2 ^ k)); [done|].
  rewrite <- Z.pow_add_r by lia.
  replace (-24 - e3 + k) with (6 + 48 + (-30 - e)) by lia.
  rewrite !Z.pow_add_r by lia.
  rewrite Pos2Z.inj_mul in Hval.
  assert (2 ^ 52 <= 2 ^ (-30 - e)) as Hbig by (apply Z.pow_le_mono_r; lia).
  change (2 ^ 6) with 64. change (2 ^ 48) with 281474976710656.
  change (2 ^ 56) with 72057594037927936 in Hpk'.
  change (2 ^ 52) with 4503599627370496 in Hbig.
  nia.
Qed.

(** Thirty plus a number of magnitude at most 2^-24 is a number within
    2^25 units in the last place of thirty. *)
Lemma SFadd_thirty_small (st : bool) (mt : positive) (et : Z) :
  SpecFloat.valid_binary 53 1024
    (SFadd 53 1024 (S754_finite false 8444249301319680 (-48)) (S754_finite st mt et)) = true ->
  et <= -75 -> Z.pos mt <= 2 ^ (-24 - et) ->
  exists mv,
    SFadd 53 1024 (S754_finite false 8444249301319680 (-48)) (S754_finite st mt et)
      = S754_finite false mv (-48) /\
    8444249301319680 - 2 ^ 25 <= Z.pos mv <= 8444249301319680 + 2 ^ 25.
Proof.
  intros Hvalid Het Hmt.
  remember (SFadd 53 1024 (S754_finite false 8444249301319680 (-48))
              (S754_finite st mt et)) as v eqn:Hv.
  cbn [SFadd] in Hv. rewrite Z.min_r in Hv by lia.
  unfold shl_align in Hv. rewrite Z.sub_diag in Hv.
  destruct (et - -48) as [|d|d] eqn:Hd; [lia|lia|]. cbn [fst] in Hv.
  assert (Z.pos d = -48 - et) as HD by lia.
  pose proof (iter_xO 8444249301319680 d) as Hshift.
  set (a := Pos.iter xO 8444249301319680%positive d) in *.
  assert (0 < 2 ^ Z.pos d) as HP by (apply Z.pow_pos_nonneg; lia).
  assert (Z.pos mt <= 2 ^ 24 * 2 ^ Z.pos d) as Hmt'.
  { rewrite <- Z.pow_add_r by lia. eapply Z.le_trans; [exact Hmt|].
    apply Z.pow_le_mono_r; lia. }
  set (P := 2 ^ Z.pos d) in *. change (2 ^ 24) with 16777216 in Hmt'.
  assert ((8444249301319680 - 16777216) * P
            <= cond_Zopp false (Z.pos a) + cond_Zopp st (Z.pos mt)
            <= (8444249301319680 + 16777216) * P) as [HSlo HShi].
  { unfold cond_Zopp. destruct st; lia. }
  destruct (cond_Zopp false (Z.pos a) + cond_Zopp st (Z.pos mt)) as [|S|S] eqn:HS;
    [lia| |lia].
  cbn [binary_normalize] in Hv. unfold binary_round in Hv.
  assert (Z.pos (digits2_pos S) = 5 - et) as Hdig.
  { apply Z.le_antisymm.
    - pose proof (digits2_pos_bounds S) as [Hlo _].
      destruct (Z.le_gt_cases (Z.pos (digits2_pos S)) (5 - et)) as [Hle|Hgt];
        [exact Hle|].
      assert (2 ^ (5 - et) <= 2 ^ (Z.pos (digits2_pos S) - 1)) as Hpow
        by (apply Z.pow_le_mono_r; lia).
      replace (5 - et) with (53 + Z.pos d) in Hpow by lia.
      rewrite Z.pow_add_r in Hpow by lia. fold P in Hpow.
      change (2 ^ 53) with 9007199254740992 in Hpow. lia.
    - replace (5 - et) with (52 + Z.pos d + 1) by lia.
      apply Zdigits2_ge; [lia|]. rewrite Z.pow_add_r by lia. fold P.
      change (2 ^ 52) with 4503599627370496. lia. }
  rewrite Hdig in Hv. replace (5 - et + et) with 5 in Hv by lia.
  change (fexp 53 1024 5) with (-48) in Hv.
  unfold shl_align in Hv. destruct (-48 - et) as [|k|k] eqn:Hk; [lia| |lia].
  destruct (binary_round_aux_spec false S et)
    as (m3 & e3 & Hround & Hm3 & [He3lo He3hi] & Hvlo & Hvhi).
  rewrite Hround in Hv. clear Hround.
  rewrite Hdig in He3lo, He3hi. replace (5 - et + et) with 5 in He3lo, He3hi by lia.
  change (fexp 53 1024 5) with (-48) in He3lo, He3hi.
  rewrite Z.max_r in He3lo, He3hi by lia.
  assert ((e3 <=? 1024 - 53) = true) as Hfit by (apply Z.leb_le; lia).
  rewrite Hfit in Hv.
  destruct (Z.eq_dec e3 (-48)) as [->|Hne].
  - rewrite Hk in Hvlo, Hvhi. rewrite <- HD in Hvlo, Hvhi. fold P in Hvlo, Hvhi.
    destruct m3 as [|mv|mv]; [lia| |lia].
    exists mv. split; [exact Hv|]. change (2 ^ 25) with 33554432. nia.
  - assert (e3 = -47) as -> by lia.
    replace (-47 - et) with (1 + Z.pos d) in Hvlo, Hvhi by lia.
    rewrite Z.pow_add_r in Hvlo, Hvhi by lia. fold P in Hvlo, Hvhi.
    change (2 ^ 1) with 2 in Hvlo, Hvhi.
    destruct m3 as [|mv|mv]; [lia| |lia].
    rewrite Hv in Hvalid.
    apply valid_binary_finite in Hvalid as (_ & _ & Hnorm).
    specialize (Hnorm ltac:(lia)). change (2 ^ 52) with 4503599627370496 in Hnorm.
    exfalso. nia.
Qed.

(** The exact value of [30 + 30 * s] in binary64 is within 1e-6 of 30 for
    every [s] of magnitude at most 2^-30. *)
Lemma thirty_plus_small_value (s : float) :
  (abs s <=? 0x1p-30)%float = true ->
  exists x, Float64.value (30 + 30 * s)%float = Some x /\ (Rabs (x - 30) <= 1 / 1000000)%R.
Proof.
  intros Hs. rewrite leb_spec, abs_spec in Hs.
  change (Prim2SF 0x1p-30) with (S754_finite false 4503599627370496 (-82)) in Hs.
  pose proof (Prim2SF_valid (30 + 30 * s)) as Hvalid.
  unfold Float64.value.
  rewrite add_spec, mul_spec in Hvalid. rewrite add_spec, mul_spec.
  change (Prim2SF 30) with (S754_finite false 8444249301319680 (-48)) in *.
  unfold SF64add, SF64mul in *.
  change FloatOps.prec with 53 in *. change FloatOps.emax with 1024 in *.
  destruct (SFmul_thirty_small (Prim2SF s) (Prim2SF_valid s) Hs)
    as [[st Hm]|(st & mt & et & Hm & Het & Hmt)]; rewrite Hm in Hvalid |- *.
  - assert (SFadd 53 1024 (S754_finite false 8444249301319680 (-48)) (S754_zero st)
            = S754_finite false 8444249301319680 (-48)) as -> by (by destruct st).
    cbn [decide]. eexists. split; [reflexivity|].
    change (2 ^ (- -48)) with 281474976710656.
    destruct (decide (0 <= -48)) as [Hneg|_]; [lia|].
    replace (8444249301319680 / 281474976710656 - 30)%R with 0%R by lra.
    rewrite Rabs_R0. lra.
  - destruct (SFadd_thirty_small st mt et Hvalid Het Hmt) as (mv & Hv & Hlo & Hhi).
    rewrite Hv. change (2 ^ 25) with 33554432 in Hlo, Hhi.
    eexists. split; [reflexivity|].
    change (2 ^ (- -48)) with 281474976710656.
    destruct (decide (0 <= -48)) as [Hneg|_]; [lia|].
    apply IZR_le in Hlo, Hhi. rewrite minus_IZR in Hlo. rewrite plus_IZR in Hhi.
    apply Rabs_le. lra.
Qed.

End Binary64.

Lemma float_zero_not_above_half (b : float) :
  (b =? 0)%float = true -> ((b : float) >ᶠ decimal 5 1) = false.
Proof.
  intros Hb. rewrite FloatAxioms.eqb_spec in Hb.
  cbn [fltb Float64.ops]. rewrite FloatAxioms.ltb_spec.
  change (Prim2SF 0) with (S754_zero false) in Hb.
  assert (Prim2SF (decimal 5 1) = S754_finite false 4503599627370496 (-53)) as ->
    by (vm_compute; reflexivity).
  destruct (Prim2SF b) as [s|s| |s m e]; [reflexivity| | |].
  - destruct s; discriminate Hb.
  - discriminate Hb.
  - destruct s; discriminate Hb.
Qed.

(** The arm phase of frame 15 at 120 BPM as the interpreter computes it:
    one unit in the last place below [np.pi]. *)
Lemma arm_phase_quarter_second :
  (of_int 2 ⊗ 0x1.921fb54442d18p+1%float ⊗ (of_int (Z.of_nat 15) ⊘ of_int 60)
     ⊗ of_int 120 ⊘ of_int 60) = 0x1.921fb54442d17p+1%float.
Proof. vm_compute. reflexivity. Qed.

(** C6: at tempo 120 with onset 0 everywhere, frame 15 (t = 0.25 s) has
    L_Shoulder (joint 16) X rotation within 1e-6 of 30, computed in
    binary64; the generator's frame rate is 60.  The phase the interpreter
    computes is [0x1.921fb54442d17p+1], one unit in the last place below
    [np.pi]; the platform's sine enters through its magnitude at that
    argument only (the true value is about 5.7e-16), and the result is
    [30 + 30 * np_sin phase] rounded twice. *)
Theorem C6_shoulder_at_quarter_second `{T : Trig float} (feats : AudioFeatures float)
    (seed : option (ndarray3 float)) (m : ndarray2 float) (on : list float) :
  np_pi = 0x1.921fb54442d18p+1%float ->
  (abs (np_sin 0x1.921fb54442d17p+1) <=? 0x1p-30)%float = true ->
  mel feats = Some m -> (15 < cols m)%nat ->
  tempo feats = Some (of_int 120) -> onset feats = Some on ->
  (forall i b, on !! i = Some b -> (b =? 0)%float = true) ->
  exists motion v x,
    BaselineGenerator.generate baseline feats seed = Ok motion /\
    motion_fps motion = 60 /\
    at3 (rotations motion) 15 16 0 = Some v /\
    v = (30 + 30 * np_sin 0x1.921fb54442d17p+1)%float /\
    Float64.value v = Some x /\
    (Rabs (x - 30) <= 1 / 1000000)%R.
Proof.
  intros Hpi Hsin Hm Hi Htp Hon Hzero.
  pose proof (generate_spec feats seed m Hm) as Hgen. cbn zeta in Hgen.
  destruct (generate_frame_lookup feats seed m 15 Hm Hi)
    as (motion & Hrun & _ & _ & _ & _ & Hrot & _).
  assert (motion_fps motion = 60) as Hfps.
  { rewrite Hgen in Hrun. by injection Hrun as <-. }
  destruct (thirty_plus_small_value _ Hsin) as (x & Hx & Hbound).
  exists motion, (30 + 30 * np_sin 0x1.921fb54442d17p+1)%float, x.
  split; [exact Hrun|]. split; [exact Hfps|]. split; [|split; [reflexivity|]; split; [exact Hx|exact Hbound]].
  unfold at3. rewrite Hrot, Htp, Hon. cbn [mbind option_bind from_option].
  unfold frame_pose, beat_intensity.
  assert ((default (of_int 0) (Datatypes.id on !! 15%nat) >ᶠ decimal 5 1) = false) as ->.
  { change (Datatypes.id on) with on. apply float_zero_not_above_half.
    destruct (on !! 15%nat) as [b|] eqn:Hb; [|reflexivity]. exact (Hzero 15%nat b Hb). }
  cbn [base_pose lookup list_lookup mbind option_bind].
  f_equal. change (Datatypes.id (of_int 120)) with (of_int (F:=float) 120).
  rewrite Hpi, arm_phase_quarter_second. reflexivity.
Qed.

(** C6, witness: sixteen frames of zero onset at 120 BPM, with a sine that
    is accurate near pi; the value is 30.000000000000018. *)
Lemma C6_shoulder_at_quarter_second_witness :
  exists motion v x,
    BaselineGenerator.generate (H0 := Examples.float_trig_near_pi) baseline
      (Examples.float_features 16 120 (replicate 16 0%float)) None = Ok motion /\
    motion_fps motion = 60 /\
    at3 (rotations motion) 15 16 0 = Some v /\
    v = (30 + 30 * Examples.reflected_sin 0x1.921fb54442d17p+1)%float /\
    Float64.value v = Some x /\
    (Rabs (x - 30) <= 1 / 1000000)%R.
Proof.
  apply (C6_shoulder_at_quarter_second (T := Examples.float_trig_near_pi)
           (Examples.float_features 16 120 (replicate 16 0%float)) None
           (np_zeros2 128 16) (replicate 16 0%float)).
  - reflexivity.
  - vm_compute. reflexivity.
  - reflexivity.
  - simpl. lia.
  - reflexivity.
  - reflexivity.
  - intros i b Hb. apply lookup_replicate in Hb as [-> _]. reflexivity.
Defined.

(** *** Writing to a file *)

Lemma str_app_assoc (a b c : string) : (a +:+ b) +:+ c = a +:+ (b +:+ c).
Proof.
  induction a as [|x a IH]; [done|].
  change (String x ((a +:+ b) +:+ c) = String x (a +:+ (b +:+ c))). by rewrite IH.
Qed.

Lemma str_app_nil_r (a : string) : a +:+ "" = a.
Proof.
  induction a as [|x a IH]; [done|].
  change (String x (a +:+ "") = String x a). by rewrite IH.
Qed.

Lemma file_bind_inv {A B} (m : FileM A) (f : A -> FileM B) (buf buf' : string) (b : B) :
  (m ≫= f) buf = (buf', Ok b) ->
  exists a buf1, m buf = (buf1, Ok a) /\ f a buf1 = (buf', Ok b).
Proof.
  unfold mbind, FileM_bind. destruct (m buf) as [buf1 [a|e]]; [eauto|done].
Qed.

Lemma file_bind_intro {A B} (m : FileM A) (f : A -> FileM B) (buf buf1 : string)
    (a : A) (r : string * result B) :
  m buf = (buf1, Ok a) -> f a buf1 = r -> (m ≫= f) buf = r.
Proof. unfold mbind, FileM_bind. by intros -> ->. Qed.

Lemma file_for_each_mono {A} (xs : list A) (rec1 rec2 : A -> FileM unit) :
  (forall x buf buf', rec1 x buf = (buf', Ok tt) -> rec2 x buf = (buf', Ok tt)) ->
  forall buf buf',
    file_for_each xs rec1 buf = (buf', Ok tt) ->
    file_for_each xs rec2 buf = (buf', Ok tt).
Proof.
  intros Hrec. induction xs as [|x xs IH]; intros buf buf' Hrun; simpl in *; [done|].
  apply file_bind_inv in Hrun as ([] & buf1 & Hx & Hrest).
  eapply file_bind_intro; [by apply Hrec|]. by apply IH.
Qed.

Section ExporterFacts.
Context {F : Type} `{FloatOps F} `{Format F}.

Ltac peel Hrun :=
  let a := fresh "a" in
  let b := fresh "buf" in
  let Hm := fresh "Hm" in
  apply file_bind_inv in Hrun as (a & b & Hm & Hrun);
  apply (file_bind_intro _ _ _ b a); [exact Hm|].

(** A run that completes within [depth] nested calls completes in the same
    way when more are allowed. *)
Lemma write_joint_depth_S (self : BVHExporter.t F) (depth : nat) :
  forall joint_idx indent_level buf buf',
    BVHExporter._write_joint depth self joint_idx indent_level buf = (buf', Ok tt) ->
    BVHExporter._write_joint (S depth) self joint_idx indent_level buf = (buf', Ok tt).
Proof.
  induction depth as [|d IH]; intros j ind buf buf' Hrun; [done|].
  cbn [BVHExporter._write_joint] in Hrun |- *.
  do 8 peel Hrun.
  apply file_bind_inv in Hrun as ([] & bufk & Hkids & Hrun).
  eapply file_bind_intro; [|exact Hrun].
  destruct (BVHExporter.children_of j) as [|c cs]; [exact Hkids|].
  revert Hkids. apply file_for_each_mono. intros x b b'. apply IH.
Qed.

Lemma write_joint_depth_ge (self : BVHExporter.t F) (d depth : nat) :
  (d <= depth)%nat ->
  forall joint_idx indent_level buf buf',
    BVHExporter._write_joint d self joint_idx indent_level buf = (buf', Ok tt) ->
    BVHExporter._write_joint depth self joint_idx indent_level buf = (buf', Ok tt).
Proof.
  induction 1 as [|depth Hle IH]; intros j ind buf buf' Hrun; [done|].
  by apply write_joint_depth_S, IH.
Qed.

(** Nine nested calls are enough for the skeleton, and then any larger
    allowance writes the same text. *)
Lemma write_hierarchy_total (self : BVHExporter.t F) (depth : nat) :
  (9 <= depth)%nat ->
  BVHExporter._write_hierarchy depth self "" = (hierarchy_text self, Ok tt).
Proof.
  intros Hd. unfold BVHExporter._write_hierarchy, hierarchy_text.
  assert ((BVHExporter._write_hierarchy 9 self "").2 = Ok tt) as Hok
    by (vm_compute; reflexivity).
  unfold BVHExporter._write_hierarchy in *.
  destruct ((file_write ("HIERARCHY" +:+ nl);; BVHExporter._write_joint 9 self 0 0) "")
    as [text r] eqn:H9.
  simpl in Hok. subst r. simpl.
  apply file_bind_inv in H9 as ([] & buf1 & Hw & Hj).
  eapply file_bind_intro; [exact Hw|].
  by apply (write_joint_depth_ge self 9 depth).
Qed.

End ExporterFacts.

Section MotionFacts.
Context {F : Type} `{FloatOps F} `{Format F}.

Lemma row3_lookup (motion_data : ndarray3 F) (i j : nat) (fr : list (list F)) :
  data3 motion_data !! i = Some fr -> row3 motion_data i j = getitem fr j.
Proof. intros Hfr. unfold row3. by rewrite (getitem_lookup _ _ _ Hfr). Qed.

Lemma frame_data_rows (motion_data : ndarray3 F) (i : nat) (fr : list (list F)) :
  data3 motion_data !! i = Some fr ->
  forall (m k : nat) (acc : list F),
    (k + m = length fr)%nat ->
    for_each (seq k m)
      (fun joint_idx frame_data =>
         rotation ← row3 motion_data i joint_idx; Ok (frame_data ++ rotation)) acc
    = Ok (acc ++ concat (drop k fr)).
Proof.
  intros Hfr. induction m as [|m IH]; intros k acc Hk; simpl.
  - rewrite drop_ge by lia. by rewrite app_nil_r.
  - destruct (getitem_lt fr k) as (r & Hg & Hr); [lia|].
    rewrite (row3_lookup motion_data i k fr Hfr), Hg. cbn [mbind result_bind].
    rewrite IH by lia. rewrite (drop_S _ _ _ Hr). simpl. by rewrite app_assoc.
Qed.

(** The values of frame line [i]: the translation row, then the frame's
    rotation rows in ascending joint index. *)
Lemma frame_data_spec (motion_data : ndarray3 F) (translations : ndarray2 F)
    (i : nat) (tr : list F) (fr : list (list F)) :
  data2 translations !! i = Some tr ->
  data3 motion_data !! i = Some fr ->
  length fr = dim1 motion_data ->
  BVHExporter.frame_data motion_data translations i = Ok (tr ++ concat fr).
Proof.
  intros Htr Hfr Hlen. unfold BVHExporter.frame_data, row2.
  rewrite (getitem_lookup _ _ _ Htr). simpl. unfold for_range.
  rewrite (frame_data_rows motion_data i fr Hfr) by lia. done.
Qed.

Lemma write_frames (self : BVHExporter.t F) (motion_data : ndarray3 F)
    (translations : ndarray2 F) :
  wf3 motion_data ->
  forall (m k : nat) (buf : string),
    (k + m = length (data3 motion_data))%nat ->
    (k + m <= length (data2 translations))%nat ->
    file_for_each (seq k m)
      (fun frame_idx =>
         fd ← file_lift (BVHExporter.frame_data motion_data translations frame_idx);
         file_write (join " " (format_f 6 <$> fd) +:+ nl)) buf
    = (buf +:+ str_concat (zip_with frame_line (drop k (data2 translations))
                             (drop k (data3 motion_data))), Ok tt).
Proof.
  intros [Hlen Hframes]. induction m as [|m IH]; intros k buf Hk Hk'.
  - simpl. rewrite (drop_ge (data3 _)) by lia.
    destruct (drop k (data2 translations)); simpl; by rewrite str_app_nil_r.
  - destruct (lookup_lt_is_Some_2 (data3 motion_data) k) as [fr Hfr]; [lia|].
    destruct (lookup_lt_is_Some_2 (data2 translations) k) as [tr Htr]; [lia|].
    assert (length fr = dim1 motion_data) as Hfl.
    { rewrite Forall_lookup in Hframes. by destruct (Hframes k fr Hfr). }
    cbn [seq file_for_each].
    eapply file_bind_intro.
    { eapply file_bind_intro.
      - unfold file_lift. by rewrite (frame_data_spec _ _ _ tr fr).
      - reflexivity. }
    rewrite IH by lia.
    rewrite (drop_S _ _ _ Hfr), (drop_S _ _ _ Htr). simpl.
    by rewrite str_app_assoc.
Qed.

(** The MOTION section written for well-shaped arrays. *)
Lemma write_motion_total (self : BVHExporter.t F) (motion_data : ndarray3 F)
    (translations : ndarray2 F) (buf : string) :
  wf3 motion_data ->
  (dim0 motion_data <= length (data2 translations))%nat ->
  BVHExporter._write_motion self motion_data translations buf
    = (buf +:+ motion_text self motion_data translations, Ok tt).
Proof.
  intros Hwf Hrows. pose proof Hwf as [Hlen _].
  unfold BVHExporter._write_motion, motion_text.
  do 3 (eapply file_bind_intro; [reflexivity|]).
  rewrite <- Hlen.
  rewrite (write_frames self motion_data translations Hwf _ 0) by (simpl; lia).
  rewrite !drop_0. f_equal. by rewrite !str_app_assoc.
Qed.

(** [export] on a writable path, for an exporter built by its
    constructor and well-shaped arrays: what is printed and written. *)
Lemma export_total (depth : nat) (fps : Z) (self : BVHExporter.t F)
    (motion_data : ndarray3 F) (output_path : string)
    (translations : option (ndarray2 F)) (w : World) :
  (9 <= depth)%nat ->
  BVHExporter.__init__ fps = Ok self ->
  wf3 motion_data ->
  (forall tr, translations = Some tr -> (dim0 motion_data <= length (data2 tr))%nat) ->
  writable w output_path = true ->
  BVHExporter.export depth self motion_data output_path translations w =
    (mkWorld
       (<[output_path :=
            hierarchy_text self +:+
            motion_text self motion_data
              (default (np_zeros2 (dim0 motion_data) 3) translations)]> (fs w))
       (writable w)
       (stdout w ++
        export_prints self (dim0 motion_data) (dim1 motion_data) output_path),
     Ok tt).
Proof.
  intros Hd Hinit Hwf Htr Hw.
  assert (BVHExporter.fps self = fps /\ feqb (of_int fps) (of_int 0) = false)
    as [Hfps Hnz].
  { unfold BVHExporter.__init__, py_div in Hinit.
    destruct (feqb (of_int fps) (of_int 0)); [done|].
    simpl in Hinit. by injection Hinit as <-. }
  assert (dim0 motion_data
          <= length (data2 (default (np_zeros2 (dim0 motion_data) 3) translations)))%nat
    as Hrows.
  { destruct translations as [tr|]; simpl; [by apply Htr|].
    by rewrite length_replicate. }
  unfold BVHExporter.export, export_prints, with_open_w, print, io_lift, py_div.
  unfold mbind, IO_bind, mret, IO_ret.
  rewrite Hfps, Hnz.
  destruct (decide (dim1 motion_data ≠ 24%nat)); simpl; rewrite Hw.
  - fold (@mbind FileM _ unit unit).
    rewrite (file_bind_intro _ _ _ _ _ _ (write_hierarchy_total self depth Hd) eq_refl).
    rewrite write_motion_total by done.
    do 2 f_equal. cbn [stdout]. by rewrite <- !app_assoc.
  - fold (@mbind FileM _ unit unit).
    rewrite (file_bind_intro _ _ _ _ _ _ (write_hierarchy_total self depth Hd) eq_refl).
    rewrite write_motion_total by done.
    do 2 f_equal. cbn [stdout]. by rewrite <- !app_assoc.
Qed.

End MotionFacts.



(** C9: two runs agree.  The generator's result is fixed by the mel
    column count, the tempo and the onset vector (no other input, state or
    seed enters); the exporter's return value, the file it leaves at the
    output path and the lines it prints are fixed by the motion data, the
    translations, the frame rate and the path, whatever the file system and
    console held before. *)
Theorem C9_two_runs_agree {F : Type} `{FloatOps F} `{Trig F} `{Format F}
    (g : BaselineGenerator.t F) (fa fb : AudioFeatures F)
    (sa sb : option (ndarray3 F))
    (depth : nat) (fps : Z) (exporter : BVHExporter.t F) (motion_data : ndarray3 F)
    (translations : option (ndarray2 F)) (output_path : string) (w1 w2 : World) :
  cols <$> mel fa = cols <$> mel fb -> tempo fa = tempo fb -> onset fa = onset fb ->
  BVHExporter.__init__ fps = Ok exporter ->
  writable w1 output_path = true -> writable w2 output_path = true ->
  BaselineGenerator.generate g fa sa = BaselineGenerator.generate g fb sb /\
  let run1 := BVHExporter.export depth exporter motion_data output_path translations w1 in
  let run2 := BVHExporter.export depth exporter motion_data output_path translations w2 in
  run1.2 = run2.2 /\
  is_Some (fs run1.1 !! output_path) /\
  fs run1.1 !! output_path = fs run2.1 !! output_path /\
  drop (length (stdout w1)) (stdout run1.1) = drop (length (stdout w2)) (stdout run2.1).
Proof.
  intros Hmel Htempo Honset Hinit Hw1 Hw2. split.
  - unfold BaselineGenerator.generate.
    destruct (mel fa) as [ma|], (mel fb) as [mb|]; simpl in Hmel; try done.
    injection Hmel as Hcols. simpl. by rewrite Hcols, Htempo, Honset.
  - assert (feqb (of_int (BVHExporter.fps exporter)) (of_int 0) = false) as Hnz.
    { unfold BVHExporter.__init__, py_div in Hinit.
      destruct (feqb (of_int fps) (of_int 0)) eqn:Hz; [done|].
      simpl in Hinit. by injection Hinit as <-. }
    cbn zeta.
    unfold BVHExporter.export, with_open_w, print, io_lift, py_div.
    unfold mbind, IO_bind, mret, IO_ret. rewrite Hnz.
    fold (@mbind FileM _ unit unit).
    destruct ((BVHExporter._write_hierarchy depth exporter;;
               BVHExporter._write_motion exporter motion_data
                 (default (np_zeros2 (dim0 motion_data) 3) translations)) "")
      as [text [[]|e]] eqn:Hbody;
      destruct (decide (dim1 motion_data ≠ 24%nat)); cbn; rewrite Hw1, Hw2;
      cbn; rewrite !lookup_insert_eq, <- !app_assoc, !drop_app_length; eauto.
Qed.




(** C9, witness: the same motion exported into an empty world and into
    one that already holds the file and earlier output. *)
Lemma C9_two_runs_agree_witness :
  BaselineGenerator.generate (H0 := Examples.float_trig) baseline
      (mkFeatures (Some (Examples.mel_of 2)) None (Some (Examples.onset_of 2))
         (Some 120%float) None None) None
    = BaselineGenerator.generate (H0 := Examples.float_trig) baseline
        (mkFeatures (Some (Examples.chroma_of 2)) (Some (Examples.chroma_of 2))
           (Some (Examples.onset_of 2)) (Some 120%float) (Some [0]) (Some 1%float))
        (Some Examples.numbered_pose) /\
  let run1 := BVHExporter.export 1000 Examples.exporter60 Examples.numbered_pose
                "out.bvh" None Examples.world0 in
  let run2 := BVHExporter.export 1000 Examples.exporter60 Examples.numbered_pose
                "out.bvh" None
                (mkWorld {[ "out.bvh" := "stale" ]} (fun _ => true) ["earlier"]) in
  run1.2 = run2.2 /\
  is_Some (fs run1.1 !! "out.bvh") /\
  fs run1.1 !! "out.bvh" = fs run2.1 !! "out.bvh" /\
  drop (length (stdout Examples.world0)) (stdout run1.1)
    = drop (length ["earlier"]) (stdout run2.1).
Proof.
  apply (C9_two_runs_agree (H0 := Examples.float_trig) baseline _ _ _ _ 1000 60
           Examples.exporter60 Examples.numbered_pose None "out.bvh").
  - reflexivity.
  - reflexivity.
  - reflexivity.
  - vm_compute. reflexivity.
  - reflexivity.
  - reflexivity.
Defined.

(** C8: for every allowance of at least nine nested calls the hierarchy
    text reads back as one tree in which: the root is tagged ROOT, is joint
    0 and declares the 6 position and rotation channels; all 24 joints occur,
    each once; every other joint is tagged JOINT with the 3 rotation
    channels; the blocks directly nested in the block of joint [j] are
    exactly the joints whose parent is [j], in ascending index order (so each
    non-root joint sits inside its parent's braces); and a block has an End
    Site with offset 0.0 0.0 0.0 exactly when it has no nested joint. *)
Theorem C8_hierarchy_well_formed (depth : nat) (self : BVHExporter.t float) :
  (9 <= depth)%nat ->
  exists text root,
    BVHExporter._write_hierarchy depth self "" = (text, Ok tt) /\
    BVHSyntax.parse_hierarchy text = Some root /\
    BVHSyntax.tag root = "ROOT" /\
    BVHSyntax.joint_index root = Some 0%nat /\
    BVHSyntax.channels root
      = ["Xposition"; "Yposition"; "Zposition"; "Zrotation"; "Xrotation"; "Yrotation"] /\
    BVHSyntax.declared_order root ≡ₚ Some <$> seq 0 24 /\
    Forall (fun b =>
              BVHSyntax.joint_index b ≠ Some 0%nat ->
              BVHSyntax.tag b = "JOINT" /\
              BVHSyntax.channels b = ["Zrotation"; "Xrotation"; "Yrotation"])
           (BVHSyntax.preorder root) /\
    Forall (fun b =>
              exists j, BVHSyntax.joint_index b = Some j /\
                BVHSyntax.joint_index <$> BVHSyntax.children b
                  = Some <$> BVHExporter.children_of j /\
                StronglySorted lt (BVHExporter.children_of j) /\
                Forall (fun c => BVHExporter.PARENT_INDICES !! c = Some (Z.of_nat j))
                       (BVHExporter.children_of j))
           (BVHSyntax.preorder root) /\
    Forall (fun b =>
              (BVHSyntax.children b = [] ->
               BVHSyntax.end_site b = Some ["0.0"; "0.0"; "0.0"]) /\
              (BVHSyntax.children b ≠ [] -> BVHSyntax.end_site b = None))
           (BVHSyntax.preorder root).
Proof.
  intros Hd. rewrite (write_hierarchy_total self depth Hd).
  destruct (BVHSyntax.parse_hierarchy (hierarchy_text self)) as [root|] eqn:Hparse;
    [|by vm_compute in Hparse].
  exists (hierarchy_text self), root. split; [done|]. split; [done|].
  vm_compute in Hparse. injection Hparse as <-.
  split; [reflexivity|]. split; [reflexivity|]. split; [reflexivity|].
  split.
  { apply (bool_decide_unpack _). vm_compute. exact I. }
  split.
  { apply (bool_decide_unpack _). vm_compute. exact I. }
  split.
  { cbn [BVHSyntax.preorder BVHSyntax.children flat_map app].
    repeat (apply Forall_cons; split;
            [eexists; split; [reflexivity|]; split; [reflexivity|]; split;
             [vm_compute; repeat constructor|
              vm_compute; repeat constructor]|]).
    apply Forall_nil. done. }
  apply (bool_decide_unpack _). vm_compute. exact I.
Qed.

(** C8, witness: the exporter of [app.py] with the interpreter's default
    allowance of 1000 nested calls. *)
Lemma C8_hierarchy_well_formed_witness :
  exists text root,
    BVHExporter._write_hierarchy 1000 Examples.exporter60 "" = (text, Ok tt) /\
    BVHSyntax.parse_hierarchy text = Some root /\
    BVHSyntax.tag root = "ROOT" /\
    BVHSyntax.joint_index root = Some 0%nat /\
    BVHSyntax.channels root
      = ["Xposition"; "Yposition"; "Zposition"; "Zrotation"; "Xrotation"; "Yrotation"] /\
    BVHSyntax.declared_order root ≡ₚ Some <$> seq 0 24 /\
    Forall (fun b =>
              BVHSyntax.joint_index b ≠ Some 0%nat ->
              BVHSyntax.tag b = "JOINT" /\
              BVHSyntax.channels b = ["Zrotation"; "Xrotation"; "Yrotation"])
           (BVHSyntax.preorder root) /\
    Forall (fun b =>
              exists j, BVHSyntax.joint_index b = Some j /\
                BVHSyntax.joint_index <$> BVHSyntax.children b
                  = Some <$> BVHExporter.children_of j /\
                StronglySorted lt (BVHExporter.children_of j) /\
                Forall (fun c => BVHExporter.PARENT_INDICES !! c = Some (Z.of_nat j))
                       (BVHExporter.children_of j))
           (BVHSyntax.preorder root) /\
    Forall (fun b =>
              (BVHSyntax.children b = [] ->
               BVHSyntax.end_site b = Some ["0.0"; "0.0"; "0.0"]) /\
              (BVHSyntax.children b ≠ [] -> BVHSyntax.end_site b = None))
           (BVHSyntax.preorder root).
Proof.
  apply (C8_hierarchy_well_formed 1000 Examples.exporter60). lia.
Defined.

(** C1 (the code at the failing input): exporting one frame in which
    joint [j] has the rotation (j, j, j) succeeds; the hierarchy declares the
    joints' channels in depth-first order 0, 1, 4, 7, 10, 2, ..., but the
    frame line lists the rotation triples in ascending joint index
    0, 1, 2, 3, ..., which is not the line the depth-first order requires. *)
Theorem C1_motion_lines_in_index_order :
  exists w' text root m,
    BVHExporter.export 1000 Examples.exporter60 Examples.numbered_pose "out.bvh" None
      Examples.world0 = (w', Ok tt) /\
    fs w' !! "out.bvh" = Some text /\
    BVHSyntax.parse_bvh text = Some (root, m) /\
    BVHSyntax.declared_order root = Some <$> Examples.depth_first_order /\
    BVHSyntax.frame_lines m
      = [ replicate 3 "0.000000" ++
          flat_map (fun j : nat => replicate 3 (format_f 6 (Float64.of_Z (Z.of_nat j))))
                   (seq 0 24) ] /\
    BVHSyntax.frame_lines m
      <> [ replicate 3 "0.000000" ++
           flat_map (fun j : nat => replicate 3 (format_f 6 (Float64.of_Z (Z.of_nat j))))
                    Examples.depth_first_order ].
Proof.
  destruct (BVHExporter.export 1000 Examples.exporter60 Examples.numbered_pose
              "out.bvh" None Examples.world0) as [w' r] eqn:Hrun.
  vm_compute in Hrun. injection Hrun as <- <-.
  do 4 eexists. split; [reflexivity|]. split; [vm_compute; reflexivity|].
  split; [vm_compute; reflexivity|].
  split; [vm_compute; reflexivity|].
  split; [vm_compute; reflexivity|].
  vm_compute. discriminate.
Qed.

(** C4 (the code at the failing input): motion data with 20 joints is
    exported without an exception and with the warning printed first, but
    nothing is adjusted: the hierarchy declares 75 channels and the frame
    line carries 3 + 3 * 20 = 63 values; with 30 joints it carries 93. *)
Theorem C4_mismatch_written_unadjusted :
  exists w20 w30 text20 text30 root20 root30 m20 m30,
    BVHExporter.export 1000 Examples.exporter60 (np_zeros3 1 20 3) "out.bvh" None
      Examples.world0 = (w20, Ok tt) /\
    BVHExporter.export 1000 Examples.exporter60 (np_zeros3 1 30 3) "out.bvh" None
      Examples.world0 = (w30, Ok tt) /\
    head (stdout w20) = Some "⚠️  Warning: Expected 24 joints, got 20. Adjusting..." /\
    head (stdout w30) = Some "⚠️  Warning: Expected 24 joints, got 30. Adjusting..." /\
    fs w20 !! "out.bvh" = Some text20 /\
    fs w30 !! "out.bvh" = Some text30 /\
    BVHSyntax.parse_bvh text20 = Some (root20, m20) /\
    BVHSyntax.parse_bvh text30 = Some (root30, m30) /\
    BVHSyntax.declared_channels root20 = 75%nat /\
    BVHSyntax.declared_channels root30 = 75%nat /\
    length <$> BVHSyntax.frame_lines m20 = [63%nat] /\
    length <$> BVHSyntax.frame_lines m30 = [93%nat].
Proof.
  destruct (BVHExporter.export 1000 Examples.exporter60 (np_zeros3 1 20 3)
              "out.bvh" None Examples.world0) as [w20 r20] eqn:Hrun20.
  destruct (BVHExporter.export 1000 Examples.exporter60 (np_zeros3 1 30 3)
              "out.bvh" None Examples.world0) as [w30 r30] eqn:Hrun30.
  vm_compute in Hrun20. injection Hrun20 as <- <-.
  vm_compute in Hrun30. injection Hrun30 as <- <-.
  do 8 eexists. split; [reflexivity|]. split; [reflexivity|].
  split; [reflexivity|]. split; [reflexivity|].
  split; [vm_compute; reflexivity|]. split; [vm_compute; reflexivity|].
  split; [vm_compute; reflexivity|]. split; [vm_compute; reflexivity|].
  split_and!; vm_compute; reflexivity.
Qed.


(** *** Further properties: the generator *)

(** X1: What the baseline generator returns, for any feature dict: without a
    mel matrix a KeyError; with one, whatever the tempo, onset vector and
    other keys, a motion of [n] frames (the mel column count) whose
    rotations have shape (n, 24, 3), whose translations have shape (n, 3),
    at 60 frames per second. *)
Theorem generate_shape {F : Type} `{FloatOps F} `{Trig F}
    (feats : AudioFeatures F) (seed : option (ndarray3 F)) :
  match mel feats with
  | None => BaselineGenerator.generate baseline feats seed = Raise (KeyError "mel")
  | Some m =>
      exists motion,
        BaselineGenerator.generate baseline feats seed = Ok motion /\
        num_frames motion = cols m /\ motion_fps motion = 60 /\
        wf3 (rotations motion) /\
        (dim0 (rotations motion), dim1 (rotations motion), dim2 (rotations motion))
          = (cols m, 24%nat, 3%nat) /\
        wf2 (translations motion) /\
        (rows (translations motion), cols (translations motion)) = (cols m, 3%nat)
  end.
Proof.
  destruct (mel feats) as [m|] eqn:Hm.
  - rewrite (generate_spec feats seed m Hm). cbn zeta.
    eexists. split; [reflexivity|]. cbn [num_frames motion_fps rotations translations].
    split; [done|]. split; [done|]. split.
    { split; cbn [data3 dim0 dim1 dim2]; [by rewrite length_fmap, length_seq|].
      apply Forall_fmap, Forall_forall. intros i _. cbn.
      unfold frame_pose. destruct (_ >ᶠ _).
      - split; [reflexivity|]. repeat constructor.
      - split; [reflexivity|]. repeat constructor. }
    split; [done|]. split; [|done].
    split; cbn [data2 rows cols]; [by rewrite length_fmap, length_seq|].
    apply Forall_fmap, Forall_forall. intros i _. reflexivity.
  - unfold BaselineGenerator.generate. by rewrite Hm.
Qed.


Lemma frame_pose_shape {F : Type} `{FloatOps F} `{Trig F} (tp : F) (on : list F)
    (i : nat) :
  length (frame_pose tp on i) = 24%nat /\
  Forall (fun r => length r = 3%nat) (frame_pose tp on i) /\
  length (concat (frame_pose tp on i)) = 72%nat.
Proof.
  unfold frame_pose. destruct (_ >ᶠ _).
  - split; [reflexivity|]. split; [repeat constructor|reflexivity].
  - split; [reflexivity|]. split; [repeat constructor|reflexivity].
Qed.

(** X2: Generator and exporter compose: whatever the generator returns is
    exported without the joint-count warning and without an exception; the
    file holds the hierarchy and one line per generated frame, and every
    frame line carries 3 + 24 * 3 = 75 values. *)
Theorem generate_then_export {F : Type} `{FloatOps F} `{Trig F} `{Format F}
    (feats : AudioFeatures F) (seed : option (ndarray3 F)) (m : ndarray2 F)
    (depth : nat) (fps : Z) (exporter : BVHExporter.t F) (output_path : string)
    (w : World) :
  mel feats = Some m ->
  (9 <= depth)%nat ->
  BVHExporter.__init__ fps = Ok exporter ->
  writable w output_path = true ->
  exists motion w',
    BaselineGenerator.generate baseline feats seed = Ok motion /\
    BVHExporter.export depth exporter (rotations motion) output_path
      (Some (translations motion)) w = (w', Ok tt) /\
    stdout w' = stdout w ++
      [ nl +:+ "📝 Exporting BVH file...";
        "  - Frames: " +:+ pretty (cols m);
        "  - FPS: " +:+ pretty (BVHExporter.fps exporter);
        "  - Duration: " +:+
          format_f 2 (of_int (Z.of_nat (cols m)) ⊘ of_int (BVHExporter.fps exporter)) +:+ "s";
        "✅ BVH exported to: " +:+ output_path ] /\
    fs w' !! output_path
      = Some (hierarchy_text exporter +:+
              motion_text exporter (rotations motion) (translations motion)) /\
    length (data3 (rotations motion)) = cols m /\
    (forall i, (i < cols m)%nat ->
       exists fd,
         BVHExporter.frame_data (rotations motion) (translations motion) i = Ok fd /\
         length fd = 75%nat).
Proof.
  intros Hm Hd Hinit Hw.
  rewrite (generate_spec feats seed m Hm). cbn zeta.
  eexists. eexists. split; [reflexivity|]. cbn [rotations translations].
  rewrite (export_total depth fps exporter _ output_path _ w Hd Hinit); cycle 1.
  { split; cbn [data3 dim0 dim1 dim2]; [by rewrite length_fmap, length_seq|].
    apply Forall_fmap, Forall_forall. intros i _. cbn.
    destruct (frame_pose_shape (default (of_int 120) (tempo feats))
                (default (replicate (cols m) (of_int 0)) (onset feats)) i)
      as (? & ? & _). done. }
  { intros tr [= <-]. cbn. by rewrite length_fmap, length_seq. }
  { done. }
  split; [reflexivity|]. cbn [stdout fs dim0 dim1 data3 default from_option id].
  split; [done|]. split; [by rewrite lookup_insert_eq|].
  split; [by rewrite length_fmap, length_seq|].
  intros i Hi. eexists. split.
  - apply frame_data_spec; cbn [data2 data3 dim1].
    + rewrite list_lookup_fmap, lookup_seq_lt by done. reflexivity.
    + rewrite list_lookup_fmap, lookup_seq_lt by done. reflexivity.
    + apply frame_pose_shape.
  - rewrite length_app. cbn [plus].
    destruct (frame_pose_shape (default (of_int 120) (tempo feats))
                (default (replicate (cols m) (of_int 0)) (onset feats)) i)
      as (_ & _ & ->). reflexivity.
Qed.

(** X2, witness: two frames generated from a two-column mel matrix and written
    to a fresh file. *)
Lemma generate_then_export_witness :
  exists motion w',
    BaselineGenerator.generate (H0 := Examples.float_trig) baseline
      (mkFeatures (Some (Examples.mel_of 2)) None (Some (Examples.onset_of 2))
         (Some 120%float) None None) None = Ok motion /\
    BVHExporter.export 1000 Examples.exporter60 (rotations motion) "out.bvh"
      (Some (translations motion)) Examples.world0 = (w', Ok tt) /\
    stdout w' = stdout Examples.world0 ++
      [ nl +:+ "📝 Exporting BVH file...";
        "  - Frames: " +:+ pretty (cols (Examples.mel_of 2));
        "  - FPS: " +:+ pretty (BVHExporter.fps Examples.exporter60);
        "  - Duration: " +:+
          format_f 2 (of_int (Z.of_nat (cols (Examples.mel_of 2)))
                      ⊘ of_int (BVHExporter.fps Examples.exporter60)) +:+ "s";
        "✅ BVH exported to: " +:+ "out.bvh" ] /\
    fs w' !! "out.bvh"
      = Some (hierarchy_text Examples.exporter60 +:+
              motion_text Examples.exporter60 (rotations motion) (translations motion)) /\
    length (data3 (rotations motion)) = cols (Examples.mel_of 2) /\
    (forall i, (i < cols (Examples.mel_of 2))%nat ->
       exists fd,
         BVHExporter.frame_data (rotations motion) (translations motion) i = Ok fd /\
         length fd = 75%nat).
Proof.
  apply (generate_then_export (H0 := Examples.float_trig)
           (mkFeatures (Some (Examples.mel_of 2)) None (Some (Examples.onset_of 2))
              (Some 120%float) None None) None (Examples.mel_of 2) 1000 60
           Examples.exporter60 "out.bvh" Examples.world0).
  - reflexivity.
  - lia.
  - vm_compute. reflexivity.
  - reflexivity.
Defined.


(** *** Further properties: DanceGenerator *)

(** X3: A generator constructed without a model path is not loaded, and its
    [generate] raises RuntimeError without printing or touching any file;
    [load_model] (and so construction with a model path) always succeeds,
    installs the baseline generator over the object's own config, sets
    [loaded], and leaves the file system alone. *)
Theorem dance_generator_loading {F : Type} `{FloatOps F} `{Trig F} `{Format F}
    (device : string) (w0 : World) :
  (exists w1 self,
     DanceGenerator.__init__ (F:=F) None device w0 = (w1, Ok self) /\
     DanceGenerator.loaded self = false /\
     forall feats style seed w,
       DanceGenerator.generate self feats style seed w
         = (w, Raise (RuntimeError "Model not loaded! Call load_model() first."))) /\
  (forall (self0 : DanceGenerator.t F) path,
     exists w1 self,
       DanceGenerator.load_model self0 path w0 = (w1, Ok self) /\
       DanceGenerator.loaded self = true /\
       DanceGenerator.model self = Some (BaselineGenerator.mk (DanceGenerator.config self0)) /\
       DanceGenerator.config self = DanceGenerator.config self0 /\
       fs w1 = fs w0) /\
  (forall path, path <> "" ->
     exists w1 self,
       DanceGenerator.__init__ (F:=F) (Some path) device w0 = (w1, Ok self) /\
       DanceGenerator.loaded self = true /\
       DanceGenerator.model self = Some baseline).
Proof.
  split_and!.
  - unfold DanceGenerator.__init__, mbind, IO_bind, mret, IO_ret, print. cbn.
    eexists. eexists. split; [reflexivity|]. split; [reflexivity|]. reflexivity.
  - intros self0 path.
    unfold DanceGenerator.load_model, DanceGenerator._create_baseline_model.
    unfold mbind, IO_bind, mret, IO_ret, print. cbn.
    eexists. eexists. split; [reflexivity|]. done.
  - intros path Hpath.
    unfold DanceGenerator.__init__, DanceGenerator.load_model,
      DanceGenerator._create_baseline_model.
    unfold mbind, IO_bind, mret, IO_ret, print. cbn.
    destruct (decide (path = "")); [done|]. cbn.
    eexists. eexists. split; [reflexivity|]. done.
Qed.

Lemma dance_generate_run {F : Type} `{FloatOps F} `{Trig F} `{Format F}
    (self : DanceGenerator.t F) (feats : AudioFeatures F) (style : option string)
    (seed : option (ndarray3 F)) (w : World) (m : ndarray2 F) (d tp : F) :
  DanceGenerator.loaded self = true ->
  DanceGenerator.model self = Some baseline ->
  mel feats = Some m -> duration feats = Some d -> tempo feats = Some tp ->
  feqb (of_int 60) (of_int 0) = false ->
  exists motion,
    BaselineGenerator.generate baseline feats seed = Ok motion /\
    num_frames motion = cols m /\
    DanceGenerator.generate self feats style seed w =
      (mkWorld (fs w) (writable w)
         (stdout w ++
          [ nl +:+ "💃 Generating dance motion...";
            "  - Audio duration: " +:+ format_f 2 d +:+ "s";
            "  - Tempo: " +:+ format_f 1 tp +:+ " BPM";
            "  - Style: " +:+ match style with
                              | Some s => if decide (s = "") then "auto" else s
                              | None => "auto"
                              end;
            "✅ Generated " +:+ pretty (cols m) +:+ " frames";
            "  - Duration: " +:+
              format_f 2 (of_int (Z.of_nat (cols m)) ⊘ of_int 60) +:+ "s" ]),
       Ok motion).
Proof.
  intros Hloaded Hmodel Hm Hd Htp Hnz.
  pose proof (generate_spec feats seed m Hm) as Hgen. cbn zeta in Hgen.
  unfold DanceGenerator.generate. rewrite Hloaded, Hmodel, Hd, Htp.
  unfold mbind, IO_bind, print, io_lift, mret, IO_ret, py_div.
  cbn. rewrite Hgen. cbn. rewrite Hnz. cbn.
  eexists. split; [reflexivity|]. split; [reflexivity|].
  do 2 f_equal. by rewrite <- !app_assoc.
Qed.

(** X4: On a loaded generator, [generate] over features that carry the keys
    mel, duration and tempo returns exactly the baseline generator's motion;
    it prints six lines and leaves the file system alone. *)
Theorem dance_generate_loaded {F : Type} `{FloatOps F} `{Trig F} `{Format F}
    (self : DanceGenerator.t F) (feats : AudioFeatures F) (style : option string)
    (seed : option (ndarray3 F)) (w : World) (m : ndarray2 F) (d tp : F) :
  DanceGenerator.loaded self = true ->
  DanceGenerator.model self = Some baseline ->
  mel feats = Some m -> duration feats = Some d -> tempo feats = Some tp ->
  feqb (of_int 60) (of_int 0) = false ->
  exists motion w',
    DanceGenerator.generate self feats style seed w = (w', Ok motion) /\
    BaselineGenerator.generate baseline feats seed = Ok motion /\
    fs w' = fs w /\
    stdout w' = stdout w ++
      [ nl +:+ "💃 Generating dance motion...";
        "  - Audio duration: " +:+ format_f 2 d +:+ "s";
        "  - Tempo: " +:+ format_f 1 tp +:+ " BPM";
        "  - Style: " +:+ match style with
                          | Some s => if decide (s = "") then "auto" else s
                          | None => "auto"
                          end;
        "✅ Generated " +:+ pretty (cols m) +:+ " frames";
        "  - Duration: " +:+ format_f 2 (of_int (Z.of_nat (cols m)) ⊘ of_int 60) +:+ "s" ].
Proof.
  intros Hloaded Hmodel Hm Hd Htp Hnz.
  destruct (dance_generate_run self feats style seed w m d tp Hloaded Hmodel Hm Hd Htp Hnz)
    as (motion & Hgen & _ & Hrun).
  exists motion. eexists. split; [exact Hrun|]. done.
Qed.

(** X4, witness: the loaded generator on a feature dict with all keys. *)
Lemma dance_generate_loaded_witness :
  exists motion w',
    DanceGenerator.generate (H0 := Examples.float_trig) Clip.generator
      (mkFeatures (Some (Examples.mel_of 2)) None (Some (Examples.onset_of 2))
         (Some 120%float) None (Some 1%float)) (Some "hiphop") None Examples.world0
      = (w', Ok motion) /\
    BaselineGenerator.generate (H0 := Examples.float_trig) baseline
      (mkFeatures (Some (Examples.mel_of 2)) None (Some (Examples.onset_of 2))
         (Some 120%float) None (Some 1%float)) None = Ok motion /\
    fs w' = fs Examples.world0 /\
    stdout w' = stdout Examples.world0 ++
      [ nl +:+ "💃 Generating dance motion...";
        "  - Audio duration: " +:+ format_f 2 1%float +:+ "s";
        "  - Tempo: " +:+ format_f 1 120%float +:+ " BPM";
        "  - Style: " +:+ "hiphop";
        "✅ Generated " +:+ pretty (cols (Examples.mel_of 2)) +:+ " frames";
        "  - Duration: " +:+
          format_f 2 (of_int (Z.of_nat (cols (Examples.mel_of 2))) ⊘ of_int 60) +:+ "s" ].
Proof.
  apply (dance_generate_loaded (H0 := Examples.float_trig) Clip.generator
           (mkFeatures (Some (Examples.mel_of 2)) None (Some (Examples.onset_of 2))
              (Some 120%float) None (Some 1%float)) (Some "hiphop") None Examples.world0
           (Examples.mel_of 2) 1%float 120%float).
  - reflexivity.
  - reflexivity.
  - reflexivity.
  - reflexivity.
  - reflexivity.
  - vm_compute. reflexivity.
Defined.

Lemma sync_to_fps_keys {F : Type} `{FloatOps F} (minval : nat)
    (self : AudioProcessor.t) (mel_in chroma_in : ndarray2 F) (onset_in : list F)
    (audio_sr hop_length : Z) (feats : AudioFeatures F) :
  AudioProcessor.sync_to_fps minval self mel_in chroma_in onset_in audio_sr hop_length
    = Ok feats ->
  is_Some (mel feats) /\ is_Some (chroma feats) /\ is_Some (onset feats) /\
  tempo feats = None /\ beats feats = None /\ duration feats = None.
Proof.
  unfold AudioProcessor.sync_to_fps.
  destruct (py_div _ _); cbn [mbind result_bind]; [|done].
  destruct (py_div _ _); cbn [mbind result_bind]; [|done].
  destruct (ftrunc _); cbn [mbind result_bind]; [|done].
  destruct (AudioProcessor._resample_feature _ _ mel_in _); cbn [mbind result_bind]; [|done].
  destruct (AudioProcessor._resample_feature _ _ chroma_in _); cbn [mbind result_bind]; [|done].
  destruct (AudioProcessor._resample_feature _ _ _ _); cbn [mbind result_bind]; [|done].
  destruct (squeeze0 _); cbn [mbind result_bind]; [|done].
  intros [= <-]. cbn. eauto 10.
Qed.

(** X5: The dict [sync_to_fps] returns holds mel, chroma and onset only: given
    as it is to a loaded generator's [generate], the lookup of 'duration'
    raises KeyError after the first line is printed, before any motion is
    computed. *)
Theorem dance_generate_needs_duration {F : Type} `{FloatOps F} `{Trig F} `{Format F}
    (minval : nat) (processor : AudioProcessor.t) (mel_in chroma_in : ndarray2 F)
    (onset_in : list F) (audio_sr hop_length : Z) (feats : AudioFeatures F)
    (self : DanceGenerator.t F) (style : option string)
    (seed : option (ndarray3 F)) (w : World) :
  AudioProcessor.sync_to_fps minval processor mel_in chroma_in onset_in audio_sr hop_length
    = Ok feats ->
  DanceGenerator.loaded self = true ->
  DanceGenerator.generate self feats style seed w
    = (mkWorld (fs w) (writable w) (stdout w ++ [nl +:+ "💃 Generating dance motion..."]),
       Raise (KeyError "duration")).
Proof.
  intros Hsync Hloaded.
  apply sync_to_fps_keys in Hsync as (_ & _ & _ & _ & _ & Hd).
  unfold DanceGenerator.generate. rewrite Hloaded, Hd. reflexivity.
Qed.

(** X5, witness: the synchronizer's own output for five native columns, handed
    straight to the loaded generator. *)
Lemma dance_generate_needs_duration_witness :
  exists feats,
    AudioProcessor.sync_to_fps 2 Examples.processor (Examples.mel_of 5)
      (Examples.chroma_of 5) (Examples.onset_of 5) 48000 512 = Ok feats /\
    DanceGenerator.generate (H0 := Examples.float_trig) Clip.generator feats None None
      Examples.world0
    = (mkWorld (fs Examples.world0) (writable Examples.world0)
         (stdout Examples.world0 ++ [nl +:+ "💃 Generating dance motion..."]),
       Raise (KeyError "duration")).
Proof.
  eexists. split; [vm_compute; reflexivity|].
  apply (dance_generate_needs_duration (H0 := Examples.float_trig) 2 Examples.processor
           (Examples.mel_of 5) (Examples.chroma_of 5) (Examples.onset_of 5) 48000 512).
  - vm_compute. reflexivity.
  - reflexivity.
Defined.


(** *** Further properties: the exporter's failure paths *)

(** X6: When the destination cannot be opened for writing, [export] raises
    OSError after printing the warning (if any) and the four header lines:
    the file system is unchanged and the "exported" line is not printed. *)
Theorem export_unwritable {F : Type} `{FloatOps F} `{Format F}
    (depth : nat) (fps : Z) (self : BVHExporter.t F) (motion_data : ndarray3 F)
    (output_path : string) (translations : option (ndarray2 F)) (w : World) :
  BVHExporter.__init__ fps = Ok self ->
  writable w output_path = false ->
  BVHExporter.export depth self motion_data output_path translations w =
    (mkWorld (fs w) (writable w)
       (stdout w ++
        (if decide (dim1 motion_data ≠ 24%nat)
         then ["⚠️  Warning: Expected 24 joints, got " +:+ pretty (dim1 motion_data) +:+
               ". Adjusting..."]
         else []) ++
        [ nl +:+ "📝 Exporting BVH file...";
          "  - Frames: " +:+ pretty (dim0 motion_data);
          "  - FPS: " +:+ pretty fps;
          "  - Duration: " +:+
            format_f 2 (of_int (Z.of_nat (dim0 motion_data)) ⊘ of_int fps) +:+ "s" ]),
     Raise (OSError output_path)).
Proof.
  intros Hinit Hw.
  assert (BVHExporter.fps self = fps /\ feqb (of_int fps) (of_int 0) = false)
    as [Hfps Hnz].
  { unfold BVHExporter.__init__, py_div in Hinit.
    destruct (feqb (of_int fps) (of_int 0)); [done|].
    simpl in Hinit. by injection Hinit as <-. }
  unfold BVHExporter.export, with_open_w, print, io_lift, py_div.
  unfold mbind, IO_bind, mret, IO_ret. rewrite Hfps, Hnz.
  destruct (decide (dim1 motion_data ≠ 24%nat)); cbn; rewrite Hw;
    do 2 f_equal; by rewrite <- !app_assoc.
Qed.

(** X6, witness: one frame exported where nothing can be written. *)
Lemma export_unwritable_witness :
  BVHExporter.export 1000 Examples.exporter60 Examples.numbered_pose "out.bvh" None
    Clip.read_only =
    (mkWorld (fs Clip.read_only) (writable Clip.read_only)
       (stdout Clip.read_only ++
        (if decide (dim1 Examples.numbered_pose ≠ 24%nat)
         then ["⚠️  Warning: Expected 24 joints, got " +:+
               pretty (dim1 Examples.numbered_pose) +:+ ". Adjusting..."]
         else []) ++
        [ nl +:+ "📝 Exporting BVH file...";
          "  - Frames: " +:+ pretty (dim0 Examples.numbered_pose);
          "  - FPS: " +:+ pretty 60;
          "  - Duration: " +:+
            format_f 2 (of_int (Z.of_nat (dim0 Examples.numbered_pose)) ⊘ of_int 60) +:+ "s" ]),
     Raise (OSError "out.bvh")).
Proof.
  apply (export_unwritable 1000 60 Examples.exporter60 Examples.numbered_pose "out.bvh"
           None Clip.read_only).
  - vm_compute. reflexivity.
  - reflexivity.
Defined.

Lemma zip_with_take_second {A B C} (f : A -> B -> C) (xs : list A) (ys : list B) :
  zip_with f xs ys = zip_with f xs (take (length xs) ys).
Proof.
  revert ys. induction xs as [|x xs IH]; intros [|y ys]; simpl; [done..|].
  f_equal. apply IH.
Qed.

Section ShortTranslations.
Context {F : Type} `{FloatOps F} `{Format F}.

Lemma frame_data_no_translation (motion_data : ndarray3 F) (translations : ndarray2 F)
    (i : nat) :
  (length (data2 translations) <= i)%nat ->
  BVHExporter.frame_data motion_data translations i
    = Raise (IndexError "index out of range").
Proof.
  intros Hi. unfold BVHExporter.frame_data, row2, getitem.
  by rewrite lookup_ge_None_2.
Qed.

Lemma write_frames_short (self : BVHExporter.t F) (motion_data : ndarray3 F)
    (translations : ndarray2 F) :
  wf3 motion_data ->
  forall (m k : nat) (buf : string),
    (k + m = length (data3 motion_data))%nat ->
    (k <= length (data2 translations) < k + m)%nat ->
    file_for_each (seq k m)
      (fun frame_idx =>
         fd ← file_lift (BVHExporter.frame_data motion_data translations frame_idx);
         file_write (join " " (format_f 6 <$> fd) +:+ nl)) buf
    = (buf +:+ str_concat (zip_with frame_line (drop k (data2 translations))
                             (drop k (data3 motion_data))),
       Raise (IndexError "index out of range")).
Proof.
  intros [Hlen Hframes]. induction m as [|m IH]; intros k buf Hk Hk'; [lia|].
  cbn [seq file_for_each].
  destruct (decide (k = length (data2 translations))) as [->|Hne].
  - unfold mbind at 1, FileM_bind at 1. unfold mbind at 1, FileM_bind at 1.
    unfold file_lift at 1. rewrite frame_data_no_translation by done.
    rewrite drop_all. cbn [zip_with str_concat]. by rewrite str_app_nil_r.
  - destruct (lookup_lt_is_Some_2 (data3 motion_data) k) as [fr Hfr]; [lia|].
    destruct (lookup_lt_is_Some_2 (data2 translations) k) as [tr Htr]; [lia|].
    assert (length fr = dim1 motion_data) as Hfl.
    { rewrite Forall_lookup in Hframes. by destruct (Hframes k fr Hfr). }
    eapply file_bind_intro.
    { eapply file_bind_intro.
      - unfold file_lift. by rewrite (frame_data_spec _ _ _ tr fr).
      - reflexivity. }
    rewrite IH by lia.
    rewrite (drop_S _ _ _ Hfr), (drop_S _ _ _ Htr). simpl.
    by rewrite str_app_assoc.
Qed.

End ShortTranslations.

(** X7: When the translations array has fewer rows than the motion data has
    frames, [export] raises IndexError in the middle of the MOTION section:
    the file is left holding the hierarchy, a header that declares all
    [dim0] frames, and only the frame lines for which a translation row
    exists; the "exported" line is not printed. *)
Theorem export_short_translations {F : Type} `{FloatOps F} `{Format F}
    (depth : nat) (fps : Z) (self : BVHExporter.t F) (motion_data : ndarray3 F)
    (output_path : string) (translations : ndarray2 F) (w : World) :
  (9 <= depth)%nat ->
  BVHExporter.__init__ fps = Ok self ->
  wf3 motion_data ->
  (length (data2 translations) < dim0 motion_data)%nat ->
  writable w output_path = true ->
  exists w' e,
    BVHExporter.export depth self motion_data output_path (Some translations) w
      = (w', Raise e) /\
    exn_name e = "IndexError" /\
    fs w' !! output_path
      = Some (hierarchy_text self +:+
              ("MOTION" +:+ nl +:+
               ("Frames: " +:+ pretty (dim0 motion_data) +:+ nl) +:+
               ("Frame Time: " +:+ format_f 6 (BVHExporter.frame_time self) +:+ nl) +:+
               str_concat (zip_with frame_line (data2 translations)
                             (take (length (data2 translations)) (data3 motion_data))))) /\
    last (stdout w') <> Some ("✅ BVH exported to: " +:+ output_path) /\
    length (zip_with frame_line (data2 translations)
              (take (length (data2 translations)) (data3 motion_data)))
      = length (data2 translations).
Proof.
  intros Hd Hinit Hwf Hshort Hw. pose proof Hwf as [Hlen _].
  assert (BVHExporter.fps self = fps /\ feqb (of_int fps) (of_int 0) = false)
    as [Hfps Hnz].
  { unfold BVHExporter.__init__, py_div in Hinit.
    destruct (feqb (of_int fps) (of_int 0)); [done|].
    simpl in Hinit. by injection Hinit as <-. }
  assert (BVHExporter._write_motion self motion_data translations (hierarchy_text self)
          = (hierarchy_text self +:+
             ("MOTION" +:+ nl +:+
              ("Frames: " +:+ pretty (dim0 motion_data) +:+ nl) +:+
              ("Frame Time: " +:+ format_f 6 (BVHExporter.frame_time self) +:+ nl) +:+
              str_concat (zip_with frame_line (data2 translations) (data3 motion_data))),
             Raise (IndexError "index out of range"))) as Hmotion.
  { unfold BVHExporter._write_motion.
    do 3 (eapply file_bind_intro; [reflexivity|]).
    rewrite <- Hlen.
    rewrite (write_frames_short self motion_data translations Hwf _ 0) by (simpl; lia).
    rewrite !drop_0. f_equal. by rewrite !str_app_assoc. }
  assert (zip_with frame_line (data2 translations) (data3 motion_data)
          = zip_with frame_line (data2 translations)
              (take (length (data2 translations)) (data3 motion_data))) as Hzip.
  { apply zip_with_take_second. }
  unfold BVHExporter.export, with_open_w, print, io_lift, py_div.
  unfold mbind, IO_bind, mret, IO_ret. rewrite Hfps, Hnz.
  fold (@mbind FileM _ unit unit).
  destruct (decide (dim1 motion_data ≠ 24%nat)); cbn; rewrite Hw;
    rewrite (file_bind_intro _ _ _ _ _ _ (write_hierarchy_total self depth Hd) eq_refl);
    rewrite Hmotion, Hzip; cbn;
    (eexists; eexists; split; [reflexivity|]; split; [reflexivity|];
     cbn; rewrite lookup_insert_eq;
     split; [done|]; split;
     [rewrite last_snoc; intros [= Heq]; discriminate Heq
     |rewrite length_zip_with, length_take; lia]).
Qed.

(** X7, witness: one frame of rotations and an empty translation array. *)
Lemma export_short_translations_witness :
  exists w' e,
    BVHExporter.export 1000 Examples.exporter60 Examples.numbered_pose "out.bvh"
      (Some (NDArray2 0 3 [])) Examples.world0
      = (w', Raise e) /\
    exn_name e = "IndexError" /\
    fs w' !! "out.bvh"
      = Some (hierarchy_text Examples.exporter60 +:+
              ("MOTION" +:+ nl +:+
               ("Frames: " +:+ pretty (dim0 Examples.numbered_pose) +:+ nl) +:+
               ("Frame Time: " +:+
                format_f 6 (BVHExporter.frame_time Examples.exporter60) +:+ nl) +:+
               str_concat (zip_with frame_line (data2 (NDArray2 0 3 []))
                             (take (length (data2 (NDArray2 (F:=float) 0 3 [])))
                                (data3 Examples.numbered_pose))))) /\
    last (stdout w') <> Some ("✅ BVH exported to: " +:+ "out.bvh") /\
    length (zip_with frame_line (data2 (NDArray2 0 3 []))
              (take (length (data2 (NDArray2 (F:=float) 0 3 [])))
                 (data3 Examples.numbered_pose)))
      = length (data2 (NDArray2 (F:=float) 0 3 [])).
Proof.
  apply (export_short_translations 1000 60 Examples.exporter60 Examples.numbered_pose
           "out.bvh" (NDArray2 0 3 []) Examples.world0).
  - lia.
  - vm_compute. reflexivity.
  - split; [reflexivity|]. repeat constructor.
  - simpl. lia.
  - reflexivity.
Defined.


(** *** Further properties: the synchronizer *)

Lemma resample_negative_length {F : Type} `{FloatOps F} (minval : nat)
    (self : AudioProcessor.t) (feature : ndarray2 F) (T : Z) :
  T < 0 ->
  AudioProcessor._resample_feature minval self feature T
    = Raise (ValueError ("Number of samples, " +:+ pretty T +:+ ", must be non-negative.")).
Proof.
  intros HT. unfold AudioProcessor._resample_feature.
  destruct (linspace01_spec (F:=F) (cols feature)) as [-> _]. cbn [mbind result_bind].
  unfold np_linspace. destruct (decide (T < 0)); [done|lia].
Qed.

(** X8: A negative target frame count (a negative target rate) makes the
    synchronizer fail with the ValueError of [np.linspace]. *)
Theorem sync_negative_frame_count {F : Type} `{FloatOps F} (minval : nat)
    (self : AudioProcessor.t) (mel_in chroma_in : ndarray2 F) (onset_in : list F)
    (audio_sr hop_length T : Z) :
  frame_count self (cols mel_in) audio_sr hop_length = Ok T ->
  T < 0 ->
  AudioProcessor.sync_to_fps minval self mel_in chroma_in onset_in audio_sr hop_length
    = Raise (ValueError ("Number of samples, " +:+ pretty T +:+ ", must be non-negative.")).
Proof.
  intros Hcount HT.
  rewrite (sync_to_fps_unfold minval self mel_in chroma_in onset_in _ _ T Hcount).
  rewrite (resample_negative_length minval self mel_in T HT). reflexivity.
Qed.

(** X8, witness: a processor constructed with a negative target rate. *)
Lemma sync_negative_frame_count_witness :
  AudioProcessor.sync_to_fps 2 (AudioProcessor.__init__ (-60) 48000) (Examples.mel_of 60)
    (Examples.chroma_of 60) (Examples.onset_of 60) 48000 512
  = Raise (ValueError ("Number of samples, " +:+ pretty (-38) +:+
                       ", must be non-negative.")).
Proof.
  apply (sync_negative_frame_count 2 (AudioProcessor.__init__ (-60) 48000)
           (Examples.mel_of 60) (Examples.chroma_of 60) (Examples.onset_of 60)
           48000 512 (-38)).
  - vm_compute. reflexivity.
  - lia.
Defined.


(** *** Further properties: the frame count in binary64 *)

Lemma float_frame_count_checked :
  forallb (fun N : nat =>
             match frame_count (F:=float) Examples.processor N 48000 512 with
             | Ok T => T =? Z.of_nat N * 512 * 60 / 48000
             | Raise _ => false
             end) (seq 0 3075) = true.
Proof. vm_compute. reflexivity. Qed.

(** X9: The frame count as the interpreter computes it, at the application's
    settings (60 frames per second, 48000 Hz, hop 512): for every native
    column count up to 3074, which covers the 30 seconds the loader reads
    (2813 columns), it is the integer part of N * hop * fps / rate.  The
    bound is sharp: 3075 columns give 1967 frames, one fewer than the
    integer part of the exact quotient, because the duration 32.8 is rounded
    before it is multiplied by 60. *)
Theorem float_frame_count_app (N : nat) :
  (N <= 3074)%nat ->
  frame_count (F:=float) Examples.processor N 48000 512
    = Ok (Z.of_nat N * 512 * 60 / 48000) /\
  frame_count (F:=float) Examples.processor 3075 48000 512 = Ok 1967 /\
  3075 * 512 * 60 / 48000 = 1968.
Proof.
  intros HN. split; [|split; vm_compute; reflexivity].
  pose proof float_frame_count_checked as Hall.
  rewrite forallb_forall in Hall. specialize (Hall N).
  destruct (frame_count (F:=float) Examples.processor N 48000 512) as [T|e].
  - f_equal. apply Z.eqb_eq. apply Hall. apply in_seq. lia.
  - exfalso. assert (false = true) as Hf by (apply Hall; apply in_seq; lia).
    discriminate Hf.
Qed.

(** X9, witness: the 2813 columns of a 30 second clip give 1800 frames. *)
Lemma float_frame_count_app_witness :
  frame_count (F:=float) Examples.processor 2813 48000 512
    = Ok (Z.of_nat 2813 * 512 * 60 / 48000) /\
  frame_count (F:=float) Examples.processor 3075 48000 512 = Ok 1967 /\
  3075 * 512 * 60 / 48000 = 1968.
Proof.
  apply (float_frame_count_app 2813). apply Nat.leb_le. vm_compute. reflexivity.
Defined.

(** *** Further properties: the generated pose in binary64 *)

Lemma binary_round_aux_opp (s : bool) (m e : Z) (l : location) :
  binary_round_aux 53 1024 (negb s) m e l = SFopp (binary_round_aux 53 1024 s m e l).
Proof.
  unfold binary_round_aux.
  destruct (shr_fexp 53 1024 m e l) as [mrs e1].
  destruct (shr_fexp 53 1024 _ e1 loc_Exact) as [mrs2 e2].
  destruct (shr_m mrs2); [reflexivity| |reflexivity].
  destruct (e2 <=? 1024 - 53); reflexivity.
Qed.

Lemma SFmul_opp_l (x y : spec_float) :
  SFmul 53 1024 (SFopp x) y = SFopp (SFmul 53 1024 x y).
Proof.
  destruct x as [sx|sx| |sx mx ex], y as [sy|sy| |sy my ey]; cbn [SFmul SFopp];
    try reflexivity; try (destruct sx, sy; reflexivity).
  rewrite <- binary_round_aux_opp. by destruct sx, sy.
Qed.

(** Negating a factor negates the product, exactly: rounding does not
    look at the sign. *)
Lemma float_mul_opp_l (a b : float) : (- a * b)%float = (- (a * b))%float.
Proof.
  apply Prim2SF_inj. rewrite opp_spec, !mul_spec, opp_spec. apply SFmul_opp_l.
Qed.

(** X10: In binary64 and for any sine, the two shoulders turn by opposite
    angles about Z in every generated frame, and so do the two hips, bit for
    bit, emphasized or not; the root does not move along Z. *)
Theorem float_pose_antisymmetry `{T : Trig float} (feats : AudioFeatures float)
    (seed : option (ndarray3 float)) (m : ndarray2 float) (i : nat) :
  mel feats = Some m -> (i < cols m)%nat ->
  exists motion lsz rsz lhz rhz tz,
    BaselineGenerator.generate baseline feats seed = Ok motion /\
    at3 (rotations motion) i 16 2 = Some lsz /\ at3 (rotations motion) i 17 2 = Some rsz /\
    at3 (rotations motion) i 1 2 = Some lhz /\ at3 (rotations motion) i 2 2 = Some rhz /\
    at2 (translations motion) i 2 = Some tz /\
    rsz = (- lsz)%float /\ rhz = (- lhz)%float /\ tz = 0%float.
Proof.
  intros Hm Hi.
  destruct (generate_frame_lookup feats seed m i Hm Hi)
    as (motion & Hgen & _ & _ & _ & _ & Hrot & Htr).
  exists motion. unfold at3, at2. rewrite Hrot, Htr.
  unfold frame_pose. cbn zeta.
  destruct (_ >ᶠ _).
  - do 5 eexists. split; [exact Hgen|].
    cbn [base_pose root_translation map lookup list_lookup mbind option_bind].
    do 5 (split; [reflexivity|]).
    cbn [fmul fneg Float64.ops]. rewrite !float_mul_opp_l.
    split; [reflexivity|]. split; [reflexivity|]. vm_compute. reflexivity.
  - do 5 eexists. split; [exact Hgen|].
    cbn [base_pose root_translation map lookup list_lookup mbind option_bind].
    do 5 (split; [reflexivity|]).
    cbn [fmul fneg Float64.ops]. rewrite !float_mul_opp_l.
    split; [reflexivity|]. split; [reflexivity|]. vm_compute. reflexivity.
Qed.

(** X10, witness: frame 7 of a one-second motion at 120 BPM with every onset
    at 1, so that the emphasis applies. *)
Lemma float_pose_antisymmetry_witness :
  exists motion lsz rsz lhz rhz tz,
    BaselineGenerator.generate (H0 := Examples.float_trig) baseline
      (Examples.float_features 60 120 (replicate 60 1%float)) None = Ok motion /\
    at3 (rotations motion) 7 16 2 = Some lsz /\ at3 (rotations motion) 7 17 2 = Some rsz /\
    at3 (rotations motion) 7 1 2 = Some lhz /\ at3 (rotations motion) 7 2 2 = Some rhz /\
    at2 (translations motion) 7 2 = Some tz /\
    rsz = (- lsz)%float /\ rhz = (- lhz)%float /\ tz = 0%float.
Proof.
  apply (float_pose_antisymmetry (T := Examples.float_trig)
           (Examples.float_features 60 120 (replicate 60 1%float)) None (np_zeros2 128 60) 7).
  - reflexivity.
  - simpl. lia.
Defined.

(** *** Further properties: app.py *)

Lemma str_contains_app (c : ascii) (s t : string) :
  App.str_contains c (s +:+ t) = App.str_contains c s || App.str_contains c t.
Proof.
  induction s as [|a s IH]; [done|].
  change (String a s +:+ t) with (String a (s +:+ t)). cbn [App.str_contains].
  destruct (decide (a = c)); [done|]. apply IH.
Qed.

(** [rsplit] cuts at the last separator: with no separator the string
    comes back alone. *)
Lemma rsplit1_spec (sep : ascii) (s : string) :
  if App.str_contains sep s then
    exists stem ext,
      App.rsplit1 sep s = [stem; ext] /\ s = stem +:+ String sep ext /\
      App.str_contains sep ext = false
  else App.rsplit1 sep s = [s].
Proof.
  induction s as [|a s IH]; [done|]. cbn [App.str_contains App.rsplit1].
  destruct (App.str_contains sep s) eqn:Hs.
  - destruct IH as (stem & ext & -> & -> & Hext).
    assert (exists stem', [String a stem; ext] = [stem'; ext] /\
              String a (stem +:+ String sep ext) = stem' +:+ String sep ext) as Hcons
      by (by exists (String a stem)).
    destruct (decide (a = sep)); destruct Hcons as (stem' & -> & ->); eauto.
  - rewrite IH. destruct (decide (a = sep)) as [->|]; [|done].
    exists "", s. done.
Qed.

Lemma rsplit1_join (sep : ascii) (stem ext : string) :
  App.str_contains sep ext = false ->
  App.rsplit1 sep (stem +:+ String sep ext) = [stem; ext].
Proof.
  intros Hext. induction stem as [|a stem IH].
  - change ("" +:+ String sep ext) with (String sep ext). cbn [App.rsplit1].
    pose proof (rsplit1_spec sep ext) as Hspec. rewrite Hext in Hspec. rewrite Hspec.
    by destruct (decide (sep = sep)).
  - change (String a stem +:+ String sep ext) with (String a (stem +:+ String sep ext)).
    cbn [App.rsplit1]. by rewrite IH.
Qed.

(** X11: [allowed_file] never raises, and accepts exactly the names of the
    form stem.ext whose last extension [ext] (the part after the last dot) is
    mp3, wav, ogg or m4a in any mix of upper and lower case; the stem may be
    empty or contain further dots. *)
Theorem allowed_file_spec (filename : string) :
  exists b,
    App.allowed_file filename = Ok b /\
    (b = true <->
     exists stem ext,
       filename = stem +:+ "." +:+ ext /\ App.str_contains "." ext = false /\
       App.lower ext ∈ App.ALLOWED_EXTENSIONS).
Proof.
  unfold App.allowed_file.
  pose proof (rsplit1_spec "." filename) as Hspec.
  destruct (App.str_contains "." filename) eqn:Hdot.
  - destruct Hspec as (stem & ext & Hsplit & -> & Hext). rewrite Hsplit. cbn.
    eexists. split; [reflexivity|]. rewrite bool_decide_eq_true. split.
    + intros Hin. by exists stem, ext.
    + intros (stem' & ext' & Heq & Hext' & Hin).
      change (stem' +:+ "." +:+ ext') with (stem' +:+ String "." ext') in Heq.
      pose proof (rsplit1_join "." stem' ext' Hext') as Hsplit'.
      rewrite <- Heq, Hsplit in Hsplit'. by injection Hsplit' as _ ->.
  - exists false. split; [done|]. split; [done|].
    intros (stem & ext & -> & _).
    rewrite str_contains_app in Hdot. cbn in Hdot.
    by rewrite orb_true_r in Hdot.
Qed.

(** X12: The output name of an upload: the part before the last dot, followed
    by _dance.bvh; a name without a dot is kept whole.  Names that differ only
    in their last extension get the same output name. *)
Theorem output_filename_spec (filename : string) :
  exists stem,
    App.output_filename filename = Ok (stem +:+ "_dance.bvh") /\
    (App.str_contains "." filename = false -> stem = filename) /\
    (forall ext, App.str_contains "." ext = false ->
       App.output_filename (stem +:+ "." +:+ ext) = Ok (stem +:+ "_dance.bvh")) /\
    (App.str_contains "." filename = true ->
     exists ext, filename = stem +:+ "." +:+ ext /\ App.str_contains "." ext = false).
Proof.
  unfold App.output_filename.
  pose proof (rsplit1_spec "." filename) as Hspec.
  assert (forall stem ext, App.str_contains "." ext = false ->
            (s ← getitem (App.rsplit1 "." (stem +:+ "." +:+ ext)) 0;
             Ok (s +:+ "_dance.bvh")) = Ok (stem +:+ "_dance.bvh")) as Hjoin.
  { intros stem ext Hext.
    change (stem +:+ "." +:+ ext) with (stem +:+ String "." ext).
    by rewrite rsplit1_join. }
  destruct (App.str_contains "." filename) eqn:Hdot.
  - destruct Hspec as (stem & ext & Hsplit & -> & Hext). rewrite Hsplit.
    exists stem. split; [done|]. split; [done|]. split; [apply Hjoin|].
    intros _. by exists ext.
  - rewrite Hspec. exists filename. split; [done|]. split; [done|].
    split; [apply Hjoin|done].
Qed.

(** X13: [get_generator] is a lazy singleton: from the empty state it builds
    and loads one generator (printing five lines, touching no file) and
    stores it; from then on it returns the stored generator without printing
    or loading again.  The generator it returns on first use is loaded with
    the baseline model, so [generate] cannot fail for want of a model. *)
Theorem get_generator_singleton {F : Type} `{FloatOps F} (w : World) :
  exists g w',
    App.get_generator (F:=F) None w = (w', Ok (Some g, g)) /\
    DanceGenerator.loaded g = true /\ DanceGenerator.model g = Some baseline /\
    fs w' = fs w /\ length (stdout w') = (length (stdout w) + 5)%nat /\
    (forall w'', App.get_generator (Some g) w'' = (w'', Ok (Some g, g))).
Proof.
  unfold App.get_generator, DanceGenerator.__init__, DanceGenerator.load_model,
    DanceGenerator._create_baseline_model.
  unfold mbind, IO_bind, mret, IO_ret, print. cbn.
  eexists. eexists. split; [reflexivity|]. cbn.
  split; [done|]. split; [done|]. split; [done|].
  split; [|done]. rewrite !length_app. cbn. lia.
Qed.


(** *** Further properties: feature extraction and the whole pipeline *)

Lemma io_bind_inv {A B} (m : IO A) (f : A -> IO B) (w w' : World) (b : B) :
  (m ≫= f) w = (w', Ok b) ->
  exists a w1, m w = (w1, Ok a) /\ f a w1 = (w', Ok b).
Proof.
  unfold mbind, IO_bind. destruct (m w) as [w1 [a|e]]; [eauto|done].
Qed.

Lemma io_lift_inv {A} (r : result A) (w w' : World) (a : A) :
  io_lift r w = (w', Ok a) -> r = Ok a /\ w' = w.
Proof. unfold io_lift. by intros [= -> ->]. Qed.

Lemma print_inv (line : string) (w w' : World) (u : unit) :
  print line w = (w', Ok u) ->
  w' = mkWorld (fs w) (writable w) (stdout w ++ [line]).
Proof. unfold print. by intros [= <-]. Qed.

Ltac io_step Hrun :=
  let a := fresh "a" in
  let w1 := fresh "w" in
  let Hm := fresh "Hm" in
  apply io_bind_inv in Hrun as (a & w1 & Hm & Hrun);
  first [ apply print_inv in Hm; subst w1
        | apply io_lift_inv in Hm as [Hm ->] ].

Lemma sync_to_fps_shapes {F : Type} `{FloatOps F} (minval : nat)
    (self : AudioProcessor.t) (mel_in chroma_in : ndarray2 F) (onset_in : list F)
    (audio_sr hop_length : Z) (feats : AudioFeatures F) :
  AudioProcessor.sync_to_fps minval self mel_in chroma_in onset_in audio_sr hop_length
    = Ok feats ->
  exists T m c o,
    frame_count self (cols mel_in) audio_sr hop_length = Ok T /\ 0 <= T /\
    feats = mkFeatures (Some m) (Some c) (Some o) None None None /\
    wf2 m /\ rows m = rows mel_in /\ cols m = Z.to_nat T /\
    wf2 c /\ rows c = rows chroma_in /\ cols c = Z.to_nat T /\
    length o = Z.to_nat T.
Proof.
  intros Hsync.
  destruct (frame_count self (cols mel_in) audio_sr hop_length) as [T|e] eqn:Hcount.
  - rewrite (sync_to_fps_unfold minval self _ _ _ _ _ T Hcount) in Hsync.
    destruct (AudioProcessor._resample_feature _ _ mel_in T) as [m|] eqn:Hm;
      cbn [mbind result_bind] in Hsync; [|done].
    destruct (AudioProcessor._resample_feature _ _ chroma_in T) as [c|] eqn:Hc;
      cbn [mbind result_bind] in Hsync; [|done].
    destruct (AudioProcessor._resample_feature _ _ (reshape_row onset_in) T) as [o2|] eqn:Ho;
      cbn [mbind result_bind] in Hsync; [|done].
    apply resample_shape in Hm as (HT & Hwm & Hrm & Hcm).
    apply resample_shape in Hc as (_ & Hwc & Hrc & Hcc).
    apply resample_shape in Ho as (_ & Hwo & Hro & Hco).
    destruct (squeeze0_single_row o2 Hwo Hro) as (o & Hsq & Hol).
    rewrite Hsq in Hsync. cbn [mbind result_bind] in Hsync. injection Hsync as <-.
    exists T, m, c, o. split_and!; try done. congruence.
  - exfalso. revert Hsync Hcount. unfold AudioProcessor.sync_to_fps, frame_count.
    destruct (py_div (of_int audio_sr) (of_int hop_length)) as [fps|];
      cbn [mbind result_bind]; [|done].
    destruct (py_div _ fps) as [d|]; cbn [mbind result_bind]; [|done].
    destruct (ftrunc _); cbn [mbind result_bind]; done.
Qed.

Section ExtractionFacts.
Context {F : Type} `{FloatOps F} `{Format F}.
Variable minval : nat.
Variable librosa_load : string -> Z -> F -> result (list F * Z).
Variable beat_track : list F -> Z -> result (F * list Z).
Variable melspectrogram : list F -> Z -> Z -> Z -> Z -> result (ndarray2 F).
Variable power_to_db : ndarray2 F -> result (ndarray2 F).
Variable chroma_cqt : list F -> Z -> Z -> result (ndarray2 F).
Variable onset_strength : list F -> Z -> result (list F).

Lemma extract_features_run (self : AudioProcessor.t) (audio_path : string)
    (w w' : World) (feats : AudioFeatures F) :
  FeatureExtraction.extract_features minval librosa_load beat_track melspectrogram
    power_to_db chroma_cqt onset_strength self audio_path w = (w', Ok feats) ->
  exists audio sr tp bt spec mel_db chroma_f onset_env synced d m,
    librosa_load audio_path (AudioProcessor.sample_rate self) (of_int 30) = Ok (audio, sr) /\
    beat_track audio sr = Ok (tp, bt) /\
    melspectrogram audio sr 128 8000 512 = Ok spec /\
    power_to_db spec = Ok mel_db /\
    chroma_cqt audio sr 512 = Ok chroma_f /\
    onset_strength audio sr = Ok onset_env /\
    AudioProcessor.sync_to_fps minval self mel_db chroma_f onset_env sr 512 = Ok synced /\
    py_div (of_int (Z.of_nat (length audio))) (of_int sr) = Ok d /\
    feats = mkFeatures (mel synced) (chroma synced) (onset synced)
              (Some tp) (Some bt) (Some d) /\
    mel feats = Some m /\
    fs w' = fs w /\ writable w' = writable w /\
    length (stdout w') = (length (stdout w) + 10)%nat.
Proof.
  intros Hrun. unfold FeatureExtraction.extract_features in Hrun.
  io_step Hrun.
  apply io_bind_inv in Hrun as ([audio sr] & w1 & Hload & Hrun).
  unfold FeatureExtraction.load_audio in Hload.
  io_step Hload.
  apply io_bind_inv in Hload as ([audio' sr'] & w2 & Hlib & Hload).
  apply io_lift_inv in Hlib as [Hlib ->].
  io_step Hload. io_step Hload. unfold mret, IO_ret in Hload.
  injection Hload as <- <- <-.
  apply io_bind_inv in Hrun as ([tp bt] & w3 & Hbeat & Hrun).
  apply io_lift_inv in Hbeat as [Hbeat ->].
  do 11 io_step Hrun. io_step Hrun. io_step Hrun.
  unfold mret, IO_ret in Hrun. injection Hrun as <- <-.
  do 11 eexists. split_and!; try done; cbn.
  - match goal with Hd : dict_item "mel" _ = Ok _ |- _ => revert Hd end.
    cbn. destruct (mel _); [by intros [= ->]|done].
  - rewrite !length_app. cbn. lia.
Qed.

(** X14: A failure of the audio loader surfaces unchanged: [extract_features]
    raises the loader's exception after printing two lines, before any
    analysis is made. *)
Theorem extract_features_load_fails (self : AudioProcessor.t) (audio_path : string)
    (w : World) (e : exn) :
  librosa_load audio_path (AudioProcessor.sample_rate self) (of_int 30) = Raise e ->
  FeatureExtraction.extract_features minval librosa_load beat_track melspectrogram
    power_to_db chroma_cqt onset_strength self audio_path w
  = (mkWorld (fs w) (writable w)
       (stdout w ++ [nl +:+ "🎵 Extracting audio features...";
                     "Loading audio from: " +:+ audio_path]),
     Raise e).
Proof.
  intros Hload.
  unfold FeatureExtraction.extract_features, FeatureExtraction.load_audio.
  unfold mbind, IO_bind, print, io_lift. cbn. rewrite Hload.
  by rewrite <- app_assoc.
Qed.

(** X15: Whenever [extract_features] returns, the dict it returns carries all
    six keys; the mel and chroma matrices and the onset vector have one
    common length, the frame count computed from the mel spectrogram's
    columns, with the row counts the analysis produced.  Ten lines were
    printed and no file was touched. *)
Theorem extract_features_aligned (self : AudioProcessor.t) (audio_path : string)
    (w w' : World) (feats : AudioFeatures F) :
  FeatureExtraction.extract_features minval librosa_load beat_track melspectrogram
    power_to_db chroma_cqt onset_strength self audio_path w = (w', Ok feats) ->
  exists audio sr spec mel_db chroma_f T m c o tp bt d,
    librosa_load audio_path (AudioProcessor.sample_rate self) (of_int 30) = Ok (audio, sr) /\
    melspectrogram audio sr 128 8000 512 = Ok spec /\
    power_to_db spec = Ok mel_db /\
    chroma_cqt audio sr 512 = Ok chroma_f /\
    frame_count self (cols mel_db) sr 512 = Ok T /\ 0 <= T /\
    feats = mkFeatures (Some m) (Some c) (Some o) (Some tp) (Some bt) (Some d) /\
    wf2 m /\ wf2 c /\
    (rows m, cols m) = (rows mel_db, Z.to_nat T) /\
    (rows c, cols c) = (rows chroma_f, Z.to_nat T) /\
    length o = Z.to_nat T /\
    fs w' = fs w /\ length (stdout w') = (length (stdout w) + 10)%nat.
Proof.
  intros Hrun.
  apply extract_features_run in Hrun
    as (audio & sr & tp & bt & spec & mel_db & chroma_f & onset_env & synced & d & m0
        & Hload & _ & Hspec & Hdb & Hchroma & _ & Hsync & _ & Hfeats & _ & Hfs & _ & Hout).
  apply sync_to_fps_shapes in Hsync
    as (T & m & c & o & Hcount & HT & -> & Hwm & Hrm & Hcm & Hwc & Hrc & Hcc & Hol).
  exists audio, sr, spec, mel_db, chroma_f, T, m, c, o, tp, bt, d.
  split_and!; try done; by f_equal.
Qed.

(** X16: [get_bpm] and [extract_features] agree: for a file on which
    [extract_features] returns, [get_bpm] returns, in any world, the value
    stored under the key tempo, after printing two lines. *)
Theorem get_bpm_matches_features (self : AudioProcessor.t) (audio_path : string)
    (w w' : World) (feats : AudioFeatures F) (w2 : World) :
  FeatureExtraction.extract_features minval librosa_load beat_track melspectrogram
    power_to_db chroma_cqt onset_strength self audio_path w = (w', Ok feats) ->
  exists tp w2',
    FeatureExtraction.get_bpm librosa_load beat_track self audio_path w2 = (w2', Ok tp) /\
    tempo feats = Some tp /\
    fs w2' = fs w2 /\ length (stdout w2') = (length (stdout w2) + 2)%nat.
Proof.
  intros Hrun.
  apply extract_features_run in Hrun
    as (audio & sr & tp & bt & spec & mel_db & chroma_f & onset_env & synced & d & m0
        & Hload & Hbeat & _ & _ & _ & _ & _ & Hd & -> & _).
  exists tp. eexists. split; [|split; [reflexivity|]].
  - unfold FeatureExtraction.get_bpm, FeatureExtraction.load_audio.
    unfold mbind, IO_bind, print, io_lift, mret, IO_ret. cbn.
    rewrite Hload. cbn. rewrite Hd. cbn. rewrite Hbeat. reflexivity.
  - cbn. split; [done|]. rewrite !length_app. cbn. lia.
Qed.

End ExtractionFacts.

(** X14, witness: a path the loader does not find. *)
Lemma extract_features_load_fails_witness :
  Clip.extract_features Examples.processor "missing.wav" Examples.world0
  = (mkWorld (fs Examples.world0) (writable Examples.world0)
       (stdout Examples.world0 ++ [nl +:+ "🎵 Extracting audio features...";
                                   "Loading audio from: " +:+ "missing.wav"]),
     Raise (OSError "missing.wav")).
Proof.
  apply (extract_features_load_fails 2 Clip.librosa_load Clip.beat_track
           Clip.melspectrogram Clip.power_to_db Clip.chroma_cqt Clip.onset_strength
           Examples.processor "missing.wav" Examples.world0 (OSError "missing.wav")).
  reflexivity.
Defined.

(** X15, witness: the recorded clip, 2048 samples giving five native columns
    and int(3.2) = 3 frames. *)
Lemma extract_features_aligned_witness :
  exists w' feats,
    Clip.extract_features Examples.processor "clip.wav" Examples.world0 = (w', Ok feats) /\
    exists audio sr spec mel_db chroma_f T m c o tp bt d,
      Clip.librosa_load "clip.wav" (AudioProcessor.sample_rate Examples.processor)
        (of_int 30) = Ok (audio, sr) /\
      Clip.melspectrogram audio sr 128 8000 512 = Ok spec /\
      Clip.power_to_db spec = Ok mel_db /\
      Clip.chroma_cqt audio sr 512 = Ok chroma_f /\
      frame_count (F:=float) Examples.processor (cols mel_db) sr 512 = Ok T /\ 0 <= T /\
      feats = mkFeatures (Some m) (Some c) (Some o) (Some tp) (Some bt) (Some d) /\
      wf2 m /\ wf2 c /\
      (rows m, cols m) = (rows mel_db, Z.to_nat T) /\
      (rows c, cols c) = (rows chroma_f, Z.to_nat T) /\
      length o = Z.to_nat T /\
      fs w' = fs Examples.world0 /\
      length (stdout w') = (length (stdout Examples.world0) + 10)%nat.
Proof.
  eexists. eexists. split; [vm_compute; reflexivity|].
  apply (extract_features_aligned 2 Clip.librosa_load Clip.beat_track
           Clip.melspectrogram Clip.power_to_db Clip.chroma_cqt Clip.onset_strength
           Examples.processor "clip.wav" Examples.world0).
  vm_compute. reflexivity.
Defined.

(** X16, witness: the recorded clip; the tempo is asked for in a world that
    already holds output. *)
Lemma get_bpm_matches_features_witness :
  exists w' feats,
    Clip.extract_features Examples.processor "clip.wav" Examples.world0 = (w', Ok feats) /\
    exists tp w2',
      Clip.get_bpm Examples.processor "clip.wav" (mkWorld ∅ (fun _ => true) ["earlier"])
        = (w2', Ok tp) /\
      tempo feats = Some tp /\
      fs w2' = fs (mkWorld ∅ (fun _ => true) ["earlier"]) /\
      length (stdout w2')
        = (length (stdout (mkWorld ∅ (fun _ => true) ["earlier"])) + 2)%nat.
Proof.
  eexists. eexists. split; [vm_compute; reflexivity|].
  eapply (get_bpm_matches_features 2 Clip.librosa_load Clip.beat_track
           Clip.melspectrogram Clip.power_to_db Clip.chroma_cqt Clip.onset_strength
           Examples.processor "clip.wav" Examples.world0).
  vm_compute. reflexivity.
Defined.


Lemma get_generator_run {F : Type} `{FloatOps F} (w : World) :
  exists g,
    DanceGenerator.loaded g = true /\ DanceGenerator.model g = Some baseline /\
    App.get_generator (F:=F) None w =
      (mkWorld (fs w) (writable w)
         (stdout w ++
          [ "🔄 Loading dance generator (first time)...";
            nl +:+ "🤖 Initializing Dance Generator (CPU mode)";
            "📦 Loading model from: models/baseline";
            "ℹ️  Creating baseline procedural generator...";
            "✅ Model loaded successfully (baseline mode)" ]),
       Ok (Some g, g)).
Proof.
  unfold App.get_generator, DanceGenerator.__init__, DanceGenerator.load_model,
    DanceGenerator._create_baseline_model.
  unfold mbind, IO_bind, mret, IO_ret, print. cbn.
  eexists. split; [|split]; [| |do 2 f_equal; by rewrite <- !app_assoc]; done.
Qed.

(** X17: The application's pipeline after feature extraction cannot fail
    except at the output path: whenever [extract_features] returns, the
    generator obtained from [get_generator] produces a motion with as many
    frames as the synchronized mel matrix has columns, and exporting that
    motion to a writable path completes, leaving a file with the hierarchy
    and one line per frame. *)
Theorem pipeline_after_extraction {F : Type} `{FloatOps F} `{Trig F} `{Format F}
    (minval : nat)
    (librosa_load : string -> Z -> F -> result (list F * Z))
    (beat_track : list F -> Z -> result (F * list Z))
    (melspectrogram : list F -> Z -> Z -> Z -> Z -> result (ndarray2 F))
    (power_to_db : ndarray2 F -> result (ndarray2 F))
    (chroma_cqt : list F -> Z -> Z -> result (ndarray2 F))
    (onset_strength : list F -> Z -> result (list F))
    (processor : AudioProcessor.t) (audio_path output_path : string)
    (style : option string) (depth : nat) (fps : Z) (exporter : BVHExporter.t F)
    (w0 w1 : World) (feats : AudioFeatures F) :
  FeatureExtraction.extract_features minval librosa_load beat_track melspectrogram
    power_to_db chroma_cqt onset_strength processor audio_path w0 = (w1, Ok feats) ->
  feqb (of_int 60) (of_int 0) = false ->
  (9 <= depth)%nat ->
  BVHExporter.__init__ fps = Ok exporter ->
  writable w0 output_path = true ->
  exists m g w2 motion w3 w4,
    mel feats = Some m /\
    App.get_generator None w1 = (w2, Ok (Some g, g)) /\
    DanceGenerator.generate g feats style None w2 = (w3, Ok motion) /\
    num_frames motion = cols m /\
    BVHExporter.export depth exporter (DanceGenerator.convert_to_smpl g motion).1.1
      output_path (Some (DanceGenerator.convert_to_smpl g motion).1.2) w3 = (w4, Ok tt) /\
    fs w4 !! output_path
      = Some (hierarchy_text exporter +:+
              motion_text exporter (rotations motion) (translations motion)) /\
    length (data3 (rotations motion)) = cols m.
Proof.
  intros Hextract Hnz Hd Hinit Hw.
  apply extract_features_run in Hextract
    as (audio & sr & tp & bt & spec & mel_db & chroma_f & onset_env & synced & d & m
        & _ & _ & _ & _ & _ & _ & _ & _ & Hfeats & Hm & _ & Hwr & _).
  destruct (get_generator_run (F:=F) w1) as (g & Hloaded & Hmodel & Hget).
  assert (duration feats = Some d /\ tempo feats = Some tp) as [Hdur Htp]
    by (by subst feats).
  destruct (dance_generate_run g feats style None
              (mkWorld (fs w1) (writable w1)
                 (stdout w1 ++
                  [ "🔄 Loading dance generator (first time)...";
                    nl +:+ "🤖 Initializing Dance Generator (CPU mode)";
                    "📦 Loading model from: models/baseline";
                    "ℹ️  Creating baseline procedural generator...";
                    "✅ Model loaded successfully (baseline mode)" ]))
              m d tp Hloaded Hmodel Hm Hdur Htp Hnz)
    as (motion & Hgen & Hn & Hrun).
  exists m, g. eexists. exists motion. eexists. eexists.
  split; [done|]. split; [exact Hget|]. split; [exact Hrun|]. split; [done|].
  pose proof (generate_spec feats None m Hm) as Hspec. cbn zeta in Hspec.
  rewrite Hspec in Hgen. injection Hgen as <-.
  cbn [DanceGenerator.convert_to_smpl fst snd rotations translations].
  rewrite (export_total depth fps exporter _ output_path _ _ Hd Hinit); cycle 1.
  { split; cbn [data3 dim0 dim1 dim2]; [by rewrite length_fmap, length_seq|].
    apply Forall_fmap, Forall_forall. intros i _. cbn.
    destruct (frame_pose_shape (default (of_int 120) (tempo feats))
                (default (replicate (cols m) (of_int 0)) (onset feats)) i)
      as (? & ? & _). done. }
  { intros tr [= <-]. cbn. by rewrite length_fmap, length_seq. }
  { cbn. by rewrite Hwr. }
  split; [reflexivity|]. cbn [fs default from_option id].
  split; [by rewrite lookup_insert_eq|]. cbn. by rewrite length_fmap, length_seq.
Qed.

(** X17, witness: the recorded clip taken through extraction, generation and
    export. *)
Lemma pipeline_after_extraction_witness :
  exists w1 feats,
    Clip.extract_features Examples.processor "clip.wav" Examples.world0 = (w1, Ok feats) /\
    exists m g w2 motion w3 w4,
      mel feats = Some m /\
      App.get_generator None w1 = (w2, Ok (Some g, g)) /\
      DanceGenerator.generate (H0 := Examples.float_trig) g feats (Some "auto") None w2
        = (w3, Ok motion) /\
      num_frames motion = cols m /\
      BVHExporter.export 1000 Examples.exporter60
        (DanceGenerator.convert_to_smpl g motion).1.1
        "clip_dance.bvh"
        (Some (DanceGenerator.convert_to_smpl g motion).1.2) w3
        = (w4, Ok tt) /\
      fs w4 !! "clip_dance.bvh"
        = Some (hierarchy_text Examples.exporter60 +:+
                motion_text Examples.exporter60 (rotations motion) (translations motion)) /\
      length (data3 (rotations motion)) = cols m.
Proof.
  eexists. eexists. split; [vm_compute; reflexivity|].
  apply (pipeline_after_extraction (H0 := Examples.float_trig) 2 Clip.librosa_load
           Clip.beat_track Clip.melspectrogram Clip.power_to_db Clip.chroma_cqt
           Clip.onset_strength Examples.processor "clip.wav" "clip_dance.bvh"
           (Some "auto") 1000 60 Examples.exporter60 Examples.world0).
  - vm_compute. reflexivity.
  - vm_compute. reflexivity.
  - lia.
  - vm_compute. reflexivity.
  - reflexivity.
Defined.

(** *** Further properties: the exported file reads back *)

Lemma chars_app (s1 s2 : string) : chars (s1 +:+ s2) = chars s1 ++ chars s2.
Proof.
  induction s1 as [|a s1 IH]; [done|].
  change (a :: chars (s1 +:+ s2) = a :: (chars s1 ++ chars s2)). by rewrite IH.
Qed.

Lemma chars_nil (s : string) : chars s = [] -> s = "".
Proof. by destruct s. Qed.

Lemma string_of_chars (s : string) : String.string_of_list_ascii (chars s) = s.
Proof. apply String.string_of_list_ascii_of_string. Qed.

Lemma split_chars_app (c : ascii) (l1 l2 cur : list ascii) :
  BVHSyntax.split_chars c (l1 ++ c :: l2) cur
  = BVHSyntax.split_chars c l1 cur ++ BVHSyntax.split_chars c l2 [].
Proof.
  revert cur. induction l1 as [|a l1 IH]; intros cur; simpl.
  - destruct (decide (c = c)); done.
  - destruct (decide (a = c)); simpl; by rewrite IH.
Qed.

Lemma split_chars_none (c : ascii) (l cur : list ascii) :
  c ∉ l -> BVHSyntax.split_chars c l cur = [reverse cur ++ l].
Proof.
  revert cur. induction l as [|a l IH]; intros cur Hc; simpl.
  - by rewrite app_nil_r.
  - apply not_elem_of_cons in Hc as [Hne Hc].
    destruct (decide (a = c)); [done|].
    rewrite IH by done. by rewrite reverse_cons, <- app_assoc.
Qed.

Lemma split_app (c : ascii) (s1 s2 : string) :
  BVHSyntax.split c (s1 +:+ String c s2) = BVHSyntax.split c s1 ++ BVHSyntax.split c s2.
Proof.
  unfold BVHSyntax.split. fold (chars (s1 +:+ String c s2)) (chars s1) (chars s2).
  rewrite chars_app. change (chars (String c s2)) with (c :: chars s2).
  by rewrite split_chars_app, fmap_app, filter_app.
Qed.

Lemma split_none (c : ascii) (s : string) :
  s ≠ "" -> c ∉ chars s -> BVHSyntax.split c s = [s].
Proof.
  intros Hs Hc. unfold BVHSyntax.split. fold (chars s).
  rewrite split_chars_none by done. cbn [fmap list_fmap reverse app].
  change (reverse [] ++ chars s) with (chars s). rewrite string_of_chars.
  rewrite filter_cons_True by done. done.
Qed.

Lemma split_empty (c : ascii) : BVHSyntax.split c "" = [].
Proof. reflexivity. Qed.

(** Cutting a line that [join] made of words gives the words back. *)
Lemma split_join (ws : list string) :
  Forall word ws -> BVHSyntax.split " " (join " " ws) = ws.
Proof.
  induction 1 as [|w ws (Hne & Hsp & _) Hws IH]; [done|].
  destruct ws as [|w' ws].
  - by apply split_none.
  - change (join " " (w :: w' :: ws)) with (w +:+ String " " (join " " (w' :: ws))).
    rewrite split_app, IH, split_none by done. done.
Qed.

Lemma join_no_newline (ws : list string) :
  Forall word ws -> ascii_of_nat 10 ∉ chars (join " " ws).
Proof.
  induction 1 as [|w ws (_ & _ & Hnl) Hws IH]; [by apply not_elem_of_nil|].
  destruct ws as [|w' ws]; [done|].
  change (join " " (w :: w' :: ws)) with (w +:+ String " " (join " " (w' :: ws))).
  rewrite chars_app. change (chars (String " " ?s)) with (" "%char :: chars s).
  rewrite not_elem_of_app, not_elem_of_cons. done.
Qed.

Lemma join_nonempty (ws : list string) :
  Forall word ws -> ws ≠ [] -> join " " ws ≠ "".
Proof.
  intros Hws Hne. destruct Hws as [|w ws (Hw & _) Hws]; [done|].
  destruct ws as [|w' ws]; [done|].
  change (join " " (w :: w' :: ws)) with (w +:+ String " " (join " " (w' :: ws))).
  by destruct w.
Qed.

(** The tokens of a text that starts with a line of words. *)
Lemma tokens_line (ws : list string) (rest : string) :
  Forall word ws -> ws ≠ [] ->
  BVHSyntax.tokens (join " " ws +:+ nl +:+ rest) = ws :: BVHSyntax.tokens rest.
Proof.
  intros Hws Hne. unfold BVHSyntax.tokens, nl.
  change (String (ascii_of_nat 10) "" +:+ rest) with (String (ascii_of_nat 10) rest).
  rewrite split_app, fmap_app, filter_app.
  rewrite split_none by (by apply join_nonempty || by apply join_no_newline).
  cbn [fmap list_fmap]. rewrite split_join by done.
  rewrite filter_cons_True by done. done.
Qed.

Lemma tokens_app (a b : string) :
  BVHSyntax.tokens (a +:+ nl +:+ b) = BVHSyntax.tokens (a +:+ nl) ++ BVHSyntax.tokens b.
Proof.
  unfold BVHSyntax.tokens, nl.
  change (String (ascii_of_nat 10) "" +:+ b) with (String (ascii_of_nat 10) b).
  rewrite !split_app, split_empty, app_nil_r, fmap_app, filter_app. done.
Qed.


(** Characters that can stand inside a word. *)
Lemma word_intro (s : string) :
  s ≠ "" -> Forall (fun a => a ≠ " "%char /\ a ≠ ascii_of_nat 10) (chars s) -> word s.
Proof.
  intros Hne Hall. split; [done|]. rewrite Forall_forall in Hall.
  split; intros Hin; by destruct (Hall _ Hin).
Qed.

Lemma word_chars (s : string) :
  word s -> Forall (fun a => a ≠ " "%char /\ a ≠ ascii_of_nat 10) (chars s).
Proof.
  intros (_ & Hsp & Hnl). apply Forall_forall. intros a Ha. split; by intros ->.
Qed.

Lemma word_app (s1 s2 : string) : word s1 -> word s2 -> word (s1 +:+ s2).
Proof.
  intros H1 H2. apply word_intro.
  - destruct H1 as (Hne & _). by destruct s1.
  - rewrite chars_app. apply Forall_app. split; by apply word_chars.
Qed.

Lemma pretty_N_char_plain (x : N) :
  pretty_N_char x ≠ " "%char /\ pretty_N_char x ≠ ascii_of_nat 10.
Proof. unfold pretty_N_char. repeat case_match; done. Qed.

Lemma pretty_N_go_word (x : N) (s : string) :
  Forall (fun a => a ≠ " "%char /\ a ≠ ascii_of_nat 10) (chars s) ->
  ((0 < x)%N \/ s ≠ "") ->
  word (pretty_N_go x s).
Proof.
  revert s. induction (N.lt_wf_0 x) as [x _ IH]. intros s Hs Hne.
  destruct (decide (0 < x)%N) as [Hx|Hx].
  - rewrite pretty_N_go_step by done. apply IH.
    + by apply N.div_lt.
    + change (chars (String ?a s)) with (a :: chars s).
      apply Forall_cons. split; [apply pretty_N_char_plain|done].
    + by right.
  - assert (x = 0%N) as -> by lia. rewrite pretty_N_go_0.
    destruct Hne as [?|Hne]; [lia|]. by apply word_intro.
Qed.

Lemma pretty_N_word (x : N) : word (pretty x).
Proof.
  unfold pretty, pretty_N. destruct (decide (x = 0%N)) as [->|Hx].
  - apply word_intro; [done|]. repeat constructor; done.
  - apply pretty_N_go_word; [apply Forall_nil; done|]. left. lia.
Qed.

Lemma pretty_nat_word (n : nat) : word (pretty n).
Proof. apply pretty_N_word. Qed.

Lemma pad_zeros_word (width : nat) (s : string) :
  word s -> word (Float64.pad_zeros width s).
Proof.
  intros Hs. unfold Float64.pad_zeros.
  induction (width - String.length s)%nat as [|k IH]; [done|].
  change (String.string_of_list_ascii (replicate (S k) "0"%char) +:+ s)
    with (String "0" (String.string_of_list_ascii (replicate k "0"%char) +:+ s)).
  apply (word_app "0"); [|done]. apply word_intro; [done|]. repeat constructor; done.
Qed.

Lemma fixed_word (prec : nat) (neg : bool) (n : Z) : word (Float64.fixed prec neg n).
Proof.
  unfold Float64.fixed.
  assert (word (pretty (Z.to_N (n / 10 ^ Z.of_nat prec)) +:+
                match prec with
                | O => ""
                | S _ => "." +:+ Float64.pad_zeros prec
                                   (pretty (Z.to_N (n mod 10 ^ Z.of_nat prec)))
                end)) as Hbody.
  { destruct prec as [|prec].
    - rewrite str_app_nil_r. apply pretty_N_word.
    - apply word_app; [apply pretty_N_word|].
      apply (word_app "."); [apply word_intro; [done|]; repeat constructor; done|].
      apply pad_zeros_word, pretty_N_word. }
  destruct neg; [|exact Hbody].
  apply (word_app "-"); [|exact Hbody].
  apply word_intro; [done|]. repeat constructor; done.
Qed.

(** Every formatted number is one word. *)
Lemma format_word (prec : nat) (x : float) : word (Float64.format prec x).
Proof.
  unfold Float64.format. destruct (Prim2SF x) as [s|s| |s m e].
  - apply fixed_word.
  - destruct s; (apply word_intro; [done|]; repeat constructor; done).
  - apply word_intro; [done|]. repeat constructor; done.
  - apply fixed_word.
Qed.


Lemma tokens_frames (trs : list (list float)) (frs : list (list (list float))) :
  Forall (fun tr => tr ≠ []) trs ->
  BVHSyntax.tokens (str_concat (zip_with frame_line trs frs)) = zip_with frame_words trs frs.
Proof.
  intros Htrs. revert frs. induction Htrs as [|tr trs Htr _ IH]; intros frs; [done|].
  destruct frs as [|fr frs]; [done|].
  cbn [zip_with str_concat]. unfold frame_line at 1. rewrite str_app_assoc.
  rewrite tokens_line.
  - by rewrite IH.
  - apply Forall_fmap, Forall_forall. intros x _. apply format_word.
  - destruct tr; done.
Qed.

Ltac plain_word :=
  apply word_intro; [done | repeat (apply Forall_cons_2; [done|]); apply Forall_nil_2].

Ltac words :=
  repeat (apply Forall_cons_2;
          [first [plain_word | apply pretty_nat_word | apply format_word]|]);
  apply Forall_nil_2.

Lemma tokens_motion (self : BVHExporter.t float) (motion_data : ndarray3 float)
    (translations : ndarray2 float) :
  Forall (fun tr => tr ≠ []) (data2 translations) ->
  BVHSyntax.tokens (motion_text self motion_data translations)
  = ["MOTION"] :: ["Frames:"; pretty (dim0 motion_data)]
    :: ["Frame"; "Time:"; format_f 6 (BVHExporter.frame_time self)]
    :: zip_with frame_words (data2 translations) (data3 motion_data).
Proof.
  intros Htrs. unfold motion_text.
  change ("MOTION" +:+ nl +:+ ?rest) with (join " " ["MOTION"] +:+ nl +:+ rest).
  rewrite tokens_line; [|words|done].
  change ("Frames: " +:+ ?x +:+ nl) with (join " " ["Frames:"; x] +:+ nl).
  rewrite str_app_assoc, tokens_line; [|words|done].
  change ("Frame Time: " +:+ ?x +:+ nl) with (join " " ["Frame"; "Time:"; x] +:+ nl).
  rewrite str_app_assoc, tokens_line; [|words|done].
  by rewrite tokens_frames.
Qed.


Lemma hierarchy_text_last_line (self : BVHExporter.t float) :
  exists body, hierarchy_text self = body +:+ nl.
Proof.
  exists (String.substring 0 (String.length (hierarchy_text self) - 1) (hierarchy_text self)).
  vm_compute. reflexivity.
Qed.

Lemma tokens_file (self : BVHExporter.t float) (motion_data : ndarray3 float)
    (translations : ndarray2 float) :
  Forall (fun tr => tr ≠ []) (data2 translations) ->
  BVHSyntax.tokens (hierarchy_text self +:+ motion_text self motion_data translations)
  = BVHSyntax.tokens (hierarchy_text self) ++
    ["MOTION"] :: ["Frames:"; pretty (dim0 motion_data)]
    :: ["Frame"; "Time:"; format_f 6 (BVHExporter.frame_time self)]
    :: zip_with frame_words (data2 translations) (data3 motion_data).
Proof.
  intros Htrs. destruct (hierarchy_text_last_line self) as [body ->].
  by rewrite str_app_assoc, tokens_app, tokens_motion.
Qed.

Lemma parse_file_tokens (self : BVHExporter.t float) (n_str ft : string)
    (lines : list (list string)) :
  exists root,
    match BVHSyntax.tokens (hierarchy_text self) ++
          ["MOTION"] :: ["Frames:"; n_str] :: ["Frame"; "Time:"; ft] :: lines with
    | [h] :: ls =>
        if bool_decide (h = "HIERARCHY") then
          '(root, rest) ← BVHSyntax.parse_block (length ls) ls;
          m ← BVHSyntax.parse_motion rest;
          Some (root, m)
        else None
    | _ => None
    end = Some (root, BVHSyntax.mkMotionText n_str ft lines) /\
    BVHSyntax.parse_hierarchy (hierarchy_text self) = Some root /\
    BVHSyntax.declared_channels root = 75%nat.
Proof.
  eexists. split; [vm_compute; reflexivity|]. split; vm_compute; reflexivity.
Qed.

(** X22: The exported file reads back.  For rotations of shape (n, 24, 3) and
    translations that are absent (the exporter then takes n rows of zeros)
    or of shape (n, 3), the file [export] writes parses as a HIERARCHY
    section followed by a MOTION section: the tree is the one of the
    hierarchy text, the header declares n frames and the exporter's frame
    time with six decimals, there are exactly n frame lines, line i holds
    the six-decimal renderings of translation i followed by the rotation
    triples of frame i, and every line has as many values as the hierarchy
    declares channels, 75. *)
Theorem export_reads_back (depth : nat) (fps : Z) (self : BVHExporter.t float)
    (motion_data : ndarray3 float) (translations : option (ndarray2 float))
    (output_path : string) (w : World) :
  (9 <= depth)%nat ->
  BVHExporter.__init__ fps = Ok self ->
  wf3 motion_data -> dim1 motion_data = 24%nat -> dim2 motion_data = 3%nat ->
  (forall tr, translations = Some tr ->
     wf2 tr /\ rows tr = dim0 motion_data /\ cols tr = 3%nat) ->
  writable w output_path = true ->
  exists w' text root m,
    BVHExporter.export depth self motion_data output_path translations w = (w', Ok tt) /\
    fs w' !! output_path = Some text /\
    BVHSyntax.parse_bvh text = Some (root, m) /\
    BVHSyntax.parse_hierarchy (hierarchy_text self) = Some root /\
    BVHSyntax.declared_frames m = pretty (dim0 motion_data) /\
    BVHSyntax.declared_frame_time m = format_f 6 (BVHExporter.frame_time self) /\
    BVHSyntax.frame_lines m
      = zip_with frame_words
          (data2 (default (np_zeros2 (dim0 motion_data) 3) translations))
          (data3 motion_data) /\
    length (BVHSyntax.frame_lines m) = dim0 motion_data /\
    Forall (fun line => length line = BVHSyntax.declared_channels root)
           (BVHSyntax.frame_lines m).
Proof.
  intros Hd Hinit [Hlen3 Hfr] Hd1 Hd2 Hgiven Hw.
  set (trs := default (np_zeros2 (dim0 motion_data) 3) translations).
  assert (wf2 trs /\ rows trs = dim0 motion_data /\ cols trs = 3%nat)
    as ([Hlen2 Htr] & Hrows & Hcols).
  { subst trs. destruct translations as [tr|]; [by apply Hgiven|].
    split; [apply np_zeros2_wf|done]. }
  assert (Forall (fun tr : list float => tr ≠ []) (data2 trs)) as Hne.
  { eapply Forall_impl; [exact Htr|]. intros tr Hl ->. simpl in Hl. lia. }
  destruct (parse_file_tokens self (pretty (dim0 motion_data))
              (format_f 6 (BVHExporter.frame_time self))
              (zip_with frame_words (data2 trs) (data3 motion_data)))
    as (root & Hparse & Hhier & Hchan).
  assert (forall tr, translations = Some tr ->
            (dim0 motion_data <= length (data2 tr))%nat) as Htrs.
  { intros tr Heq. subst trs. rewrite Heq in Hlen2, Hrows. cbn in Hlen2, Hrows. lia. }
  pose proof (export_total depth fps self motion_data output_path translations w
                Hd Hinit (conj Hlen3 Hfr) Htrs Hw) as Hexport.
  fold trs in Hexport.
  eexists. exists (hierarchy_text self +:+ motion_text self motion_data trs).
  exists root. exists (BVHSyntax.mkMotionText (pretty (dim0 motion_data))
                         (format_f 6 (BVHExporter.frame_time self))
                         (zip_with frame_words (data2 trs) (data3 motion_data))).
  split; [exact Hexport|].
  cbn [fs]. split; [apply lookup_insert_eq|].
  split.
  { unfold BVHSyntax.parse_bvh. rewrite tokens_file by exact Hne. exact Hparse. }
  split; [exact Hhier|]. cbn [BVHSyntax.declared_frames BVHSyntax.declared_frame_time
                        BVHSyntax.frame_lines].
  split; [reflexivity|]. split; [reflexivity|]. split; [reflexivity|].
  split.
  { rewrite length_zip_with. lia. }
  rewrite Hchan. apply Forall_forall. intros line Hline.
  apply elem_of_lookup_zip_with in Hline as (i & tr & fr & -> & Htri & Hfri).
  rewrite Forall_lookup in Htr. rewrite Forall_lookup in Hfr.
  pose proof (Htr _ _ Htri) as Hl. destruct (Hfr _ _ Hfri) as [Hl1 Hl2].
  unfold frame_words. rewrite length_fmap, length_app, Hl, Hcols.
  rewrite Hd1 in Hl1. rewrite Hd2 in Hl2.
  assert (length (concat fr) = (length fr * 3)%nat) as ->; [|lia].
  clear -Hl2. induction Hl2 as [|r fr Hr _ IH]; [done|].
  simpl. rewrite length_app, IH, Hr. lia.
Qed.

(** X22, witness: one frame, one metre above the ground. *)
Lemma export_reads_back_witness :
  exists w' text root m,
    BVHExporter.export 1000 Examples.exporter60 Examples.numbered_pose "out.bvh"
      (Some (NDArray2 1 3 [[0; 1; 0]%float])) Examples.world0 = (w', Ok tt) /\
    fs w' !! "out.bvh" = Some text /\
    BVHSyntax.parse_bvh text = Some (root, m) /\
    BVHSyntax.parse_hierarchy (hierarchy_text Examples.exporter60) = Some root /\
    BVHSyntax.declared_frames m = pretty (dim0 Examples.numbered_pose) /\
    BVHSyntax.declared_frame_time m
      = format_f 6 (BVHExporter.frame_time Examples.exporter60) /\
    BVHSyntax.frame_lines m
      = zip_with frame_words
          (data2 (default (np_zeros2 (dim0 Examples.numbered_pose) 3)
                    (Some (NDArray2 1 3 [[0; 1; 0]%float]))))
          (data3 Examples.numbered_pose) /\
    length (BVHSyntax.frame_lines m) = dim0 Examples.numbered_pose /\
    Forall (fun line => length line = BVHSyntax.declared_channels root)
           (BVHSyntax.frame_lines m).
Proof.
  apply (export_reads_back 1000 60 Examples.exporter60 Examples.numbered_pose
           (Some (NDArray2 1 3 [[0; 1; 0]%float])) "out.bvh" Examples.world0).
  - lia.
  - vm_compute. reflexivity.
  - split; [reflexivity|]. repeat constructor.
  - reflexivity.
  - reflexivity.
  - intros tr [= <-]. split; [|split; reflexivity].
    split; [reflexivity|]. repeat constructor.
  - reflexivity.
Defined.

(** *** Further properties: bone offsets and degenerate rates *)

Lemma joint_offset_default {F : Type} `{FloatOps F} (self : BVHExporter.t F) (j : nat) :
  (24 <= j)%nat ->
  BVHExporter._get_joint_offset self j = [of_int 0; of_int 0; of_int 0].
Proof.
  intros Hj. unfold BVHExporter._get_joint_offset, BVHExporter.offsets.
  rewrite (not_elem_of_list_to_map_1 _ j); [done|].
  cbn [fmap list_fmap fst]. intros Hin.
  repeat (apply elem_of_cons in Hin as [->|Hin]; [lia|]).
  by apply elem_of_nil in Hin.
Qed.

(** X23: The OFFSET line of every joint in the hierarchy gives the three
    entries of [_get_joint_offset] for that joint with six decimals; the
    fallback [0.0, 0.0, 0.0] of the lookup is what an index outside the 24
    table entries would get, and is never used for a joint of the skeleton. *)
Theorem hierarchy_offsets (self : BVHExporter.t float) :
  exists root,
    BVHSyntax.parse_hierarchy (hierarchy_text self) = Some root /\
    Forall (fun b =>
              exists j, BVHSyntax.joint_index b = Some j /\ (j < 24)%nat /\
                BVHExporter.offsets (F:=float) !! j
                  = Some (BVHExporter._get_joint_offset self j) /\
                BVHSyntax.offset b
                  = format_f 6 <$> BVHExporter._get_joint_offset self j)
           (BVHSyntax.preorder root) /\
    length (BVHSyntax.preorder root) = 24%nat /\
    forall j, (24 <= j)%nat ->
      BVHExporter.offsets (F:=float) !! j = None /\
      BVHExporter._get_joint_offset self j = [of_int 0; of_int 0; of_int 0].
Proof.
  destruct (BVHSyntax.parse_hierarchy (hierarchy_text self)) as [root|] eqn:Hparse;
    [|by vm_compute in Hparse].
  exists root. split; [done|].
  vm_compute in Hparse. injection Hparse as <-.
  split.
  { cbn [BVHSyntax.preorder BVHSyntax.children flat_map app].
    repeat (apply Forall_cons; split;
            [eexists; split; [reflexivity|]; split; [lia|]; split;
             vm_compute; reflexivity|]).
    apply Forall_nil. done. }
  split; [reflexivity|].
  intros j Hj. split; [|by apply joint_offset_default].
  unfold BVHExporter.offsets.
  apply not_elem_of_list_to_map_1. cbn [fmap list_fmap fst]. intros Hin.
  repeat (apply elem_of_cons in Hin as [->|Hin]; [lia|]).
  by apply elem_of_nil in Hin.
Qed.

(** X24: A zero sample rate or a zero hop length makes the synchronizer fail
    with ZeroDivisionError, in exact arithmetic as on floats: the feature
    rate [audio_sr / hop_length] cannot be formed, or is zero when the
    duration is divided by it. *)
Theorem real_sync_zero_rate (minval : nat) (self : AudioProcessor.t)
    (mel_in chroma_in : ndarray2 R) (onset_in : list R) (audio_sr hop_length : Z) :
  audio_sr = 0 \/ hop_length = 0 ->
  fails_with "ZeroDivisionError"
    (AudioProcessor.sync_to_fps minval self mel_in chroma_in onset_in audio_sr hop_length).
Proof.
  intros Hzero. unfold AudioProcessor.sync_to_fps, py_div.
  cbn [feqb fdiv of_int RealModel.ops].
  destruct (Req_dec_T (IZR hop_length) 0) as [Hhop|Hhop]; [by eexists|].
  cbn [mbind result_bind].
  destruct Hzero as [->| ->]; [|done].
  destruct (Req_dec_T (0 / IZR hop_length) 0) as [_|Hne]; [by eexists|].
  exfalso. apply Hne. unfold Rdiv. ring.
Qed.

(** X24, witness: a hop length of zero. *)
Lemma real_sync_zero_rate_witness :
  fails_with "ZeroDivisionError"
    (AudioProcessor.sync_to_fps 2 Examples.processor sample_stream sample_stream
       [0; 1; 4]%R 48000 0).
Proof.
  apply (real_sync_zero_rate 2 Examples.processor sample_stream sample_stream
           [0; 1; 4]%R 48000 0).
  right. reflexivity.
Defined.
